(** * LLM comparison dashboard: provider adapters and comparison orchestrator

    A shallow embedding of the TypeScript services of the dashboard
    ([OpenAIService], [AnthropicService], [GGUFService], [OllamaService],
    [ComparisonService]), of the comparison page ([handleCompare], the check
    boxes, [prepareChartData]), of the settings page with its connection
    dialog and of the first dashboard with its [ModelService], followed by
    the properties of the specification that can be stated over them and by
    further properties of the code.

    Conventions of the embedding.
    - A JavaScript number is an extended rational ([JS.num]): finite values are
      exact rationals (IEEE rounding and overflow are not modelled, and zero is
      unsigned), the three special values are [PInf], [NInf] and [NaN].
    - A string is a sequence of code units below 256.
    - An [async] function is a computation in [Async]: it logs the requests
      handed to [fetch] and ends in a settled promise, [Resolved] or
      [Rejected]. What the network answers, and what the clock reads, is not
      decided by the program: it is an explicit argument (a [CallEnv]).
    - A thrown value is always an [Error]; only its [message] is ever read, so
      a rejection carries the message.
    - A reply is seen through the reads the code makes on it: a field is
      absent or has the type its reader expects.
    - A capability or price table is an object literal: a lookup by a name it
      does not list finds what [Object.prototype] has under that name, if
      anything ([JS.member]). The history of the comparison page is keyed by
      connection identifiers, taken not to be such names. *)

From Stdlib Require Import QArith Qround ZArith Lia Ascii String.
From stdpp Require Import base option list gmap strings pretty sorting.

Local Open Scope string_scope.
Local Open Scope list_scope.

(** ** JavaScript values *)

Module JS.

Inductive num : Type :=
| Fin (q : Q)
| PInf
| NInf
| NaN.

Definition of_Z (z : Z) : num := Fin (inject_Z z).
Definition of_nat (n : nat) : num := of_Z (Z.of_nat n).

Definition qsign (q : Q) : comparison := Qcompare q 0.

(** [a / b] *)
Definition div (a b : num) : num :=
  match a, b with
  | NaN, _ | _, NaN => NaN
  | Fin x, Fin y =>
      match qsign y with
      | Eq => match qsign x with Eq => NaN | Gt => PInf | Lt => NInf end
      | _ => Fin (Qred (x / y))
      end
  | Fin _, (PInf | NInf) => Fin 0
  | PInf, Fin y => match qsign y with Lt => NInf | _ => PInf end
  | NInf, Fin y => match qsign y with Lt => PInf | _ => NInf end
  | (PInf | NInf), (PInf | NInf) => NaN
  end.

(** [a * b] *)
Definition mul (a b : num) : num :=
  match a, b with
  | NaN, _ | _, NaN => NaN
  | Fin x, Fin y => Fin (Qred (x * y))
  | Fin x, PInf | PInf, Fin x =>
      match qsign x with Eq => NaN | Gt => PInf | Lt => NInf end
  | Fin x, NInf | NInf, Fin x =>
      match qsign x with Eq => NaN | Gt => NInf | Lt => PInf end
  | PInf, PInf | NInf, NInf => PInf
  | PInf, NInf | NInf, PInf => NInf
  end.

(** [a + b] on numbers *)
Definition add (a b : num) : num :=
  match a, b with
  | NaN, _ | _, NaN => NaN
  | Fin x, Fin y => Fin (Qred (x + y))
  | PInf, NInf | NInf, PInf => NaN
  | PInf, _ | _, PInf => PInf
  | NInf, _ | _, NInf => NInf
  end.

(** [a - b] *)
Definition sub (a b : num) : num :=
  match a, b with
  | NaN, _ | _, NaN => NaN
  | Fin x, Fin y => Fin (Qred (x - y))
  | PInf, PInf | NInf, NInf => NaN
  | PInf, _ | _, NInf => PInf
  | NInf, _ | _, PInf => NInf
  end.

(** [Math.ceil] *)
Definition ceil (a : num) : num :=
  match a with
  | Fin q => of_Z (Qceiling q)
  | _ => a
  end.

(** ToBoolean on a number: [0] and [NaN] are falsy. *)
Definition truthy (a : num) : bool :=
  match a with
  | Fin q => negb (Qeq_bool q 0)
  | PInf | NInf => true
  | NaN => false
  end.

(** ToNumber on an optional numeric property: [undefined] becomes [NaN]. *)
Definition to_num (o : option num) : num := default NaN o.

(** ToBoolean on an optional numeric property. *)
Definition truthy_opt (o : option num) : bool :=
  match o with Some n => truthy n | None => false end.

(** [o || d] where [o] is an optional number *)
Definition or_num (o : option num) (d : num) : num :=
  match o with
  | Some n => if truthy n then n else d
  | None => d
  end.

(** [o || d] where both sides are optional numbers *)
Definition or_opt (o d : option num) : option num :=
  if truthy_opt o then o else d.

(** [o || d] where [o] is an optional string: the empty string is falsy. *)
Definition or_str (o : option string) (d : string) : string :=
  match o with
  | Some EmptyString | None => d
  | Some s => s
  end.

(** ToBoolean on an optional string property (as in [filter(r => r.error)]) *)
Definition truthy_str (o : option string) : bool :=
  match o with
  | Some EmptyString | None => false
  | Some _ => true
  end.

Definition is_finite (a : num) : Prop :=
  match a with Fin _ => True | _ => False end.

Definition is_nonneg (a : num) : Prop :=
  match a with Fin q => (0 <= q)%Q | PInf => True | _ => False end.

(** The white space removed by [String.prototype.trim], among the code
    units below 256: TAB, LF, VT, FF, CR, SPACE and NBSP. *)
Definition is_space (c : ascii) : bool :=
  let n := nat_of_ascii c in
  ((9 <=? n)%nat && (n <=? 13)%nat) || (n =? 32)%nat || (n =? 160)%nat.

Fixpoint trimStart (s : string) : string :=
  match s with
  | EmptyString => EmptyString
  | String c s' => if is_space c then trimStart s' else s
  end.

Fixpoint trimEnd (s : string) : string :=
  match s with
  | EmptyString => EmptyString
  | String c s' =>
      match trimEnd s' with
      | EmptyString => if is_space c then EmptyString else String c EmptyString
      | t => String c t
      end
  end.

Definition trim (s : string) : string := trimEnd (trimStart s).

Fixpoint whitespace_only (s : string) : bool :=
  match s with
  | EmptyString => true
  | String c s' => is_space c && whitespace_only s'
  end.

(** [s.startsWith(p)] *)
Definition startsWith (s p : string) : bool := String.prefix p s.

(** [s.includes(p)] *)
Fixpoint includes (s p : string) : bool :=
  String.prefix p s ||
  match s with
  | EmptyString => false
  | String _ s' => includes s' p
  end.

(** [s.length] as a number *)
Definition length (s : string) : num := of_nat (String.length s).

(** The property names an object literal inherits from [Object.prototype] *)
Definition inherited (key : string) : bool :=
  bool_decide (key ∈ [ "constructor"; "hasOwnProperty"; "isPrototypeOf";
                       "propertyIsEnumerable"; "toLocaleString"; "toString"; "valueOf";
                       "__proto__"; "__defineGetter__"; "__defineSetter__";
                       "__lookupGetter__"; "__lookupSetter__" ]).

(** What [table[key]] finds in an object literal used as a table: an entry
    of its own, a member inherited from [Object.prototype] (a function, or
    the prototype itself: truthy, none of the entry's fields, [NaN] as a
    number), or nothing. *)
Inductive Member (A : Type) : Type :=
| Own (entry : A)
| Inherited
| Missing.
Arguments Own {A} entry.
Arguments Inherited {A}.
Arguments Missing {A}.

Definition member {A} (own : option A) (key : string) : Member A :=
  match own with
  | Some entry => Own entry
  | None => if inherited key then Inherited else Missing
  end.

(** The value of a digit of [parseInt], in any radix up to 36 *)
Definition digit_value (c : ascii) : option Z :=
  let n := Z.of_nat (nat_of_ascii c) in
  if (48 <=? n)%Z && (n <=? 57)%Z then Some (n - 48)%Z
  else if (97 <=? n)%Z && (n <=? 122)%Z then Some (n - 87)%Z
  else if (65 <=? n)%Z && (n <=? 90)%Z then Some (n - 55)%Z
  else None.

(** The value of the longest prefix of [s] made of digits of the radix,
    continuing the digits already read, if any *)
Fixpoint leading_digits (radix : Z) (s : string) (read : option Z) : option Z :=
  match s with
  | EmptyString => read
  | String c s' =>
      match digit_value c with
      | Some d =>
          if (d <? radix)%Z
          then leading_digits radix s' (Some (default 0%Z read * radix + d)%Z)
          else read
      | None => read
      end
  end.

(** [parseInt(s)] with no radix: leading white space is skipped, then a
    sign, then [0x] or [0X] selects radix 16; the longest prefix of digits is
    read, and [NaN] is the result when there is none. *)
Definition parseInt (s : string) : num :=
  let s := trimStart s in
  let '(sign, s) :=
    match s with
    | String "-" s' => ((-1)%Z, s')
    | String "+" s' => (1%Z, s')
    | _ => (1%Z, s)
    end in
  let '(radix, s) :=
    match s with
    | String "0" (String "x" s') | String "0" (String "X" s') => (16%Z, s')
    | _ => (10%Z, s)
    end in
  match leading_digits radix s None with
  | Some n => of_Z (sign * n)
  | None => NaN
  end.

End JS.

Notation "a // b" := (JS.div a b) (at level 40, left associativity).

(** ** Promises, [fetch] and [async] functions *)

(** A settled promise. *)
Inductive Completion (A : Type) : Type :=
| Resolved (a : A)
| Rejected (message : string).
Arguments Resolved {A} a.
Arguments Rejected {A} message.

(** The body of an outbound request, one shape per endpoint. *)
Inductive Payload : Type :=
| NoPayload
| OpenAIChat (model : string) (messages : list (string * string))
    (temperature max_tokens : JS.num)
| AnthropicMessages (model : string) (messages : list (string * string))
    (max_tokens temperature : JS.num)
| OllamaGenerate (model prompt : string) (stream : bool)
    (temperature : JS.num) (num_predict num_ctx num_thread : option JS.num)
| GGUFCompletion (prompt : string) (temperature max_tokens : JS.num).

Record Request : Type := mkRequest {
  url : string;
  method : string;
  headers : list (string * string);
  payload : Payload
}.

(** What [fetch] resolves to, seen through the reads the caller makes:
    [response.ok] is false ([HttpFailure], whose body is read as an error
    object) or true ([HttpSuccess], whose body is read as data). The body is
    the promise returned by [response.json()]. *)
Inductive Response (E P : Type) : Type :=
| HttpFailure (statusText : string) (body : Completion E)
| HttpSuccess (body : Completion P).
Arguments HttpFailure {E P} statusText body.
Arguments HttpSuccess {E P} body.

(** An [async] computation: the requests issued, and how it settles. *)
Definition Async (A : Type) : Type := (list Request * Completion A)%type.

Module Async.

Definition ret {A} (a : A) : Async A := ([], Resolved a).

(** [throw new Error(message)] *)
Definition throw {A} (message : string) : Async A := ([], Rejected message).

Definition bind {A B} (m : Async A) (f : A → Async B) : Async B :=
  match m with
  | (log, Resolved a) => let '(log', r) := f a in (log ++ log', r)
  | (log, Rejected e) => (log, Rejected e)
  end.

(** [try { m } catch (error) { handler error.message }] *)
Definition try_catch {A} (m : Async A) (handler : string → Async A) : Async A :=
  match m with
  | (log, Resolved a) => (log, Resolved a)
  | (log, Rejected e) => let '(log', r) := handler e in (log ++ log', r)
  end.

(** [await fetch(...)]: the request is logged, the environment answers. *)
Definition fetch {A} (rq : Request) (answer : Completion A) : Async A :=
  ([rq], answer).

(** [await p] for a promise that issues nothing, such as [response.json()] *)
Definition await {A} (p : Completion A) : Async A := ([], p).

Definition requests {A} (m : Async A) : list Request := fst m.
Definition outcome {A} (m : Async A) : Completion A := snd m.

End Async.

#[export] Instance Async_ret : MRet Async := @Async.ret.
#[export] Instance Async_bind : MBind Async := fun A B f m => Async.bind m f.

(** [Cannot read properties of undefined (reading 'p')]: the [TypeError] of a
    property read on [undefined] (the wording is the engine's). *)
Definition TypeError_undefined (p : string) : string :=
  "Cannot read properties of undefined (reading '" +:+ p +:+ "')".

(** [o.p] where [o] may be [undefined] *)
Definition read {A} (o : option A) (p : string) : Async A :=
  match o with
  | Some a => Async.ret a
  | None => Async.throw (TypeError_undefined p)
  end.

(** ** Methods that send other bodies, or write a field

    [IO] is [Async] with a richer log: a request may carry one of the bodies
    below, and a write to the field [modelInfo] of an [OllamaService] is
    logged where it happens, so that what a method has stored is known also
    when it is rejected. *)

Inductive Body : Type :=
| PayloadBody (p : Payload)
| NameBody (name : string)
| StartBody (modelPath : string) (port : Z)
| MessagesBody (model : string) (messages : list (string * string)) (max_tokens : JS.num)
| PromptBody (model prompt : string)
| InputsBody (inputs : string) (temperature max_tokens : JS.num).

Record Call : Type := mkCall {
  call_url : string;
  call_method : string;
  call_headers : list (string * string);
  call_body : Body
}.

Definition of_request (rq : Request) : Call :=
  mkCall (url rq) (method rq) (headers rq) (PayloadBody (payload rq)).

(** The answer of [/api/show], as the interface [OllamaModelInfo] has it. *)
Record OllamaModelInfo : Type := mkInfo {
  info_name : string;
  info_size : JS.num;
  info_digest : string;
  info_modified_at : string;
  info_format : string;
  info_family : string;
  info_parameter_size : string;
  info_quantization_level : option string
}.

Inductive Event : Type :=
| Fetched (call : Call)
| Stored (modelName : string) (info : OllamaModelInfo).

Definition IO (A : Type) : Type := (list Event * Completion A)%type.

Module IO.

Definition ret {A} (a : A) : IO A := ([], Resolved a).

Definition throw {A} (message : string) : IO A := ([], Rejected message).

Definition bind {A B} (m : IO A) (f : A → IO B) : IO B :=
  match m with
  | (log, Resolved a) => let '(log', r) := f a in (log ++ log', r)
  | (log, Rejected e) => (log, Rejected e)
  end.

Definition try_catch {A} (m : IO A) (handler : string → IO A) : IO A :=
  match m with
  | (log, Resolved a) => (log, Resolved a)
  | (log, Rejected e) => let '(log', r) := handler e in (log ++ log', r)
  end.

Definition fetch {A} (call : Call) (answer : Completion A) : IO A :=
  ([Fetched call], answer).

Definition await {A} (p : Completion A) : IO A := ([], p).

(** [this.modelInfo[modelName] = info] *)
Definition store (modelName : string) (info : OllamaModelInfo) : IO unit :=
  ([Stored modelName info], Resolved ()).

(** [o.p] where [o] may be [undefined] *)
Definition read {A} (o : option A) (p : string) : IO A :=
  match o with
  | Some a => ret a
  | None => throw (TypeError_undefined p)
  end.

(** A call of an [async] method that is not awaited: what it sends is sent,
    and its promise is handed back. *)
Definition call {A} (m : IO A) : IO (Completion A) := (fst m, Resolved (snd m)).

(** An [Async] method called from an [IO] one *)
Definition lift {A} (m : Async A) : IO A :=
  (Fetched ∘ of_request <$> fst m, snd m).

Definition events {A} (m : IO A) : list Event := fst m.
Definition outcome {A} (m : IO A) : Completion A := snd m.

(** The requests of a log, in the order they were sent *)
Definition calls (log : list Event) : list Call :=
  omap (λ e, match e with Fetched c => Some c | Stored _ _ => None end) log.

(** The field [modelInfo] after the writes of a log *)
Definition modelInfo_after (log : list Event) (modelInfo : gmap string OllamaModelInfo)
    : gmap string OllamaModelInfo :=
  fold_left
    (λ stored e, match e with Stored k info => <[k := info]> stored | Fetched _ => stored end)
    log modelInfo.

End IO.

#[export] Instance IO_ret : MRet IO := @IO.ret.
#[export] Instance IO_bind : MBind IO := fun A B f m => IO.bind m f.

(** ** [types/model-config] *)

Record BaseModelConfig : Type := mkBase {
  id : string;
  name : string;
  enabled : bool;
  provider : string;
  temperature : option JS.num;
  maxTokens : option JS.num
}.

Record APIEndpointConfig : Type := mkAPI {
  api_base :> BaseModelConfig;
  apiKey : string;
  api_baseUrl : option string;
  api_modelName : option string;
  organization : option string;
  projectId : option string;
  isProjectKey : option bool
}.

Record OllamaEndpointConfig : Type := mkOllama {
  ollama_base :> BaseModelConfig;
  baseUrl : string;
  modelName : string;
  ollama_context_size : option JS.num;
  ollama_threads : option JS.num
}.

Record GGUFModelConfig : Type := mkGGUF {
  gguf_base :> BaseModelConfig;
  modelPath : string;
  serverPort : option Z;
  gguf_context_size : option JS.num;
  gguf_threads : option JS.num
}.

Record ProviderConfigs : Type := mkConfigs {
  cfg_openai : list APIEndpointConfig;
  cfg_anthropic : list APIEndpointConfig;
  cfg_google : list APIEndpointConfig;
  cfg_ollama : list OllamaEndpointConfig;
  cfg_huggingface : list APIEndpointConfig;
  cfg_gguf : list GGUFModelConfig
}.

Record ModelCapabilities : Type := mkCapabilities {
  maxContextSize : JS.num;
  inputCostPer1k : option JS.num;
  outputCostPer1k : option JS.num;
  supportsStreaming : bool;
  supportsJsonMode : option bool;
  supportsFunctions : option bool
}.

Record ModelMetrics : Type := mkMetrics {
  responseTime : JS.num;
  tokensPerSecond : JS.num;
  totalTokens : option JS.num;
  promptTokens : option JS.num;
  completionTokens : option JS.num;
  cost : option JS.num;
  contextSize : option JS.num;
  memoryUsed : option JS.num
}.

Record ModelResponse : Type := mkResponse {
  resp_id : string;
  resp_provider : string;
  model : string;
  text : string;
  metrics : ModelMetrics;
  error : option string
}.

Record ComparisonResult : Type := mkResult {
  prompt : string;
  timestamp : string;
  responses : list ModelResponse;
  totalTime : JS.num;
  errors : option (list string)
}.

(** What one adapter call meets: the two readings of [Date.now()] around the
    request, and the answer of the network. *)
Record CallEnv (E P : Type) : Type := mkCallEnv {
  t_start : Z;
  reply : Completion (Response E P);
  t_end : Z
}.
Arguments mkCallEnv {E P} t_start reply t_end.
Arguments t_start {E P} c.
Arguments reply {E P} c.
Arguments t_end {E P} c.

(** The record [{ responseTime: 0, tokensPerSecond: 0 }] of every failure path *)
Definition zero_metrics : ModelMetrics :=
  mkMetrics (JS.of_Z 0) (JS.of_Z 0) None None None None None None.

(** [Math.ceil(text.length / 4)], the [estimateTokenCount] of three services *)
Definition estimateTokenCount (text : string) : JS.num :=
  JS.ceil (JS.length text // JS.of_Z 4).

(** The body of a failed response, seen through the one read made on it:
    [error.error?.message] for the hosted APIs, [error.error] for the local
    servers. *)
Record ErrorBody : Type := mkErrorBody { error_message : option string }.

(** ** [services/openai-service]

    [updateRateLimits] stores the rate-limit headers in [lastRateLimit].
    [listModels] and [generateResponse] never read the field, and the update
    is left out of them; [testConnection] returns what it has stored. *)

Module OpenAIService.

Definition modelCapabilities : list (string * ModelCapabilities) :=
  [ ("gpt-4",
     mkCapabilities (JS.of_Z 8192) (Some (JS.Fin 0.03)) (Some (JS.Fin 0.06))
       true (Some true) (Some true));
    ("gpt-4-turbo-preview",
     mkCapabilities (JS.of_Z 128000) (Some (JS.Fin 0.01)) (Some (JS.Fin 0.03))
       true (Some true) (Some true));
    ("gpt-3.5-turbo",
     mkCapabilities (JS.of_Z 16385) (Some (JS.Fin 0.0005)) (Some (JS.Fin 0.0015))
       true (Some true) (Some true)) ].

(** The entry of the table under [model], if it has one *)
Fixpoint capabilities_of (table : list (string * ModelCapabilities)) (model : string)
    : option ModelCapabilities :=
  match table with
  | [] => None
  | (k, c) :: rest => if String.eqb k model then Some c else capabilities_of rest model
  end.

(** [config.baseUrl || 'https://api.openai.com/v1'], set by the constructor *)
Definition baseUrl (config : APIEndpointConfig) : string :=
  JS.or_str (api_baseUrl config) "https://api.openai.com/v1".

Definition getHeaders (config : APIEndpointConfig) : list (string * string) :=
  [ ("Content-Type", "application/json");
    ("Authorization", "Bearer " +:+ apiKey config) ]
  ++ (if JS.truthy_str (organization config)
      then [("OpenAI-Organization", default "" (organization config))] else [])
  ++ (if negb (default false (isProjectKey config)) && JS.truthy_str (projectId config)
      then [("OpenAI-Project", default "" (projectId config))] else []).

(** [(promptTokens * capabilities.inputCostPer1k +
    completionTokens * capabilities.outputCostPer1k) / 1000] *)
Definition cost_at (input output : option JS.num) (promptTokens completionTokens : JS.num)
    : JS.num :=
  JS.add (JS.mul promptTokens (JS.to_num input)) (JS.mul completionTokens (JS.to_num output))
  // JS.of_Z 1000.

(** [capabilities] is [this.modelCapabilities[model] || this.modelCapabilities['gpt-4']];
    an inherited member is truthy and has neither cost. *)
Definition calculateCost (promptTokens completionTokens : JS.num) (model : string) : JS.num :=
  match JS.member (capabilities_of modelCapabilities model) model with
  | JS.Own capabilities =>
      cost_at (inputCostPer1k capabilities) (outputCostPer1k capabilities)
        promptTokens completionTokens
  | JS.Inherited => cost_at None None promptTokens completionTokens
  | JS.Missing =>
      match capabilities_of modelCapabilities "gpt-4" with
      | Some capabilities =>
          cost_at (inputCostPer1k capabilities) (outputCostPer1k capabilities)
            promptTokens completionTokens
      | None => JS.NaN
      end
  end.

(** *** [listModels] *)

Record ModelEntry : Type := mkEntry { entry_id : option string }.
Record ModelsData : Type := mkModels { data : option (list ModelEntry) }.

Definition listRequest (config : APIEndpointConfig) : Request :=
  mkRequest (baseUrl config +:+ "/models") "GET" (getHeaders config) NoPayload.

(** [data.data.filter(model => model.id.startsWith('gpt-') &&
    !model.id.includes('instruct')).map(model => model.id)] *)
Fixpoint selectModels (entries : list ModelEntry) : Async (list string) :=
  match entries with
  | [] => Async.ret []
  | e :: rest =>
      i ← read (entry_id e) "startsWith";
      kept ← selectModels rest;
      Async.ret (if JS.startsWith i "gpt-" && negb (JS.includes i "instruct")
                 then i :: kept else kept)
  end.

Definition listModels (config : APIEndpointConfig)
    (answer : Completion (Response unit ModelsData)) : Async (list string) :=
  Async.try_catch
    (response ← Async.fetch (listRequest config) answer;
     match response with
     | HttpFailure _ _ => Async.throw "Failed to fetch models"
     | HttpSuccess body =>
         d ← Async.await body;
         entries ← read (data d) "filter";
         selectModels entries
     end)
    (fun _ => Async.ret (modelCapabilities.*1)).

(** *** [generateResponse] *)

Record Usage : Type := mkUsage {
  prompt_tokens : option JS.num;
  completion_tokens : option JS.num;
  total_tokens : option JS.num
}.
Record Message : Type := mkMessage { content : string }.
Record Choice : Type := mkChoice { message : option Message }.
Record ChatData : Type := mkChatData {
  usage : option Usage;
  choices : option (list Choice)
}.

Definition model_or_default (config : APIEndpointConfig) : string :=
  JS.or_str (api_modelName config) "gpt-4".

Definition chatRequest (config : APIEndpointConfig) (prompt : string) : Request :=
  mkRequest (baseUrl config +:+ "/chat/completions") "POST" (getHeaders config)
    (OpenAIChat (model_or_default config) [("user", prompt)]
       (JS.or_num (temperature config) (JS.Fin 0.7))
       (JS.or_num (maxTokens config) (JS.of_Z 1000))).

Definition failure (config : APIEndpointConfig) (message : string) : ModelResponse :=
  mkResponse (id config) "OpenAI" (model_or_default config) "" zero_metrics (Some message).

Definition generateResponse (config : APIEndpointConfig) (prompt : string)
    (env : CallEnv ErrorBody ChatData) : Async ModelResponse :=
  let start := t_start env in
  Async.try_catch
    (response ← Async.fetch (chatRequest config prompt) (reply env);
     match response with
     | HttpFailure _ body =>
         error ← Async.await body;
         Async.throw (JS.or_str (error_message error) "OpenAI API error")
     | HttpSuccess body =>
         d ← Async.await body;
         let responseTime := JS.of_Z (t_end env - start) in
         u ← read (usage d) "completion_tokens";
         let metrics :=
           mkMetrics responseTime
             (JS.to_num (completion_tokens u) // (responseTime // JS.of_Z 1000))
             (total_tokens u) (prompt_tokens u) (completion_tokens u)
             (Some (calculateCost (JS.to_num (prompt_tokens u))
                      (JS.to_num (completion_tokens u)) (model_or_default config)))
             (maxContextSize <$> capabilities_of modelCapabilities (model_or_default config))
             None in
         cs ← read (choices d) "0";
         c ← read (cs !! 0%nat) "message";
         m ← read (message c) "content";
         Async.ret (mkResponse (id config) "OpenAI" (model_or_default config)
                      (content m) metrics None)
     end)
    (fun message => Async.ret (failure config message)).

(** *** [testConnection] *)

Record OpenAIRateLimit : Type := mkRateLimit {
  requests_limit : JS.num;
  tokens_limit : JS.num;
  requests_remaining : JS.num;
  tokens_remaining : JS.num;
  requests_reset : option string;
  tokens_reset : option string
}.

(** [response.headers], seen through the property reads made on it *)
Definition OpenAIHeaders : Type := string → option string.

(** The value [updateRateLimits] stores in [lastRateLimit] *)
Definition updateRateLimits (headers : OpenAIHeaders) : OpenAIRateLimit :=
  mkRateLimit
    (JS.parseInt (JS.or_str (headers "x-ratelimit-limit-requests") "0"))
    (JS.parseInt (JS.or_str (headers "x-ratelimit-limit-tokens") "0"))
    (JS.parseInt (JS.or_str (headers "x-ratelimit-remaining-requests") "0"))
    (JS.parseInt (JS.or_str (headers "x-ratelimit-remaining-tokens") "0"))
    (headers "x-ratelimit-reset-requests")
    (headers "x-ratelimit-reset-tokens").

Record ConnectionTest : Type := mkTest {
  success : bool;
  rateLimit : option OpenAIRateLimit
}.

Definition testConnection (config : APIEndpointConfig)
    (answer : Completion (Response ErrorBody unit)) (response_headers : OpenAIHeaders)
    : Async ConnectionTest :=
  Async.try_catch
    (response ← Async.fetch (listRequest config) answer;
     match response with
     | HttpFailure _ body =>
         error ← Async.await body;
         Async.throw (JS.or_str (error_message error) "OpenAI API error")
     | HttpSuccess _ =>
         Async.ret (mkTest true (Some (updateRateLimits response_headers)))
     end)
    (fun message => Async.throw ("Connection test failed: " +:+ message)).

(** [getModelCapabilities]: [this.modelCapabilities[model]] *)
Definition getModelCapabilities (model : string) : JS.Member ModelCapabilities :=
  JS.member (capabilities_of modelCapabilities model) model.

End OpenAIService.

(** ** [services/anthropic-service] *)

Module AnthropicService.

Definition prices : list (string * JS.num) :=
  [ ("claude-3-opus", JS.Fin 0.015);
    ("claude-3-sonnet", JS.Fin 0.003);
    ("claude-2.1", JS.Fin 0.008);
    ("claude-instant-1.2", JS.Fin 0.0008) ].

(** The entry of the table under [model], if it has one *)
Fixpoint price_of (table : list (string * JS.num)) (model : string) : option JS.num :=
  match table with
  | [] => None
  | (k, p) :: rest => if String.eqb k model then Some p else price_of rest model
  end.

(** [pricePerToken] is [prices[model] || prices['claude-3-opus']]; an
    inherited member is truthy and is [NaN] as a factor. *)
Definition calculateCost (totalTokens : JS.num) (model : string) : JS.num :=
  let pricePerToken :=
    match JS.member (price_of prices model) model with
    | JS.Own price => JS.to_num (JS.or_opt (Some price) (price_of prices "claude-3-opus"))
    | JS.Inherited => JS.NaN
    | JS.Missing => JS.to_num (price_of prices "claude-3-opus")
    end in
  JS.mul totalTokens pricePerToken // JS.of_Z 1000.

Record ContentBlock : Type := mkBlock { block_text : string }.
Record MessagesData : Type := mkData { content : option (list ContentBlock) }.

Definition model_or_default (config : APIEndpointConfig) : string :=
  JS.or_str (api_modelName config) "claude-3-opus".

Definition messagesRequest (config : APIEndpointConfig) (prompt : string) : Request :=
  mkRequest "https://api.anthropic.com/v1/messages" "POST"
    [ ("Content-Type", "application/json");
      ("x-api-key", apiKey config);
      ("anthropic-version", "2024-01-01") ]
    (AnthropicMessages (JS.or_str (api_modelName config) "claude-3-opus-20240229")
       [("user", prompt)]
       (JS.or_num (maxTokens config) (JS.of_Z 1000))
       (JS.or_num (temperature config) (JS.Fin 0.7))).

Definition failure (config : APIEndpointConfig) (message : string) : ModelResponse :=
  mkResponse (id config) "Anthropic" (model_or_default config) "" zero_metrics (Some message).

Definition generateResponse (config : APIEndpointConfig) (prompt : string)
    (env : CallEnv ErrorBody MessagesData) : Async ModelResponse :=
  let start := t_start env in
  Async.try_catch
    (response ← Async.fetch (messagesRequest config prompt) (reply env);
     match response with
     | HttpFailure _ body =>
         error ← Async.await body;
         Async.throw (JS.or_str (error_message error) "Anthropic API error")
     | HttpSuccess body =>
         d ← Async.await body;
         let responseTime := JS.of_Z (t_end env - start) in
         let promptTokens := estimateTokenCount prompt in
         blocks ← read (content d) "0";
         block ← read (blocks !! 0%nat) "text";
         let completionTokens := estimateTokenCount (block_text block) in
         let totalTokens := JS.add promptTokens completionTokens in
         let metrics :=
           mkMetrics responseTime
             (completionTokens // (responseTime // JS.of_Z 1000))
             (Some totalTokens) (Some promptTokens) (Some completionTokens)
             (Some (calculateCost totalTokens (model_or_default config)))
             None None in
         Async.ret (mkResponse (id config) "Anthropic" (model_or_default config)
                      (block_text block) metrics None)
     end)
    (fun message => Async.ret (failure config message)).

End AnthropicService.

(** ** [services/gguf-service] *)

Module GGUFService.

(** [config.serverPort || 8080], set by the constructor *)
Definition port (config : GGUFModelConfig) : Z :=
  match serverPort config with
  | Some p => if (p =? 0)%Z then 8080%Z else p
  | None => 8080%Z
  end.

Definition server (config : GGUFModelConfig) : string :=
  "http://localhost:" +:+ pretty (port config).

Definition healthRequest (config : GGUFModelConfig) : Request :=
  mkRequest (server config +:+ "/health") "GET" [] NoPayload.

Definition isServerRunning (config : GGUFModelConfig)
    (answer : Completion (Response unit unit)) : Async bool :=
  Async.try_catch
    (response ← Async.fetch (healthRequest config) answer;
     Async.ret (match response with HttpSuccess _ => true | HttpFailure _ _ => false end))
    (fun _ => Async.ret false).

Record CompletionData : Type := mkData { content : option string }.

(** A call of [generateResponse] awaits two answers: the health probe, then
    the completion. *)
Record Env : Type := mkEnv {
  health : Completion (Response unit unit);
  call : CallEnv ErrorBody CompletionData
}.

Definition completionRequest (config : GGUFModelConfig) (prompt : string) : Request :=
  mkRequest (server config +:+ "/completion") "POST"
    [("Content-Type", "application/json")]
    (GGUFCompletion prompt
       (JS.or_num (temperature config) (JS.Fin 0.7))
       (JS.or_num (maxTokens config) (JS.of_Z 1000))).

Definition failure (config : GGUFModelConfig) (message : string) : ModelResponse :=
  mkResponse (id config) "GGUF" (name config) "" zero_metrics (Some message).

Definition generateResponse (config : GGUFModelConfig) (prompt : string)
    (env : Env) : Async ModelResponse :=
  let start := t_start (call env) in
  Async.try_catch
    (isRunning ← isServerRunning config (health env);
     if negb isRunning then Async.throw "GGUF server is not running" else
     response ← Async.fetch (completionRequest config prompt) (reply (call env));
     match response with
     | HttpFailure _ body =>
         error ← Async.await body;
         Async.throw (JS.or_str (error_message error) "GGUF API error")
     | HttpSuccess body =>
         d ← Async.await body;
         let responseTime := JS.of_Z (t_end (call env) - start) in
         txt ← read (content d) "length";
         let completionTokens := estimateTokenCount txt in
         let promptTokens := estimateTokenCount prompt in
         let metrics :=
           mkMetrics responseTime
             (completionTokens // (responseTime // JS.of_Z 1000))
             (Some (JS.add promptTokens completionTokens))
             (Some promptTokens) (Some completionTokens)
             None None None in
         Async.ret (mkResponse (id config) "GGUF" (name config) txt metrics None)
     end)
    (fun message => Async.ret (failure config message)).

(** *** [stopServer] *)

Definition stopRequest : Request := mkRequest "/api/gguf/stop" "POST" [] NoPayload.

Definition stopServer (answer : Completion (Response unit unit)) : Async unit :=
  Async.try_catch
    (response ← Async.fetch stopRequest answer;
     match response with
     | HttpFailure _ _ => Async.throw "Failed to stop GGUF server"
     | HttpSuccess _ => Async.ret ()
     end)
    (fun message => Async.throw ("Failed to stop GGUF server: " +:+ message)).

(** *** [startServer] *)

Definition startRequest (config : GGUFModelConfig) : Call :=
  mkCall "/api/gguf/start" "POST" [("Content-Type", "application/json")]
    (StartBody (modelPath config) (port config)).

Definition startServer (config : GGUFModelConfig)
    (answer : Completion (Response unit unit)) : IO unit :=
  IO.try_catch
    (response ← IO.fetch (startRequest config) answer;
     match response with
     | HttpFailure _ _ => IO.throw "Failed to start GGUF server"
     | HttpSuccess _ => IO.ret ()
     end)
    (fun message => IO.throw ("Failed to start GGUF server: " +:+ message)).

End GGUFService.

(** ** [services/ollama-service]

    The constructor also starts [loadModelInfo] in the background; it fills
    [modelInfo], which no result below depends on, and nothing awaits it: its
    requests are left out of the other methods, and [loadModelInfo] is
    modelled on its own at the end. The class declares no
    [generateResponse]. *)

Module OllamaService.

(** The timing block of an Ollama reply; durations are in nanoseconds. *)
Record OllamaStats : Type := mkStats {
  total_duration : option JS.num;
  load_duration : option JS.num;
  sample_count : option JS.num;
  sample_duration : option JS.num;
  prompt_eval_count : option JS.num;
  prompt_eval_duration : option JS.num;
  eval_count : option JS.num;
  eval_duration : option JS.num
}.

Definition calculateMetrics (config : OllamaEndpointConfig) (stats : OllamaStats)
    (responseTime : JS.num) (text : string) : ModelMetrics :=
  let completionTokens := estimateTokenCount text in
  let evalTokensPerSecond :=
    if JS.truthy_opt (eval_count stats) && JS.truthy_opt (eval_duration stats)
    then JS.to_num (eval_count stats) // (JS.to_num (eval_duration stats) // JS.of_Z 1000)
    else completionTokens // (responseTime // JS.of_Z 1000) in
  let contextSize := JS.or_num (ollama_context_size config) (JS.of_Z 4096) in
  mkMetrics responseTime evalTokensPerSecond
    (prompt_eval_count stats)
    (eval_count stats)
    (if JS.truthy_opt (prompt_eval_count stats)
     then Some (JS.sub (JS.to_num (prompt_eval_count stats))
                  (JS.or_num (eval_count stats) (JS.of_Z 0)))
     else None)
    None
    (Some contextSize)
    (if JS.truthy_opt (total_duration stats)
     then Some (JS.mul (JS.mul (JS.to_num (total_duration stats)) (JS.of_Z 1024))
                  (JS.of_Z 1024))
     else None).

Definition getApiUrl (config : OllamaEndpointConfig) (endpoint : string) : string :=
  if negb (String.eqb (baseUrl config) "")
     && negb (String.eqb (baseUrl config) "http://localhost:11434")
  then baseUrl config +:+ "/api/" +:+ endpoint
  else "/api/ollama/" +:+ endpoint.

(** The object [generateCompletion] returns. *)
Record CompletionMetrics : Type := mkCompletion {
  cm_responseTime : JS.num;
  cm_tokensPerSecond : JS.num;
  cm_totalTokens : JS.num;
  cm_promptTokens : option JS.num;
  cm_completionTokens : option JS.num;
  cm_processingTime : JS.num
}.

Definition generateRequest (config : OllamaEndpointConfig) (prompt : string) : Request :=
  mkRequest (getApiUrl config "generate") "POST"
    [("Content-Type", "application/json")]
    (OllamaGenerate (modelName config) prompt false
       (JS.or_num (temperature config) (JS.Fin 0.7))
       (maxTokens config)
       (ollama_context_size config)
       (ollama_threads config)).

Definition generateCompletion (config : OllamaEndpointConfig) (prompt : string)
    (answer : Completion (Response ErrorBody OllamaStats)) : Async CompletionMetrics :=
  Async.try_catch
    (response ← Async.fetch (generateRequest config prompt) answer;
     match response with
     | HttpFailure statusText body =>
         error ← Async.try_catch (Async.await body)
                   (fun _ => Async.ret (mkErrorBody (Some statusText)));
         Async.throw (JS.or_str (error_message error) "Ollama API error")
     | HttpSuccess body =>
         d ← Async.await body;
         let responseTime := JS.to_num (total_duration d) // JS.Fin 1e6 in
         let totalTokens :=
           JS.add (JS.to_num (prompt_eval_count d)) (JS.to_num (eval_count d)) in
         let totalProcessingTime :=
           JS.add (JS.to_num (prompt_eval_duration d)) (JS.to_num (eval_duration d))
           // JS.Fin 1e9 in
         let tokensPerSecond := totalTokens // totalProcessingTime in
         Async.ret (mkCompletion responseTime tokensPerSecond totalTokens
                      (prompt_eval_count d) (eval_count d) totalProcessingTime)
     end)
    (fun message => Async.throw message).

Record TagModel : Type := mkTag { tag_name : string }.
Record TagsData : Type := mkTags { models : option (list TagModel) }.

Definition tagsRequest (config : OllamaEndpointConfig) : Request :=
  mkRequest (getApiUrl config "tags") "GET"
    [("Content-Type", "application/json")] NoPayload.

Definition listModels (config : OllamaEndpointConfig)
    (answer : Completion (Response unit TagsData)) : Async (list string) :=
  Async.try_catch
    (response ← Async.fetch (tagsRequest config) answer;
     match response with
     | HttpFailure statusText _ =>
         Async.throw ("Failed to list models: " +:+ statusText)
     | HttpSuccess body =>
         d ← Async.await body;
         Async.ret (match models d with
                    | Some ms => tag_name <$> ms
                    | None => []
                    end)
     end)
    (fun _ => Async.ret []).

(** *** [pullModel] *)

Definition pullRequest (config : OllamaEndpointConfig) (wanted : string) : Call :=
  mkCall (baseUrl config +:+ "/api/pull") "POST"
    [("Content-Type", "application/json")] (NameBody wanted).

Definition pullModel (config : OllamaEndpointConfig) (wanted : string)
    (answer : Completion (Response unit unit)) : IO unit :=
  IO.try_catch
    (response ← IO.fetch (pullRequest config wanted) answer;
     match response with
     | HttpFailure statusText _ => IO.throw ("Failed to pull model: " +:+ statusText)
     | HttpSuccess _ => IO.ret ()
     end)
    (fun message => IO.throw message).

(** *** [loadModelInfo], which the constructor starts and does not await *)

Definition showRequest (config : OllamaEndpointConfig) (wanted : string) : Call :=
  mkCall (baseUrl config +:+ "/api/show") "POST"
    [("Content-Type", "application/json")] (NameBody wanted).

Definition fetchModelInfo (config : OllamaEndpointConfig) (wanted : string)
    (answer : Completion (Response unit OllamaModelInfo)) : IO unit :=
  IO.try_catch
    (response ← IO.fetch (showRequest config wanted) answer;
     match response with
     | HttpFailure _ _ => IO.throw "Failed to fetch model info"
     | HttpSuccess body =>
         info ← IO.await body;
         IO.store wanted info
     end)
    (fun _ => IO.ret ()).

(** [for (const modelName of models) await this.fetchModelInfo(modelName)];
    [shows] answers the requests by position. *)
Fixpoint fetch_each (config : OllamaEndpointConfig)
    (shows : nat → Completion (Response unit OllamaModelInfo)) (i : nat)
    (listed : list string) : IO unit :=
  match listed with
  | [] => IO.ret ()
  | wanted :: rest =>
      _ ← fetchModelInfo config wanted (shows i);
      fetch_each config shows (S i) rest
  end.

Definition loadModelInfo (config : OllamaEndpointConfig)
    (tags : Completion (Response unit TagsData))
    (shows : nat → Completion (Response unit OllamaModelInfo)) : IO unit :=
  IO.try_catch
    (listed ← IO.lift (listModels config tags);
     fetch_each config shows 0 listed)
    (fun _ => IO.ret ()).

(** [new OllamaService(config)]: the constructor starts [loadModelInfo] and
    does not await it. [loadModelInfo] runs up to its first [await] before
    the constructor returns, so its first request, for the tags, is sent at
    once (first component); what it sends once the listing is answered is
    sent later, while the caller goes on (second component). *)
Definition constructor (config : OllamaEndpointConfig)
    (tags : Completion (Response unit TagsData))
    (shows : nat → Completion (Response unit OllamaModelInfo)) : list Call * list Call :=
  let calls := IO.calls (IO.events (loadModelInfo config tags shows)) in
  (take 1 calls, drop 1 calls).

(** [getModelInfo], on the field as it is after the writes of a log *)
Definition getModelInfo (modelInfo : gmap string OllamaModelInfo) (wanted : string)
    : option OllamaModelInfo :=
  modelInfo !! wanted.

End OllamaService.

(** ** [Promise.all]

    The promises of one fan-out settle in an order the program does not
    choose. A schedule names indices in the order they settle; indices out of
    range or named twice are skipped, and the promises it does not name settle
    last, in submission order. So every list of indices is a schedule, and
    every order of settlement is the schedule of some list. *)

Definition schedule (n : nat) (order : list nat) : list nat :=
  let named := remove_dups (filter (λ i, i < n)%nat order) in
  named ++ filter (λ i, i ∉ named) (seq 0 n).

(** Each fulfilment stores its value at the index of its promise; the first
    rejection rejects the aggregate; when all have settled the aggregate is
    fulfilled with the array of values. *)
Fixpoint promise_all_loop {A} (order : list nat) (promises : list (Completion A))
    (values : list (option A)) : Completion (list A) :=
  match order with
  | [] => Resolved (omap (λ v, v) values)
  | i :: rest =>
      match promises !! i with
      | Some (Rejected e) => Rejected e
      | Some (Resolved v) => promise_all_loop rest promises (<[i := Some v]> values)
      | None => promise_all_loop rest promises values
      end
  end.

Definition promise_all {A} (order : list nat) (promises : list (Completion A))
    : Completion (list A) :=
  promise_all_loop (schedule (length promises) order) promises
    (replicate (length promises) None).

(** Calling [async] functions in a row: each call issues its requests and
    hands back its promise. The log groups the requests by call. *)
Definition launch {A} (calls : list (Async A)) : Async (list (Completion A)) :=
  (concat (Async.requests <$> calls), Resolved (Async.outcome <$> calls)).

(** ** [services/comparison-service] *)

Module ComparisonService.

Record Services : Type := mkServices {
  openai : list APIEndpointConfig;
  anthropic : list APIEndpointConfig;
  ollama : list OllamaEndpointConfig;
  gguf : list GGUFModelConfig
}.

Record t : Type := mkService {
  configs : ProviderConfigs;
  services : Services
}.

(** The state the private constructor builds. *)
Definition instance : t :=
  mkService (mkConfigs [] [] [] [] [] []) (mkServices [] [] [] []).

Definition updateConfigs (this : t) (configs : ProviderConfigs) : t :=
  mkService configs
    (mkServices
       (filter (λ config : APIEndpointConfig, enabled config = true) (cfg_openai configs))
       (filter (λ config : APIEndpointConfig, enabled config = true) (cfg_anthropic configs))
       (filter (λ config : OllamaEndpointConfig, enabled config = true) (cfg_ollama configs))
       (filter (λ config : GGUFModelConfig, enabled config = true) (cfg_gguf configs))).

(** What one run meets: clock readings, one answer per adapter call (by
    position in its service list) and the order of settlement. *)
Record World : Type := mkWorld {
  clock_start : Z;
  clock_end : Z;
  clock_iso : string;
  openai_env : nat → CallEnv ErrorBody OpenAIService.ChatData;
  anthropic_env : nat → CallEnv ErrorBody AnthropicService.MessagesData;
  gguf_env : nat → GGUFService.Env;
  ollama_tags : nat → Completion (Response unit OllamaService.TagsData);
  gguf_health : nat → Completion (Response unit unit);
  settle_order : list nat
}.

Section Orchestrator.

(** [compareModels] calls [service.generateResponse(prompt)] on every
    Ollama service, a member [OllamaService] does not declare. The member
    is a parameter here: [None] is the class as it stands, where the call
    throws a [TypeError]; [Some f] is a class that has the member, [f]
    being given the service, the prompt and the position of the call. *)
Variable ollama_generateResponse :
  option (OllamaEndpointConfig → string → nat → Async ModelResponse).

Definition call_ollama (prompt : string) (svcs : list OllamaEndpointConfig)
    : Async (list (Async ModelResponse)) :=
  match svcs, ollama_generateResponse with
  | [], _ => Async.ret []
  | _ :: _, None => Async.throw "service.generateResponse is not a function"
  | _ :: _, Some generateResponse =>
      Async.ret (imap (λ i service, generateResponse service prompt i) svcs)
  end.

Definition error_line (response : ModelResponse) : string :=
  resp_provider response +:+ " (" +:+ model response +:+ "): "
    +:+ default "undefined" (error response).

(** The four loops of [compareModels] that fill [promises]. *)
Definition collect_promises (this : t) (prompt : string) (w : World)
    : Async (list (Completion ModelResponse)) :=
  p_openai ← launch (imap (λ i service,
                OpenAIService.generateResponse service prompt (openai_env w i))
                (openai (services this)));
  p_anthropic ← launch (imap (λ i service,
                AnthropicService.generateResponse service prompt (anthropic_env w i))
                (anthropic (services this)));
  c_ollama ← call_ollama prompt (ollama (services this));
  p_ollama ← launch c_ollama;
  p_gguf ← launch (imap (λ i service,
                GGUFService.generateResponse service prompt (gguf_env w i))
                (gguf (services this)));
  Async.ret (p_openai ++ p_anthropic ++ p_ollama ++ p_gguf).

Definition compareModels (this : t) (prompt : string) (w : World)
    : Async ComparisonResult :=
  let start := clock_start w in
  promises ← collect_promises this prompt w;
  responses ← Async.await (promise_all (settle_order w) promises);
  let end_ := clock_end w in
  let errors :=
    error_line <$> filter (λ response, JS.truthy_str (error response) = true) responses in
  Async.ret (mkResult prompt (clock_iso w) responses (JS.of_Z (end_ - start))
               (if (0 <? length errors)%nat then Some errors else None)).

End Orchestrator.

(** One turn of a probing loop:
    [try { results[key] = await probe } catch { results[key] = false }]. *)
Fixpoint probe_all {Svc} (prefix : string) (ident : Svc → string)
    (probe : nat → Svc → Async bool) (i : nat) (svcs : list Svc)
    (results : gmap string bool) : Async (gmap string bool) :=
  match svcs with
  | [] => Async.ret results
  | service :: rest =>
      up ← Async.try_catch (probe i service) (λ _, Async.ret false);
      probe_all prefix ident probe (S i) rest (<[prefix +:+ ident service := up]> results)
  end.

(** The probe of each loop of [validateConnections]. *)
Definition probe_openai (w : World) (i : nat) (service : APIEndpointConfig) : Async bool :=
  response ← OpenAIService.generateResponse service "test" (openai_env w i);
  Async.ret (negb (JS.truthy_str (error response))).

Definition probe_anthropic (w : World) (i : nat) (service : APIEndpointConfig) : Async bool :=
  response ← AnthropicService.generateResponse service "test" (anthropic_env w i);
  Async.ret (negb (JS.truthy_str (error response))).

Definition probe_ollama (w : World) (i : nat) (service : OllamaEndpointConfig) : Async bool :=
  models ← OllamaService.listModels service (ollama_tags w i);
  Async.ret (0 <? length models)%nat.

Definition probe_gguf (w : World) (i : nat) (service : GGUFModelConfig) : Async bool :=
  GGUFService.isServerRunning service (gguf_health w i).

Definition validateConnections (this : t) (w : World) : Async (gmap string bool) :=
  results ← probe_all "openai-" (λ s : APIEndpointConfig, id s) (probe_openai w)
               0 (openai (services this)) ∅;
  results ← probe_all "anthropic-" (λ s : APIEndpointConfig, id s) (probe_anthropic w)
               0 (anthropic (services this)) results;
  results ← probe_all "ollama-" (λ s : OllamaEndpointConfig, id s) (probe_ollama w)
               0 (ollama (services this)) results;
  results ← probe_all "gguf-" (λ s : GGUFModelConfig, id s) (probe_gguf w)
               0 (gguf (services this)) results;
  Async.ret results.

Definition getActiveConfigs (this : t) : ProviderConfigs := configs this.

(** [this.services.ollama.find(s => s['config'].id === endpointId)] *)
Definition find_ollama (this : t) (endpointId : string) : option OllamaEndpointConfig :=
  List.find (λ s : OllamaEndpointConfig, String.eqb (id s) endpointId)
    (ollama (services this)).

Definition getOllamaModels (this : t) (endpointId : string)
    (answer : Completion (Response unit OllamaService.TagsData)) : Async (list string) :=
  match find_ollama this endpointId with
  | None => Async.ret []
  | Some service => OllamaService.listModels service answer
  end.

(** [pullModel] fulfils with [undefined], and so does a [return] of its
    promise: the value is [None] then, [Some false] for an unknown endpoint. *)
Definition pullOllamaModel (this : t) (endpointId wanted : string)
    (answer : Completion (Response unit unit)) : IO (option bool) :=
  match find_ollama this endpointId with
  | None => IO.ret (Some false)
  | Some service =>
      _ ← OllamaService.pullModel service wanted answer;
      IO.ret None
  end.

End ComparisonService.

(** ** [pages/ComparisonDashboard] *)

Module ComparisonDashboard.

(** The page's own [ModelMetrics]: one point of a model's history. *)
Record ModelMetrics : Type := mkRow {
  modelId : string;
  row_modelName : string;
  row_timestamp : Z;
  row_responseTime : JS.num;
  row_tokensPerSecond : JS.num;
  row_totalTokens : JS.num;
  row_promptTokens : JS.num;
  row_completionTokens : JS.num;
  row_processingTime : JS.num
}.

Record Toast : Type := mkToast {
  title : string;
  description : string;
  variant : string
}.

(** The React state [handleCompare] reads and writes. *)
Record State : Type := mkState {
  prompt : string;
  isProcessing : bool;
  selectedModels : list string;
  performance : gmap string (list ModelMetrics);
  startTime : option Z;
  configs : ProviderConfigs
}.

(** An element of [enabledModels]. *)
Inductive Model : Type :=
| APIModel (config : APIEndpointConfig)
| OllamaModel (config : OllamaEndpointConfig).

Definition base (m : Model) : BaseModelConfig :=
  match m with
  | APIModel c => c
  | OllamaModel c => c
  end.

Definition enabledModels (st : State) : list Model :=
  (APIModel <$> filter (λ m : APIEndpointConfig, enabled m = true) (cfg_openai (configs st)))
  ++ (OllamaModel <$> filter (λ m : OllamaEndpointConfig, enabled m = true)
                        (cfg_ollama (configs st))).

(** [enabledModels.find(m => m.id === modelId)] *)
Definition find_model (st : State) (wanted : string) : option Model :=
  List.find (λ m, String.eqb (id (base m)) wanted) (enabledModels st).

(** What one click meets: the clock at the start; for each selected model
    (by position) what the server of its connection answers to the service
    built for it (to its tags request, to its show requests by position in
    the listing, to its generate request) and the clock when its result is
    built; the order in which the calls settle. *)
Record Env : Type := mkEnv {
  now : Z;
  tags : nat → Completion (Response unit OllamaService.TagsData);
  shows : nat → nat → Completion (Response unit OllamaModelInfo);
  answer : nat → Completion (Response ErrorBody OllamaService.OllamaStats);
  built : nat → Z;
  settle_order : list nat
}.

(** What one click does: the toasts in the order they are shown; the
    requests sent before the handler first waits, in the order they are
    sent; for each selected model (by position), the requests the service
    built for it sends afterwards, as its listing is answered; the state
    after the last update. *)
Record Effects : Type := mkEffects {
  toasts : list Toast;
  requests : list Call;
  background : list (list Call);
  state : State
}.

Definition destructive (title description : string) : Toast :=
  mkToast title description "destructive".

(** The [try] block of the callback mapped over [selectedModels], once the
    service is built: the completion is asked for and the point of history is
    made of what it fulfils with. *)
Definition attempt (st : State) (env : Env) (i : nat) (wanted : string)
    (config : OllamaEndpointConfig) : Async ModelMetrics :=
  metrics ← OllamaService.generateCompletion config (prompt st) (answer env i);
  Async.ret (mkRow wanted (name config) (built env i)
    (OllamaService.cm_responseTime metrics)
    (OllamaService.cm_tokensPerSecond metrics)
    (OllamaService.cm_totalTokens metrics)
    (JS.or_num (OllamaService.cm_promptTokens metrics) (JS.of_Z 0))
    (JS.or_num (OllamaService.cm_completionTokens metrics) (JS.of_Z 0))
    (OllamaService.cm_processingTime metrics)).

(** One run of the callback: the requests sent before it first waits, those
    its service sends in the background, the toast it shows when its call is
    rejected, and its promise, which is never rejected. *)
Record Started : Type := mkStarted {
  at_once : list Call;
  later : list Call;
  error_toasts : list Toast;
  promise : Completion (option ModelMetrics)
}.

(** The callback mapped over [selectedModels]. Only a model whose provider is
    ['ollama'] gets a service; the provider type of an [APIEndpointConfig]
    excludes it. *)
Definition processModel (st : State) (env : Env) (i : nat) (wanted : string) : Started :=
  match find_model st wanted with
  | Some (OllamaModel config) =>
      if String.eqb (provider config) "ollama" then
        let service := OllamaService.constructor config (tags env i) (shows env i) in
        let call := attempt st env i wanted config in
        mkStarted (service.1 ++ (of_request <$> Async.requests call)) service.2
          match Async.outcome call with
          | Resolved _ => []
          | Rejected message => [destructive ("Error with " +:+ name config) message]
          end
          match Async.outcome call with
          | Resolved result => Resolved (Some result)
          | Rejected _ => Resolved None
          end
      else mkStarted [] [] [] (Resolved None)
  | Some (APIModel _) | None => mkStarted [] [] [] (Resolved None)
  end.

(** [(prev[id] || []).slice(-9)] followed by the new point, for each result;
    the history is keyed by identifiers that are not names of members of
    [Object.prototype]. *)
Definition record_results (prev : gmap string (list ModelMetrics))
    (results : list ModelMetrics) : gmap string (list ModelMetrics) :=
  fold_left
    (λ newPerformance result,
       let history := default [] (newPerformance !! modelId result) in
       <[modelId result := drop (length history - 9) history ++ [result]]> newPerformance)
    results prev.

(** The callbacks run in the order of the selection up to their first wait;
    each shows its toast when its call settles; the handler goes on when all
    have settled. *)
Definition handleCompare (st : State) (env : Env) : Effects :=
  if String.eqb (JS.trim (prompt st)) "" then
    mkEffects [destructive "Error" "Please enter a prompt to compare"] [] [] st
  else if (length (selectedModels st) =? 0)%nat then
    mkEffects [destructive "Error" "Please select at least one model to compare"] [] [] st
  else
    let calls := imap (processModel st env) (selectedModels st) in
    let shown :=
      schedule (length calls) (settle_order env)
        ≫= (λ i, default [] (error_toasts <$> calls !! i)) in
    let run : Completion (list ModelMetrics) :=
      match promise_all (settle_order env) (promise <$> calls) with
      | Resolved settled =>
          let results := omap (λ r, r) settled in
          if (length results =? 0)%nat
          then Rejected "No successful model responses"
          else Resolved results
      | Rejected message => Rejected message
      end in
    match run with
    | Resolved results =>
        mkEffects shown (concat (at_once <$> calls)) (later <$> calls)
          (mkState (prompt st) false (selectedModels st)
             (record_results (performance st) results) (Some (now env)) (configs st))
    | Rejected message =>
        mkEffects
          (shown ++ [destructive "Error"
                       (JS.or_str (Some message) "Failed to process comparison")])
          (concat (at_once <$> calls)) (later <$> calls)
          (mkState (prompt st) false (selectedModels st) (performance st)
             (Some (now env)) (configs st))
    end.

(** *** The check box of a model *)

(** [setSelectedModels(prev => checked ? [...prev, model.id]
    : prev.filter(id => id !== model.id))]; [checked] is the truthiness of
    what the box reports. *)
Definition onCheckedChange (prev : list string) (model : string) (checked : bool)
    : list string :=
  if checked then prev ++ [model] else filter (λ i, i ≠ model) prev.

(** *** [prepareChartData] *)

(** A property of a history point read by name, [modelMetrics[metricKey]],
    among the properties the point itself has *)
Inductive Value : Type :=
| Number (n : JS.num)
| Text (s : string)
| Undefined.

Definition metric (m : ModelMetrics) (metricKey : string) : Value :=
  if String.eqb metricKey "modelId" then Text (modelId m)
  else if String.eqb metricKey "modelName" then Text (row_modelName m)
  else if String.eqb metricKey "timestamp" then Number (JS.of_Z (row_timestamp m))
  else if String.eqb metricKey "responseTime" then Number (row_responseTime m)
  else if String.eqb metricKey "tokensPerSecond" then Number (row_tokensPerSecond m)
  else if String.eqb metricKey "totalTokens" then Number (row_totalTokens m)
  else if String.eqb metricKey "promptTokens" then Number (row_promptTokens m)
  else if String.eqb metricKey "completionTokens" then Number (row_completionTokens m)
  else if String.eqb metricKey "processingTime" then Number (row_processingTime m)
  else Undefined.

(** The set [allTimestamps] *)
Definition allTimestamps (history : gmap string (list ModelMetrics)) : gset Z :=
  list_to_set (row_timestamp <$> concat (map_to_list history).*2).

(** [Array.from(allTimestamps).sort((a, b) => a - b)]: the members of the
    set in increasing order, whatever the order they were added in *)
Definition sortedTimestamps (history : gmap string (list ModelMetrics)) : list Z :=
  merge_sort Z.le (elements (allTimestamps history)).

(** The object built for one timestamp: its own key, then one key per
    selected model that has a point at that time, named after the model *)
Definition dataPoint (st : State) (metricKey : string) (time : Z) : gmap string Value :=
  fold_left
    (λ point wanted,
       match performance st !! wanted ≫= List.find (λ m, (row_timestamp m =? time)%Z) with
       | Some modelMetrics =>
           <[row_modelName modelMetrics := metric modelMetrics metricKey]> point
       | None => point
       end)
    (selectedModels st) {["timestamp" := Number (JS.of_Z time)]}.

Definition prepareChartData (st : State) (metricKey : string) : list (gmap string Value) :=
  match startTime st with
  | None => []
  | Some t =>
      if (t =? 0)%Z then []
      else dataPoint st metricKey <$> sortedTimestamps (performance st)
  end.

End ComparisonDashboard.

(** ** The specification's own notions, for comparison with the code *)

(** The number of enabled configurations of a configuration set, over all six
    provider kinds. *)
Definition enabled_count (configs : ProviderConfigs) : nat :=
  length (filter (λ c : APIEndpointConfig, enabled c = true) (cfg_openai configs))
  + length (filter (λ c : APIEndpointConfig, enabled c = true) (cfg_anthropic configs))
  + length (filter (λ c : APIEndpointConfig, enabled c = true) (cfg_google configs))
  + length (filter (λ c : OllamaEndpointConfig, enabled c = true) (cfg_ollama configs))
  + length (filter (λ c : APIEndpointConfig, enabled c = true) (cfg_huggingface configs))
  + length (filter (λ c : GGUFModelConfig, enabled c = true) (cfg_gguf configs)).

(** Responses in the order their calls settle: what the specification says
    [responses] holds. *)
Definition completion_order {A} (order : list nat) (submitted : list A) : list A :=
  omap (λ i, submitted !! i) (schedule (length submitted) order).

(** [eval_count / (eval_duration_ns / 1e9)]: the tokens per second of the
    specification for an Ollama payload that carries both fields. *)
Definition spec_ollama_tokensPerSecond (eval_count eval_duration_ns : JS.num) : JS.num :=
  eval_count // (eval_duration_ns // JS.Fin 1e9).

(** ** Notions used in the statements *)

(** The replies from which an adapter builds a response without error. *)
Definition openai_well_formed (env : CallEnv ErrorBody OpenAIService.ChatData) : Prop :=
  ∃ d u cs c m,
    reply env = Resolved (HttpSuccess (Resolved d)) ∧ OpenAIService.usage d = Some u ∧
    OpenAIService.choices d = Some cs ∧ cs !! 0%nat = Some c ∧
    OpenAIService.message c = Some m.

Definition anthropic_well_formed
    (env : CallEnv ErrorBody AnthropicService.MessagesData) : Prop :=
  ∃ d blocks block,
    reply env = Resolved (HttpSuccess (Resolved d)) ∧
    AnthropicService.content d = Some blocks ∧ blocks !! 0%nat = Some block.

Definition gguf_well_formed (env : GGUFService.Env) : Prop :=
  ∃ ok d txt,
    GGUFService.health env = Resolved (HttpSuccess ok) ∧
    reply (GGUFService.call env) = Resolved (HttpSuccess (Resolved d)) ∧
    GGUFService.content d = Some txt.

(** Every call [compareModels] makes on an Ollama service is fulfilled:
    there is no such service, or the member exists and fulfils. *)
Definition ollama_fulfils
    (gen : option (OllamaEndpointConfig → string → nat → Async ModelResponse))
    (prompt : string) (svcs : list OllamaEndpointConfig) : Prop :=
  svcs = [] ∨
  ∃ f, gen = Some f ∧
       ∀ i s, svcs !! i = Some s → ∃ r, Async.outcome (f s prompt i) = Resolved r.

(** The same world under another order of settlement. *)
Definition reschedule (w : ComparisonService.World) (order : list nat)
    : ComparisonService.World :=
  ComparisonService.mkWorld
    (ComparisonService.clock_start w) (ComparisonService.clock_end w)
    (ComparisonService.clock_iso w) (ComparisonService.openai_env w)
    (ComparisonService.anthropic_env w) (ComparisonService.gguf_env w)
    (ComparisonService.ollama_tags w) (ComparisonService.gguf_health w) order.

(** The point of history a selected model contributes, if any. *)
Definition row_of (st : ComparisonDashboard.State) (env : ComparisonDashboard.Env)
    (i : nat) (wanted : string) : option ComparisonDashboard.ModelMetrics :=
  match ComparisonDashboard.promise (ComparisonDashboard.processModel st env i wanted) with
  | Resolved row => row
  | Rejected _ => None
  end.

(** A response that carries an error, as [filter(response => response.error)]
    sees it. *)
Definition failed (r : ModelResponse) : Prop := JS.truthy_str (error r) = true.

(** The record an adapter returns for a failed call: the message of the
    error, an empty text, zero metrics. *)
Definition failure_record (r : ModelResponse) : Prop :=
  ∃ message, error r = Some message ∧ text r = "" ∧ metrics r = zero_metrics.

(** The tokens per second a response stores. *)
Definition throughput (r : ModelResponse) : JS.num := tokensPerSecond (metrics r).

(** A usage field that holds a count: a finite number, not negative. *)
Definition token_count (o : option JS.num) : Prop :=
  ∃ q, o = Some (JS.Fin q) ∧ (0 <= q)%Q.

(** The temperature and the limit on output tokens an outbound request
    carries ([num_predict] for Ollama). *)
Definition sent_temperature (rq : Request) : option JS.num :=
  match payload rq with
  | OpenAIChat _ _ t _ | AnthropicMessages _ _ _ t
  | OllamaGenerate _ _ _ t _ _ _ | GGUFCompletion _ t _ => Some t
  | NoPayload => None
  end.

Definition sent_max_tokens (rq : Request) : option JS.num :=
  match payload rq with
  | OpenAIChat _ _ _ m | AnthropicMessages _ _ m _ | GGUFCompletion _ _ m => Some m
  | OllamaGenerate _ _ _ _ num_predict _ _ => num_predict
  | NoPayload => None
  end.

(** The names [listModels] keeps of a listing, when every entry has an id. *)
Fixpoint live_listing (entries : list OpenAIService.ModelEntry) : option (list string) :=
  match entries with
  | [] => Some []
  | e :: rest =>
      match OpenAIService.entry_id e, live_listing rest with
      | Some i, Some kept =>
          Some (if JS.startsWith i "gpt-" && negb (JS.includes i "instruct")
                then i :: kept else kept)
      | _, _ => None
      end
  end.

(** The keys of the capability table, in the order [Object.keys] gives them. *)
Definition fallback_models : list string :=
  ["gpt-4"; "gpt-4-turbo-preview"; "gpt-3.5-turbo"].

(** What a probe of [validateConnections] stores: the boolean it fulfils with,
    [false] when it rejects. *)
Definition verdict (p : Async bool) : bool :=
  match Async.outcome p with
  | Resolved up => up
  | Rejected _ => false
  end.

(** The mapping after one probing loop. *)
Fixpoint probed {Svc} (prefix : string) (ident : Svc → string)
    (probe : nat → Svc → Async bool) (i : nat) (svcs : list Svc)
    (results : gmap string bool) : gmap string bool :=
  match svcs with
  | [] => results
  | service :: rest =>
      probed prefix ident probe (S i) rest
        (<[prefix +:+ ident service := verdict (probe i service)]> results)
  end.

(** The keys [validateConnections] writes. *)
Definition connection_keys (this : ComparisonService.t) : list string :=
  ((λ s : APIEndpointConfig, "openai-" +:+ id s)
     <$> ComparisonService.openai (ComparisonService.services this))
  ++ ((λ s : APIEndpointConfig, "anthropic-" +:+ id s)
        <$> ComparisonService.anthropic (ComparisonService.services this))
  ++ ((λ s : OllamaEndpointConfig, "ollama-" +:+ id s)
        <$> ComparisonService.ollama (ComparisonService.services this))
  ++ ((λ s : GGUFModelConfig, "gguf-" +:+ id s)
        <$> ComparisonService.gguf (ComparisonService.services this)).

(** ** Sample inputs *)

Module Sample.

Definition api (kind ident : string) : APIEndpointConfig :=
  mkAPI (mkBase ident ident true kind None None) "key" None None None None None.

Definition local (ident : string) (port : Z) : GGUFModelConfig :=
  mkGGUF (mkBase ident ident true "gguf" None None) "/models/local.gguf" (Some port)
    None None.

Definition ollama (ident : string) (temperature maxTokens : option JS.num)
    : OllamaEndpointConfig :=
  mkOllama (mkBase ident ident true "ollama" temperature maxTokens)
    "http://localhost:11434" "llama2" None None.

(** A chat completion that reports [tokens] completion tokens. *)
Definition chat (tokens : Z) : Completion (Response ErrorBody OpenAIService.ChatData) :=
  Resolved (HttpSuccess (Resolved (OpenAIService.mkChatData
    (Some (OpenAIService.mkUsage (Some (JS.of_Z 5)) (Some (JS.of_Z tokens))
             (Some (JS.of_Z (5 + tokens)))))
    (Some [OpenAIService.mkChoice (Some (OpenAIService.mkMessage "hi"))])))).

Definition unreachable {A} : Completion A := Rejected "Failed to fetch".

Definition completion (txt : string)
    : Completion (Response ErrorBody GGUFService.CompletionData) :=
  Resolved (HttpSuccess (Resolved (GGUFService.mkData (Some txt)))).

(** A world where OpenAI answers after two seconds with 50 completion tokens,
    Anthropic and the Ollama listing are unreachable, the local server is
    healthy and answers [abcd] after half a second; the promises settle in the
    order [order]. *)
Definition world (order : list nat) : ComparisonService.World :=
  ComparisonService.mkWorld 0 2100 "2025-01-01T00:00:00.000Z"
    (λ _, mkCallEnv 0 (chat 50) 2000)
    (λ _, mkCallEnv 0 unreachable 30)
    (λ _, GGUFService.mkEnv (Resolved (HttpSuccess (Resolved tt)))
            (mkCallEnv 0 (completion "abcd") 500))
    (λ _, unreachable)
    (λ _, Resolved (HttpSuccess (Resolved tt)))
    order.

(** The same world with OpenAI unreachable too. *)
Definition offline : ComparisonService.World :=
  ComparisonService.mkWorld 0 40 "2025-01-01T00:00:00.000Z"
    (λ _, mkCallEnv 0 unreachable 30)
    (λ _, mkCallEnv 0 unreachable 30)
    (λ _, GGUFService.mkEnv unreachable (mkCallEnv 0 unreachable 30))
    (λ _, unreachable)
    (λ _, unreachable)
    [].

Definition service (configs : ProviderConfigs) : ComparisonService.t :=
  ComparisonService.updateConfigs ComparisonService.instance configs.

(** A [generateResponse] an Ollama service could have: it issues no request
    and fulfils with a fixed text. *)
Definition ollama_member (config : OllamaEndpointConfig) (prompt : string) (i : nat)
    : Async ModelResponse :=
  Async.ret (mkResponse (id config) "Ollama" (modelName config) "ok" zero_metrics None).

End Sample.

(** A page state with the given prompt, selection and configurations. *)
Definition page (prompt : string) (selected : list string) (configs : ProviderConfigs)
    : ComparisonDashboard.State :=
  ComparisonDashboard.mkState prompt false selected ∅ None configs.

(** A click after which every Ollama server is unreachable. *)
Definition click_offline : ComparisonDashboard.Env :=
  ComparisonDashboard.mkEnv 1000 (λ _, Sample.unreachable) (λ _ _, Sample.unreachable)
    (λ _, Sample.unreachable) (λ _, 1500%Z) [].

(** A click after which the Ollama server answers: it lists the model
    [llama2] and describes it; it completes with 26 prompt tokens in 0.4 s,
    10 tokens evaluated in 1.6 s, 2.5 s in total. *)
Definition click_answered : ComparisonDashboard.Env :=
  ComparisonDashboard.mkEnv 1000
    (λ _, Resolved (HttpSuccess (Resolved
       (OllamaService.mkTags (Some [OllamaService.mkTag "llama2"])))))
    (λ _ _, Resolved (HttpSuccess (Resolved
       (mkInfo "llama2" (JS.of_Z 3826793677) "78e26419b446" "2024-01-01T00:00:00Z"
          "gguf" "llama" "7B" (Some "Q4_0")))))
    (λ _, Resolved (HttpSuccess (Resolved
       (OllamaService.mkStats (Some (JS.Fin 2.5e9)) None None None
          (Some (JS.of_Z 26)) (Some (JS.Fin 4e8))
          (Some (JS.of_Z 10)) (Some (JS.Fin 1.6e9))))))
    (λ _, 3600%Z) [].

(** ** [pages/Settings]

    The state of the page is the configuration set. [saveConfigs] writes the
    same value to the state and, serialized, to [localStorage]; a handler is
    modelled by the value it saves and the toast it shows, if any. *)

Module Settings.

Record Toast : Type := mkToast {
  title : string;
  description : string
}.

(** The double quote of a template such as [Added OpenAI connection "name"] *)
Definition dquote : string := String "034"%char EmptyString.

Definition quoted (s : string) : string := dquote +:+ s +:+ dquote.

(** [{ ...c, enabled }] *)
Definition set_enabled (c : BaseModelConfig) (flag : bool) : BaseModelConfig :=
  mkBase (id c) (name c) flag (provider c) (temperature c) (maxTokens c).

Definition api_set_enabled (c : APIEndpointConfig) (flag : bool) : APIEndpointConfig :=
  mkAPI (set_enabled c flag) (apiKey c) (api_baseUrl c) (api_modelName c)
    (organization c) (projectId c) (isProjectKey c).

Definition ollama_set_enabled (c : OllamaEndpointConfig) (flag : bool)
    : OllamaEndpointConfig :=
  mkOllama (set_enabled c flag) (baseUrl c) (modelName c) (ollama_context_size c)
    (ollama_threads c).

(** [{ ...configs, openai }] and [{ ...configs, ollama }] *)
Definition with_openai (configs : ProviderConfigs) (openai : list APIEndpointConfig)
    : ProviderConfigs :=
  mkConfigs openai (cfg_anthropic configs) (cfg_google configs) (cfg_ollama configs)
    (cfg_huggingface configs) (cfg_gguf configs).

Definition with_ollama (configs : ProviderConfigs) (ollama : list OllamaEndpointConfig)
    : ProviderConfigs :=
  mkConfigs (cfg_openai configs) (cfg_anthropic configs) (cfg_google configs) ollama
    (cfg_huggingface configs) (cfg_gguf configs).

Definition handleAddOpenAI (configs : ProviderConfigs) (config : APIEndpointConfig)
    : ProviderConfigs * list Toast :=
  (with_openai configs (cfg_openai configs ++ [config]),
   [mkToast "Connection Added" ("Added OpenAI connection " +:+ quoted (name config))]).

Definition handleEditOpenAI (configs : ProviderConfigs) (connection : APIEndpointConfig)
    : ProviderConfigs * list Toast :=
  (with_openai configs
     ((λ c : APIEndpointConfig, if String.eqb (id c) (id connection) then connection else c)
        <$> cfg_openai configs),
   [mkToast "Connection Updated"
      ("Updated OpenAI connection " +:+ quoted (name connection))]).

Definition handleDeleteOpenAI (configs : ProviderConfigs) (ident : string)
    : ProviderConfigs * list Toast :=
  (with_openai configs
     (filter (λ c : APIEndpointConfig, id c ≠ ident) (cfg_openai configs)),
   [mkToast "Connection Deleted" "OpenAI connection has been removed"]).

Definition handleToggleOpenAI (configs : ProviderConfigs) (ident : string) (flag : bool)
    : ProviderConfigs * list Toast :=
  (with_openai configs
     ((λ c : APIEndpointConfig,
         if String.eqb (id c) ident then api_set_enabled c flag else c)
        <$> cfg_openai configs),
   []).

Definition handleAddOllama (configs : ProviderConfigs) (config : OllamaEndpointConfig)
    : ProviderConfigs * list Toast :=
  (with_ollama configs (cfg_ollama configs ++ [config]),
   [mkToast "Connection Added" ("Added Ollama connection " +:+ quoted (name config))]).

Definition handleEditOllama (configs : ProviderConfigs) (connection : OllamaEndpointConfig)
    : ProviderConfigs * list Toast :=
  (with_ollama configs
     ((λ c : OllamaEndpointConfig,
         if String.eqb (id c) (id connection) then connection else c)
        <$> cfg_ollama configs),
   [mkToast "Connection Updated"
      ("Updated Ollama connection " +:+ quoted (name connection))]).

Definition handleDeleteOllama (configs : ProviderConfigs) (ident : string)
    : ProviderConfigs * list Toast :=
  (with_ollama configs
     (filter (λ c : OllamaEndpointConfig, id c ≠ ident) (cfg_ollama configs)),
   [mkToast "Connection Deleted" "Ollama connection has been removed"]).

Definition handleToggleOllama (configs : ProviderConfigs) (ident : string) (flag : bool)
    : ProviderConfigs * list Toast :=
  (with_ollama configs
     ((λ c : OllamaEndpointConfig,
         if String.eqb (id c) ident then ollama_set_enabled c flag else c)
        <$> cfg_ollama configs),
   []).

End Settings.


(** ** [components/settings/ConnectionList]

    The list holds the connection being edited, if any, and whether its
    dialog is open; [onAdd] and [onEdit] are the handlers of the page. *)

Module ConnectionList.

Record State (T : Type) : Type := mkState {
  editingConnection : option T;
  isDialogOpen : bool
}.
Arguments mkState {T} editingConnection isDialogOpen.
Arguments editingConnection {T} s.
Arguments isDialogOpen {T} s.

Definition handleEdit {T} (connection : T) : State T := mkState (Some connection) true.

Definition handleAdd {T} : State T := mkState None true.

Definition handleClose {T} : State T := mkState None false.

Definition handleSubmit {T Page} (onAdd onEdit : T → Page) (st : State T) (config : T)
    : Page * State T :=
  (match editingConnection st with
   | Some _ => onEdit config
   | None => onAdd config
   end,
   handleClose).

End ConnectionList.

(** ** [components/settings/OpenAIConnectionForm]

    The form is rendered with the connection being edited, or with none for a
    new one, and its fields start from that connection. The object it submits
    has no [provider]; the only read of that field in the program compares it
    with ['ollama'], and the empty string stands for its absence. *)

Module OpenAIConnectionForm.

Record State : Type := mkState {
  form_name : string;
  form_apiKey : string;
  form_baseUrl : string;
  form_modelName : string;
  form_organization : string;
  form_projectId : string;
  form_isProjectKey : bool;
  availableModels : list string;
  isLoading : bool;
  isTestingConnection : bool
}.

Record Toast : Type := mkToast {
  title : string;
  description : string;
  variant : string
}.

(** The initial values of the [useState] hooks *)
Definition initial (connection : option APIEndpointConfig) : State :=
  mkState
    (JS.or_str ((λ c : APIEndpointConfig, name c) <$> connection) "")
    (JS.or_str (apiKey <$> connection) "")
    (JS.or_str (connection ≫= api_baseUrl) "")
    (JS.or_str (connection ≫= api_modelName) "")
    (JS.or_str (connection ≫= organization) "")
    (JS.or_str (connection ≫= projectId) "")
    (default true (connection ≫= isProjectKey))
    [] false false.

(** [s || undefined] *)
Definition or_undefined (s : string) : option string :=
  if String.eqb s "" then None else Some s.

(** The configuration of the service that [loadModels] and [testConnection]
    build from the fields *)
Definition draft (connection : option APIEndpointConfig) (st : State) : APIEndpointConfig :=
  mkAPI
    (mkBase (JS.or_str ((λ c : APIEndpointConfig, id c) <$> connection) "temp") "temp" true
       "" None None)
    (form_apiKey st) (or_undefined (form_baseUrl st)) None
    (or_undefined (form_organization st)) (or_undefined (form_projectId st))
    (Some (form_isProjectKey st)).

(** What a handler of the form does: the toasts shown, the requests
    issued, the state after the last update. *)
Record Effects : Type := mkEffects {
  toasts : list Toast;
  requests : list Request;
  state : State
}.

Definition set_models (st : State) (listed : list string) (loading : bool) : State :=
  mkState (form_name st) (form_apiKey st) (form_baseUrl st) (form_modelName st)
    (form_organization st) (form_projectId st) (form_isProjectKey st)
    listed loading (isTestingConnection st).

Definition loadModels (connection : option APIEndpointConfig) (st : State)
    (answer : Completion (Response unit OpenAIService.ModelsData)) : Effects :=
  match OpenAIService.listModels (draft connection st) answer with
  | (log, Resolved listed) => mkEffects [] log (set_models st listed false)
  | (log, Rejected message) =>
      mkEffects [mkToast "Error Loading Models" message "destructive"] log
        (set_models st (availableModels st) false)
  end.

(** The object handed to [onSubmit]; [uuid] is what [crypto.randomUUID()]
    returns when it is called. *)
Definition handleSubmit (connection : option APIEndpointConfig) (st : State)
    (uuid : string) : APIEndpointConfig :=
  mkAPI
    (mkBase (JS.or_str ((λ c : APIEndpointConfig, id c) <$> connection) uuid)
       (form_name st)
       (default true ((λ c : APIEndpointConfig, enabled c) <$> connection))
       ""
       (connection ≫= (λ c : APIEndpointConfig, temperature c))
       (connection ≫= (λ c : APIEndpointConfig, maxTokens c)))
    (form_apiKey st) (or_undefined (form_baseUrl st)) (Some (form_modelName st))
    (or_undefined (form_organization st)) (or_undefined (form_projectId st))
    (Some (form_isProjectKey st)).

End OpenAIConnectionForm.

(** The OpenAI section of the settings page: the list, its dialog with the
    form, and the page's handlers behind them. Submitting the dialog saves
    what the page's handler saves and closes the dialog. *)
Definition submit_openai (configs : ProviderConfigs)
    (dialog : ConnectionList.State APIEndpointConfig)
    (fields : OpenAIConnectionForm.State) (uuid : string)
    : (ProviderConfigs * list Settings.Toast) * ConnectionList.State APIEndpointConfig :=
  ConnectionList.handleSubmit (Settings.handleAddOpenAI configs)
    (Settings.handleEditOpenAI configs) dialog
    (OpenAIConnectionForm.handleSubmit (ConnectionList.editingConnection dialog) fields uuid).

(** The identifiers the dashboard looks a selected model up by: those of the
    OpenAI connections, then those of the Ollama connections. *)
Definition connection_ids (configs : ProviderConfigs) : list string :=
  ((λ c : APIEndpointConfig, id c) <$> cfg_openai configs)
  ++ ((λ c : OllamaEndpointConfig, id c) <$> cfg_ollama configs).

(** What [fetchModelInfo] stores for an answer, if anything *)
Definition shown (answer : Completion (Response unit OllamaModelInfo))
    : option OllamaModelInfo :=
  match answer with
  | Resolved (HttpSuccess (Resolved info)) => Some info
  | _ => None
  end.

(** The Ollama connection a selected identifier stands for, if any: the
    first enabled model with that identifier, the OpenAI connections coming
    first, when it is an Ollama connection whose provider is ['ollama']. *)
Definition called (st : ComparisonDashboard.State) (wanted : string)
    : option OllamaEndpointConfig :=
  match ComparisonDashboard.find_model st wanted with
  | Some (ComparisonDashboard.OllamaModel config) =>
      if String.eqb (provider config) "ollama" then Some config else None
  | _ => None
  end.

(** The names an answer to the tags request lists; none when the request
    fails, the body does not parse or it has no [models]. *)
Definition names_listed (tags : Completion (Response unit OllamaService.TagsData))
    : list string :=
  match tags with
  | Resolved (HttpSuccess (Resolved d)) =>
      match OllamaService.models d with
      | Some entries => OllamaService.tag_name <$> entries
      | None => []
      end
  | _ => []
  end.

(** The requests a click of Compare sends for one selected model while the
    handler runs: the tags request of the service built for it, then the
    generate request carrying the prompt. *)
Definition asked (st : ComparisonDashboard.State) (wanted : string) : list Call :=
  match called st wanted with
  | Some config =>
      [of_request (OllamaService.tagsRequest config);
       of_request (OllamaService.generateRequest config (ComparisonDashboard.prompt st))]
  | None => []
  end.

(** The requests that follow in the background for the selected model at
    position [i]: one show request per model its server lists. *)
Definition asked_later (st : ComparisonDashboard.State) (env : ComparisonDashboard.Env)
    (i : nat) (wanted : string) : list Call :=
  match called st wanted with
  | Some config =>
      OllamaService.showRequest config <$> names_listed (ComparisonDashboard.tags env i)
  | None => []
  end.

(** How the completion asked for the selected model at position [i]
    settles, with the connection asked. *)
Definition completion_of (st : ComparisonDashboard.State) (env : ComparisonDashboard.Env)
    (i : nat) (wanted : string)
    : option (OllamaEndpointConfig * Completion OllamaService.CompletionMetrics) :=
  config ← called st wanted;
  Some (config,
        Async.outcome (OllamaService.generateCompletion config
                         (ComparisonDashboard.prompt st) (ComparisonDashboard.answer env i))).

(** The point of history a fulfilled completion gives: its metrics under the
    identifier selected and the name of the connection, an absent, zero or
    [NaN] count of prompt or completion tokens stored as 0. *)
Definition point_of (st : ComparisonDashboard.State) (env : ComparisonDashboard.Env)
    (i : nat) (wanted : string) : option ComparisonDashboard.ModelMetrics :=
  match completion_of st env i wanted with
  | Some (config, Resolved metrics) =>
      Some (ComparisonDashboard.mkRow wanted (name config) (ComparisonDashboard.built env i)
              (OllamaService.cm_responseTime metrics)
              (OllamaService.cm_tokensPerSecond metrics)
              (OllamaService.cm_totalTokens metrics)
              (JS.or_num (OllamaService.cm_promptTokens metrics) (JS.of_Z 0))
              (JS.or_num (OllamaService.cm_completionTokens metrics) (JS.of_Z 0))
              (OllamaService.cm_processingTime metrics))
  | _ => None
  end.

(** The toast a rejected completion gives: the cause, under the name of the
    connection. *)
Definition error_of (st : ComparisonDashboard.State) (env : ComparisonDashboard.Env)
    (i : nat) (wanted : string) : list ComparisonDashboard.Toast :=
  match completion_of st env i wanted with
  | Some (config, Rejected message) =>
      [ComparisonDashboard.destructive ("Error with " +:+ name config) message]
  | _ => []
  end.

(** Configurations as their types have them: the provider of a connection
    kept under [openai] is not ['ollama']. *)
Definition typed (configs : ProviderConfigs) : Prop :=
  Forall (λ c : APIEndpointConfig, provider c ≠ "ollama") (cfg_openai configs).

(** A point of history was recorded at [time]. *)
Definition recorded (history : gmap string (list ComparisonDashboard.ModelMetrics))
    (time : Z) : Prop :=
  ∃ wanted points point,
    history !! wanted = Some points ∧ point ∈ points ∧
    ComparisonDashboard.row_timestamp point = time.

(** ** The first dashboard: [lib/model-service], [components/ModelSettings]
    and the [ComparisonDashboard] component

    A provider's settings may be missing from the settings object: the
    component starts from an object without [gguf]. A reply is not checked
    for its status; its body is parsed whatever it is. *)

Module Legacy.

Record ModelConfig : Type := mkConfig {
  apiKey : option string;
  baseUrl : option string;
  modelName : option string;
  temperature : option JS.num;
  maxTokens : option JS.num;
  ggufPath : option string
}.

(** [{}] *)
Definition empty : ModelConfig := mkConfig None None None None None None.

Record ModelSettings : Type := mkSettings {
  openai : option ModelConfig;
  anthropic : option ModelConfig;
  google : option ModelConfig;
  ollama : option ModelConfig;
  huggingface : option ModelConfig;
  gguf : option ModelConfig
}.

(** [keyof ModelSettings] *)
Inductive Provider : Type := OpenAI | Anthropic | Google | Ollama | HuggingFace | GGUF.

(** [value[provider]] *)
Definition get (value : ModelSettings) (provider : Provider) : option ModelConfig :=
  match provider with
  | OpenAI => openai value
  | Anthropic => anthropic value
  | Google => google value
  | Ollama => ollama value
  | HuggingFace => huggingface value
  | GGUF => gguf value
  end.

(** [{ ...value, [provider]: config }] *)
Definition set (value : ModelSettings) (provider : Provider) (config : ModelConfig)
    : ModelSettings :=
  match provider with
  | OpenAI => mkSettings (Some config) (anthropic value) (google value) (ollama value)
                (huggingface value) (gguf value)
  | Anthropic => mkSettings (openai value) (Some config) (google value) (ollama value)
                   (huggingface value) (gguf value)
  | Google => mkSettings (openai value) (anthropic value) (Some config) (ollama value)
                (huggingface value) (gguf value)
  | Ollama => mkSettings (openai value) (anthropic value) (google value) (Some config)
                (huggingface value) (gguf value)
  | HuggingFace => mkSettings (openai value) (anthropic value) (google value) (ollama value)
                     (Some config) (gguf value)
  | GGUF => mkSettings (openai value) (anthropic value) (google value) (ollama value)
              (huggingface value) (Some config)
  end.

(** The fields the inputs of the settings panel write, each with the text
    of its input. *)
Inductive Field : Type := ApiKey | BaseUrl | ModelName.

(** [{ ...config, [field]: fieldValue }] *)
Definition set_field (config : ModelConfig) (field : Field) (fieldValue : string)
    : ModelConfig :=
  match field with
  | ApiKey => mkConfig (Some fieldValue) (baseUrl config) (modelName config)
                (temperature config) (maxTokens config) (ggufPath config)
  | BaseUrl => mkConfig (apiKey config) (Some fieldValue) (modelName config)
                 (temperature config) (maxTokens config) (ggufPath config)
  | ModelName => mkConfig (apiKey config) (baseUrl config) (Some fieldValue)
                   (temperature config) (maxTokens config) (ggufPath config)
  end.

(** [ModelSettings.handleSettingChange]: the settings handed to [onChange];
    spreading a missing provider spreads nothing. *)
Definition handleSettingChange (value : ModelSettings) (provider : Provider)
    (field : Field) (fieldValue : string) : ModelSettings :=
  set value provider (set_field (default empty (get value provider)) field fieldValue).

(** The inputs the panel renders: an API key on each of its five tabs, the
    base URL on the Ollama tab, the model name on the HuggingFace tab. *)
Definition rendered (provider : Provider) (field : Field) : bool :=
  match provider, field with
  | GGUF, _ => false
  | _, ApiKey => true
  | Ollama, BaseUrl => true
  | HuggingFace, ModelName => true
  | _, _ => false
  end.

(** *** [ModelService] *)

Record ModelResponse : Type := mkResponse {
  text : option string;
  responseTime : JS.num;
  tokensPerSecond : JS.num;
  provider : string;
  model : option string;
  error : option string
}.

(** What one call meets: the clock around it, the settlement of [fetch] and,
    inside it, that of [response.json()]. *)
Record Reply (D : Type) : Type := mkReply {
  started : Z;
  answered : Completion (Completion D);
  ended : Z
}.
Arguments mkReply {D} started answered ended.
Arguments started {D} r.
Arguments answered {D} r.
Arguments ended {D} r.

Record GenerateData : Type := mkGenerate { ollama_response : option string }.
Record Generated : Type := mkGenerated { generated_text : option string }.
Record CompletionData : Type := mkCompletion {
  content : option string;
  tokens_per_second : option JS.num
}.

(** [`${s}`] for a property that may be missing *)
Definition interpolated (s : option string) : string := default "undefined" s.

Definition failure (name : string) (called : option string) (message : string)
    : ModelResponse :=
  mkResponse (Some "") (JS.of_Z 0) (JS.of_Z 0) name called (Some message).

Definition ggufCall (config : ModelConfig) (prompt : string) : Call :=
  mkCall "http://localhost:8080/completion" "POST"
    [("Content-Type", "application/json")]
    (PayloadBody (GGUFCompletion prompt
       (JS.or_num (temperature config) (JS.Fin 0.7))
       (JS.or_num (maxTokens config) (JS.of_Z 1000)))).

Definition callGGUF (settings : ModelSettings) (prompt : string)
    (env : Reply CompletionData) : IO ModelResponse :=
  let start := started env in
  IO.try_catch
    (config ← IO.read (gguf settings) "temperature";
     response ← IO.fetch (ggufCall config prompt) (answered env);
     d ← IO.await response;
     IO.ret (mkResponse (content d) (JS.of_Z (ended env - start))
               (JS.or_num (tokens_per_second d) (JS.of_Z 0)) "GGUF"
               (Some (JS.or_str (modelName config) "Local Model")) None))
    (fun message =>
       config ← IO.read (gguf settings) "modelName";
       IO.ret (failure "GGUF" (Some (JS.or_str (modelName config) "Local Model")) message)).

Definition openaiCall (config : ModelConfig) (prompt : string) : Call :=
  mkCall "https://api.openai.com/v1/chat/completions" "POST"
    [("Content-Type", "application/json");
     ("Authorization", "Bearer " +:+ interpolated (apiKey config))]
    (PayloadBody (OpenAIChat "gpt-4" [("user", prompt)]
       (JS.or_num (temperature config) (JS.Fin 0.7))
       (JS.or_num (maxTokens config) (JS.of_Z 1000)))).

Definition callOpenAI (settings : ModelSettings) (prompt : string)
    (env : Reply OpenAIService.ChatData) : IO ModelResponse :=
  let start := started env in
  IO.try_catch
    (config ← IO.read (openai settings) "apiKey";
     response ← IO.fetch (openaiCall config prompt) (answered env);
     d ← IO.await response;
     let elapsed := JS.of_Z (ended env - start) in
     cs ← IO.read (OpenAIService.choices d) "0";
     c ← IO.read (cs !! 0%nat) "message";
     m ← IO.read (OpenAIService.message c) "content";
     u ← IO.read (OpenAIService.usage d) "completion_tokens";
     IO.ret (mkResponse (Some (OpenAIService.content m)) elapsed
               (JS.to_num (OpenAIService.completion_tokens u) // (elapsed // JS.of_Z 1000))
               "OpenAI" (Some "GPT-4") None))
    (fun message => IO.ret (failure "OpenAI" (Some "GPT-4") message)).

Definition anthropicCall (config : ModelConfig) (prompt : string) : Call :=
  mkCall "https://api.anthropic.com/v1/messages" "POST"
    [("Content-Type", "application/json");
     ("x-api-key", interpolated (apiKey config));
     ("anthropic-version", "2023-06-01")]
    (MessagesBody "claude-3-opus-20240229" [("user", prompt)]
       (JS.or_num (maxTokens config) (JS.of_Z 1000))).

Definition callAnthropic (settings : ModelSettings) (prompt : string)
    (env : Reply AnthropicService.MessagesData) : IO ModelResponse :=
  let start := started env in
  IO.try_catch
    (config ← IO.read (anthropic settings) "apiKey";
     response ← IO.fetch (anthropicCall config prompt) (answered env);
     d ← IO.await response;
     blocks ← IO.read (AnthropicService.content d) "0";
     block ← IO.read (blocks !! 0%nat) "text";
     IO.ret (mkResponse (Some (AnthropicService.block_text block))
               (JS.of_Z (ended env - start)) (JS.of_Z 0) "Anthropic" (Some "Claude 3") None))
    (fun message => IO.ret (failure "Anthropic" (Some "Claude 3") message)).

Definition ollamaCall (config : ModelConfig) (prompt : string) : Call :=
  mkCall (JS.or_str (baseUrl config) "http://localhost:11434" +:+ "/api/generate")
    "POST" [("Content-Type", "application/json")]
    (PromptBody (JS.or_str (modelName config) "llama2") prompt).

Definition callOllama (settings : ModelSettings) (prompt : string)
    (env : Reply GenerateData) : IO ModelResponse :=
  let start := started env in
  IO.try_catch
    (config ← IO.read (ollama settings) "baseUrl";
     response ← IO.fetch (ollamaCall config prompt) (answered env);
     d ← IO.await response;
     IO.ret (mkResponse (ollama_response d) (JS.of_Z (ended env - start)) (JS.of_Z 0) "Ollama"
               (Some (JS.or_str (modelName config) "llama2")) None))
    (fun message =>
       config ← IO.read (ollama settings) "modelName";
       IO.ret (failure "Ollama" (Some (JS.or_str (modelName config) "llama2")) message)).

Definition huggingfaceCall (config : ModelConfig) (prompt : string) : Call :=
  mkCall ("https://api-inference.huggingface.co/models/" +:+ interpolated (modelName config))
    "POST"
    [("Content-Type", "application/json");
     ("Authorization", "Bearer " +:+ interpolated (apiKey config))]
    (InputsBody prompt
       (JS.or_num (temperature config) (JS.Fin 0.7))
       (JS.or_num (maxTokens config) (JS.of_Z 1000))).

Definition callHuggingFace (settings : ModelSettings) (prompt : string)
    (env : Reply (list Generated)) : IO ModelResponse :=
  let start := started env in
  IO.try_catch
    (config ← IO.read (huggingface settings) "modelName";
     response ← IO.fetch (huggingfaceCall config prompt) (answered env);
     d ← IO.await response;
     first ← IO.read (d !! 0%nat) "generated_text";
     IO.ret (mkResponse (generated_text first) (JS.of_Z (ended env - start)) (JS.of_Z 0)
               "HuggingFace" (modelName config) None))
    (fun message =>
       config ← IO.read (huggingface settings) "modelName";
       IO.ret (failure "HuggingFace" (modelName config) message)).

(** What one comparison meets: the reply to each call, and the order in
    which the calls settle. *)
Record World : Type := mkWorld {
  openai_reply : Reply OpenAIService.ChatData;
  anthropic_reply : Reply AnthropicService.MessagesData;
  ollama_reply : Reply GenerateData;
  huggingface_reply : Reply (list Generated);
  gguf_reply : Reply CompletionData;
  settle_order : list nat
}.

(** [if (wanted) promises.push(call)] *)
Definition push_if (wanted : bool) (call : IO ModelResponse)
    : IO (list (Completion ModelResponse)) :=
  if wanted then promise ← IO.call call; IO.ret [promise] else IO.ret [].

Definition compareModels (settings : ModelSettings) (prompt : string) (w : World)
    : IO (list ModelResponse) :=
  config ← IO.read (openai settings) "apiKey";
  p_openai ← push_if (JS.truthy_str (apiKey config))
                (callOpenAI settings prompt (openai_reply w));
  config ← IO.read (anthropic settings) "apiKey";
  p_anthropic ← push_if (JS.truthy_str (apiKey config))
                   (callAnthropic settings prompt (anthropic_reply w));
  config ← IO.read (ollama settings) "baseUrl";
  p_ollama ← push_if (JS.truthy_str (baseUrl config))
                (callOllama settings prompt (ollama_reply w));
  config ← IO.read (huggingface settings) "apiKey";
  p_huggingface ← push_if (JS.truthy_str (apiKey config) && JS.truthy_str (modelName config))
                     (callHuggingFace settings prompt (huggingface_reply w));
  config ← IO.read (gguf settings) "ggufPath";
  p_gguf ← push_if (JS.truthy_str (ggufPath config))
              (callGGUF settings prompt (gguf_reply w));
  IO.await (promise_all (settle_order w)
              (p_openai ++ p_anthropic ++ p_ollama ++ p_huggingface ++ p_gguf)).

(** *** The [ComparisonDashboard] component *)

Record Toast : Type := mkToast {
  title : string;
  description : string;
  variant : string
}.

Record State : Type := mkState {
  prompt : string;
  isComparing : bool;
  settings : ModelSettings;
  results : list ModelResponse
}.

(** The state of the first render. *)
Definition initial : State :=
  mkState "" false
    (mkSettings (Some empty) (Some empty) (Some empty) (Some empty) (Some empty) None) [].

(** [Object.values(settings)] *)
Definition values (value : ModelSettings) : list ModelConfig :=
  omap (λ o, o) [openai value; anthropic value; google value; ollama value;
                 huggingface value; gguf value].

Definition hasConfiguredModel (value : ModelSettings) : bool :=
  existsb (λ config, JS.truthy_str (apiKey config) || JS.truthy_str (baseUrl config))
    (values value).

Record Effects : Type := mkEffects {
  toasts : list Toast;
  sent : list Call;
  state : State
}.

Definition destructive (title description : string) : Toast :=
  mkToast title description "destructive".

Definition handleCompare (st : State) (w : World) : Effects :=
  if String.eqb (JS.trim (prompt st)) "" then
    mkEffects [destructive "Error" "Please enter a prompt to compare"] [] st
  else if negb (hasConfiguredModel (settings st)) then
    mkEffects [destructive "Error" "Please configure at least one model in settings"] [] st
  else
    match compareModels (settings st) (prompt st) w with
    | (log, Resolved responses) =>
        mkEffects
          ((λ failed, destructive (provider failed +:+ " Error") (default "" (error failed)))
             <$> filter (λ r, JS.truthy_str (error r) = true) responses)
          (IO.calls log)
          (mkState (prompt st) false (settings st) responses)
    | (log, Rejected _) =>
        mkEffects [destructive "Error" "An error occurred while comparing models"]
          (IO.calls log)
          (mkState (prompt st) false (settings st) (results st))
    end.

(** The states of the component: the first render, then typing into the
    prompt, typing into an input of the settings panel, and clicking
    Compare. *)
Inductive reachable : State → Prop :=
| reach_initial : reachable initial
| reach_prompt st typed :
    reachable st →
    reachable (mkState typed (isComparing st) (settings st) (results st))
| reach_setting st field_provider field typed :
    reachable st → rendered field_provider field = true →
    reachable (mkState (prompt st) (isComparing st)
                 (handleSettingChange (settings st) field_provider field typed)
                 (results st))
| reach_compare st w :
    reachable st → reachable (state (handleCompare st w)).

(** The providers [compareModels] calls for a settings object, in the order
    it calls them, and what it sends to each but the local server. *)
Definition configured (value : ModelSettings) : list string :=
  (if JS.truthy_str (default empty (openai value)).(apiKey) then ["OpenAI"] else [])
  ++ (if JS.truthy_str (default empty (anthropic value)).(apiKey) then ["Anthropic"] else [])
  ++ (if JS.truthy_str (default empty (ollama value)).(baseUrl) then ["Ollama"] else [])
  ++ (if JS.truthy_str (default empty (huggingface value)).(apiKey)
         && JS.truthy_str (default empty (huggingface value)).(modelName)
      then ["HuggingFace"] else [])
  ++ (if JS.truthy_str (default empty (gguf value)).(ggufPath) then ["GGUF"] else []).

(** The settings of the four hosted providers are there. *)
Definition hosted_present (value : ModelSettings) : Prop :=
  is_Some (openai value) ∧ is_Some (anthropic value) ∧ is_Some (ollama value)
  ∧ is_Some (huggingface value).

Definition hosted_calls (value : ModelSettings) (asked : string) : list Call :=
  (if JS.truthy_str (default empty (openai value)).(apiKey)
   then [openaiCall (default empty (openai value)) asked] else [])
  ++ (if JS.truthy_str (default empty (anthropic value)).(apiKey)
      then [anthropicCall (default empty (anthropic value)) asked] else [])
  ++ (if JS.truthy_str (default empty (ollama value)).(baseUrl)
      then [ollamaCall (default empty (ollama value)) asked] else [])
  ++ (if JS.truthy_str (default empty (huggingface value)).(apiKey)
         && JS.truthy_str (default empty (huggingface value)).(modelName)
      then [huggingfaceCall (default empty (huggingface value)) asked] else []).

End Legacy.

(** * Properties *)

(** ** [Async] computations *)

Section AsyncFacts.
Context {A B : Type}.

Lemma outcome_bind_resolved (m : Async A) (f : A → Async B) a :
  Async.outcome m = Resolved a →
  Async.outcome (m ≫= f) = Async.outcome (f a).
Proof.
  destruct m as [log c]. simpl. intros ->.
  unfold mbind, Async_bind, Async.bind. by destruct (f a).
Qed.

Lemma outcome_bind_rejected (m : Async A) (f : A → Async B) e :
  Async.outcome m = Rejected e →
  Async.outcome (m ≫= f) = Rejected e.
Proof. destruct m as [log c]. simpl. by intros ->. Qed.

Lemma requests_bind_resolved (m : Async A) (f : A → Async B) a :
  Async.outcome m = Resolved a →
  Async.requests (m ≫= f) = Async.requests m ++ Async.requests (f a).
Proof.
  destruct m as [log c]. simpl. intros ->.
  unfold mbind, Async_bind, Async.bind. by destruct (f a).
Qed.

Lemma outcome_try_catch (m : Async A) (h : string → Async A) :
  Async.outcome (Async.try_catch m h) =
  match Async.outcome m with
  | Resolved a => Resolved a
  | Rejected e => Async.outcome (h e)
  end.
Proof. destruct m as [log [a|e]]; simpl; [done|]. by destruct (h e). Qed.

End AsyncFacts.

(** ** [Promise.all] keeps the order of submission *)

Section PromiseAll.
Context {A : Type}.

Lemma omap_Some (vs : list A) : omap (λ v, v) (Some <$> vs) = vs.
Proof. induction vs as [|v vs IH]; simpl; [done|]. f_equal. exact IH. Qed.

Lemma schedule_complete n order i : i < n → i ∈ schedule n order.
Proof.
  intros Hi. unfold schedule. apply elem_of_app.
  destruct (decide (i ∈ remove_dups (filter (λ i, i < n) order))) as [?|Hn];
    [by left|right].
  apply list_elem_of_filter. split; [done|]. apply elem_of_seq. lia.
Qed.

(** A slot is either filled with the value of its promise, or its promise is
    still to settle. *)
Lemma promise_all_loop_fulfilled (vs : list A) order values :
  length values = length vs →
  (∀ i v, vs !! i = Some v →
     values !! i = Some (Some v) ∨ i ∈ order) →
  promise_all_loop order (Resolved <$> vs) values = Resolved vs.
Proof.
  revert values. induction order as [|i rest IH]; intros values Hlen Hinv; simpl.
  - f_equal. transitivity (omap (λ v, v) (Some <$> vs)); [f_equal|apply omap_Some].
    apply list_eq. intros i. rewrite list_lookup_fmap.
    destruct (vs !! i) as [v|] eqn:Hv; simpl.
    + destruct (Hinv i v Hv) as [?|Hin]; [done|]. by apply not_elem_of_nil in Hin.
    + apply lookup_ge_None. apply lookup_ge_None in Hv. lia.
  - rewrite list_lookup_fmap. destruct (vs !! i) as [v|] eqn:Hv; simpl.
    + apply IH; [by rewrite length_insert|].
      intros j u Hu. destruct (decide (j = i)) as [->|Hne].
      * left. rewrite list_lookup_insert_eq; [congruence|].
        apply lookup_lt_Some in Hv. lia.
      * rewrite list_lookup_insert_ne; [|done].
        destruct (Hinv j u Hu) as [?|Hin]; [by left|right].
        apply elem_of_cons in Hin as [?|?]; [congruence|done].
    + apply IH; [done|].
      intros j u Hu. destruct (Hinv j u Hu) as [?|Hin]; [by left|right].
      apply elem_of_cons in Hin as [->|?]; [congruence|done].
Qed.

Lemma promise_all_fulfilled order (vs : list A) :
  promise_all order (Resolved <$> vs) = Resolved vs.
Proof.
  unfold promise_all. rewrite length_fmap.
  apply promise_all_loop_fulfilled; [by rewrite length_replicate|].
  intros i v Hv. right. apply schedule_complete. by apply lookup_lt_Some in Hv.
Qed.

Lemma launch_outcome (calls : list (Async A)) :
  Async.outcome (launch calls) = Resolved (Async.outcome <$> calls).
Proof. done. Qed.

(** Calls that are all fulfilled, each in a way [P] relates to the element
    it was made for. *)
Lemma imap_fulfilled {X} (P : X → A → Prop) (f : nat → X → Async A) (l : list X) :
  (∀ i x, l !! i = Some x → ∃ r, Async.outcome (f i x) = Resolved r ∧ P x r) →
  ∃ rs, Async.outcome <$> imap f l = Resolved <$> rs ∧ Forall2 P l rs.
Proof.
  revert f. induction l as [|x l IH]; intros f Hf.
  - by exists [].
  - destruct (Hf 0%nat x eq_refl) as (r & Hr & HP).
    destruct (IH (f ∘ S)) as (rs & Hrs & Hall).
    { intros i y Hy. by apply (Hf (S i)). }
    exists (r :: rs). split; [|by constructor].
    rewrite imap_cons, !fmap_cons, Hr. f_equal. exact Hrs.
Qed.

End PromiseAll.

#[local] Arguments OpenAIService.capabilities_of : simpl never.
#[local] Arguments OpenAIService.calculateCost : simpl never.
#[local] Arguments AnthropicService.calculateCost : simpl never.
#[local] Arguments estimateTokenCount : simpl never.
#[local] Arguments JS.div : simpl never.
#[local] Arguments JS.add : simpl never.
#[local] Arguments JS.or_str : simpl never.
#[local] Arguments JS.or_num : simpl never.
#[local] Arguments String.append : simpl never.

(** ** The three [generateResponse] adapters always fulfil their promise *)

Section Adapters.

Lemma OpenAI_generateResponse_settles config prompt env :
  ∃ r, Async.outcome (OpenAIService.generateResponse config prompt env) = Resolved r ∧
       resp_id r = id config ∧
       ((∃ message, r = OpenAIService.failure config message) ∨
        (error r = None ∧ openai_well_formed env)).
Proof.
  unfold OpenAIService.generateResponse. rewrite outcome_try_catch.
  destruct env as [t0 [[st [e|m] | [[[u|] [[|[[m|]] cs]|]]|m]] | m] t1]; simpl;
    eauto 10.
  eexists; split; [reflexivity|]; split; [reflexivity|]. right. split; [done|].
  unfold openai_well_formed. simpl. eauto 12.
Qed.

Lemma Anthropic_generateResponse_settles config prompt env :
  ∃ r, Async.outcome (AnthropicService.generateResponse config prompt env) = Resolved r ∧
       resp_id r = id config ∧
       ((∃ message, r = AnthropicService.failure config message) ∨
        (error r = None ∧ anthropic_well_formed env)).
Proof.
  unfold AnthropicService.generateResponse. rewrite outcome_try_catch.
  destruct env as [t0 [[st [e|m] | [[[[|b bs]|]]|m]] | m] t1]; simpl; eauto 10.
  eexists; split; [reflexivity|]; split; [reflexivity|]. right. split; [done|].
  unfold anthropic_well_formed. simpl. eauto 12.
Qed.

Lemma GGUF_generateResponse_settles config prompt env :
  ∃ r, Async.outcome (GGUFService.generateResponse config prompt env) = Resolved r ∧
       resp_id r = id config ∧
       ((∃ message, r = GGUFService.failure config message) ∨
        (error r = None ∧ gguf_well_formed env)).
Proof.
  unfold GGUFService.generateResponse. rewrite outcome_try_catch.
  destruct env as [[[hs hb|hb]|hm] [t0 [[st [e|m] | [[[txt|]]|m]] | m] t1]];
    simpl; eauto 10.
  eexists; split; [reflexivity|]; split; [reflexivity|]. right. split; [done|].
  unfold gguf_well_formed. simpl. eauto 12.
Qed.

End Adapters.

(** ** The fan-out of [compareModels] *)

Section FanOut.
Import ComparisonService.

Variable gen : option (OllamaEndpointConfig → string → nat → Async ModelResponse).

Lemma collect_promises_reschedule this prompt w order :
  collect_promises gen this prompt (reschedule w order) = collect_promises gen this prompt w.
Proof. reflexivity. Qed.

Lemma call_ollama_fulfilled prompt svcs :
  ollama_fulfils gen prompt svcs →
  ∃ calls rs, Async.outcome (call_ollama gen prompt svcs) = Resolved calls ∧
              Async.outcome <$> calls = Resolved <$> rs ∧ length rs = length svcs.
Proof.
  intros [->|(f & -> & Hf)].
  - by exists [], [].
  - destruct (imap_fulfilled (λ _ _, True) (λ i s, f s prompt i) svcs) as (rs & Hrs & Hall).
    { intros i s Hs. destruct (Hf i s Hs) as [r Hr]. eauto. }
    exists (imap (λ i s, f s prompt i) svcs), rs.
    split; [by destruct svcs|]. split; [done|]. symmetry. by eapply Forall2_length.
Qed.

(** The promises are collected in the order openai, anthropic, ollama, gguf,
    each kind in the order of its services, and all are fulfilled. *)
Lemma collect_promises_fulfilled this prompt w :
  ollama_fulfils gen prompt (ollama (services this)) →
  ∃ ros ras rls rgs,
    Async.outcome (collect_promises gen this prompt w)
      = Resolved (Resolved <$> (ros ++ ras ++ rls ++ rgs)) ∧
    Forall2 (λ (c : APIEndpointConfig) r, resp_id r = id c) (openai (services this)) ros ∧
    Forall2 (λ (c : APIEndpointConfig) r, resp_id r = id c) (anthropic (services this)) ras ∧
    length rls = length (ollama (services this)) ∧
    Forall2 (λ (c : GGUFModelConfig) r, resp_id r = id c) (gguf (services this)) rgs.
Proof.
  intros Hollama.
  destruct (imap_fulfilled (λ (c : APIEndpointConfig) r, resp_id r = id c)
              (λ i service, OpenAIService.generateResponse service prompt (openai_env w i))
              (openai (services this))) as (ros & Hros & Hio).
  { intros i c _. destruct (OpenAI_generateResponse_settles c prompt (openai_env w i))
      as (r & ? & ? & _). eauto. }
  destruct (imap_fulfilled (λ (c : APIEndpointConfig) r, resp_id r = id c)
              (λ i service, AnthropicService.generateResponse service prompt (anthropic_env w i))
              (anthropic (services this))) as (ras & Hras & Hia).
  { intros i c _. destruct (Anthropic_generateResponse_settles c prompt (anthropic_env w i))
      as (r & ? & ? & _). eauto. }
  destruct (imap_fulfilled (λ (c : GGUFModelConfig) r, resp_id r = id c)
              (λ i service, GGUFService.generateResponse service prompt (gguf_env w i))
              (gguf (services this))) as (rgs & Hrgs & Hig).
  { intros i c _. destruct (GGUF_generateResponse_settles c prompt (gguf_env w i))
      as (r & ? & ? & _). eauto. }
  destruct (call_ollama_fulfilled prompt _ Hollama) as (calls & rls & Hcall & Hrls & Hlen).
  exists ros, ras, rls, rgs. split; [|done].
  unfold collect_promises.
  rewrite (outcome_bind_resolved _ _ _ (launch_outcome _)).
  rewrite (outcome_bind_resolved _ _ _ (launch_outcome _)).
  rewrite (outcome_bind_resolved _ _ _ Hcall).
  rewrite (outcome_bind_resolved _ _ _ (launch_outcome _)).
  rewrite (outcome_bind_resolved _ _ _ (launch_outcome _)).
  simpl. by rewrite Hros, Hras, Hrls, Hrgs, !fmap_app.
Qed.

(** Once the promises are fulfilled, the result holds their values in the
    order of submission, whatever the order of settlement. *)
Lemma compareModels_of_promises this prompt w rs :
  Async.outcome (collect_promises gen this prompt w) = Resolved (Resolved <$> rs) →
  Async.outcome (compareModels gen this prompt w) =
    Resolved (mkResult prompt (clock_iso w) rs (JS.of_Z (clock_end w - clock_start w))
      (let errors :=
         error_line <$> filter (λ response, JS.truthy_str (error response) = true) rs in
       if (0 <? length errors)%nat then Some errors else None)).
Proof.
  intros Hps. unfold compareModels.
  rewrite (outcome_bind_resolved _ _ _ Hps).
  by rewrite promise_all_fulfilled.
Qed.

End FanOut.

Lemma Forall2_ids {C} (ident : C → string) (l : list C) (rs : list ModelResponse) :
  Forall2 (λ c r, resp_id r = ident c) l rs → resp_id <$> rs = ident <$> l.
Proof.
  induction 1 as [|c r l rs Hr _ IH]; [done|].
  rewrite !fmap_cons. by f_equal.
Qed.

(** ** One response per service, in the order of submission *)

Section Compare.
Import ComparisonService.

Variable gen : option (OllamaEndpointConfig → string → nat → Async ModelResponse).

(** C1, as the code has it. [compareModels] fulfils with exactly one response
    per enabled OpenAI, Anthropic, Ollama and GGUF configuration, carrying the
    id of its configuration, provided every call on an Ollama service is
    fulfilled; the enabled Google and HuggingFace configurations get no
    response. *)
Theorem compareModels_one_response_per_service this configs prompt w :
  let svc := updateConfigs this configs in
  ollama_fulfils gen prompt (filter (λ c : OllamaEndpointConfig, enabled c = true)
                               (cfg_ollama configs)) →
  ∃ r rls,
    Async.outcome (compareModels gen svc prompt w) = Resolved r ∧
    length (responses r) =
      (length (filter (λ c : APIEndpointConfig, enabled c = true) (cfg_openai configs))
       + length (filter (λ c : APIEndpointConfig, enabled c = true) (cfg_anthropic configs))
       + length (filter (λ c : OllamaEndpointConfig, enabled c = true) (cfg_ollama configs))
       + length (filter (λ c : GGUFModelConfig, enabled c = true) (cfg_gguf configs)))%nat ∧
    length rls =
      length (filter (λ c : OllamaEndpointConfig, enabled c = true) (cfg_ollama configs)) ∧
    resp_id <$> responses r =
      ((λ c : APIEndpointConfig, id c) <$>
         filter (λ c : APIEndpointConfig, enabled c = true) (cfg_openai configs))
      ++ ((λ c : APIEndpointConfig, id c) <$>
            filter (λ c : APIEndpointConfig, enabled c = true) (cfg_anthropic configs))
      ++ (resp_id <$> rls)
      ++ ((λ c : GGUFModelConfig, id c) <$>
            filter (λ c : GGUFModelConfig, enabled c = true) (cfg_gguf configs)).
Proof.
  intros svc Hollama.
  destruct (collect_promises_fulfilled gen svc prompt w Hollama)
    as (ros & ras & rls & rgs & Hps & Ho & Ha & Hl & Hg).
  eexists _, rls. split; [by apply compareModels_of_promises|]. simpl.
  split; [|split; [done|]].
  - rewrite !length_app, Hl.
    apply Forall2_length in Ho. apply Forall2_length in Ha. apply Forall2_length in Hg.
    subst svc. simpl in *. lia.
  - rewrite !fmap_app. f_equal; [|f_equal; [|f_equal]].
    + by apply (Forall2_ids (λ c : APIEndpointConfig, id c)).
    + by apply (Forall2_ids (λ c : APIEndpointConfig, id c)).
    + by apply (Forall2_ids (λ c : GGUFModelConfig, id c)).
Qed.

(** C5, as the code has it. [Promise.all] hands the values back in the order
    the promises were submitted: the responses are those of the OpenAI, the
    Anthropic, the Ollama and the GGUF services, in that order and within a
    kind in the order of the configurations, whatever the order in which the
    calls settle. *)
Theorem responses_keep_submission_order this prompt w :
  ollama_fulfils gen prompt (ollama (services this)) →
  ∃ ros ras rls rgs,
    Forall2 (λ (c : APIEndpointConfig) r, resp_id r = id c) (openai (services this)) ros ∧
    Forall2 (λ (c : APIEndpointConfig) r, resp_id r = id c) (anthropic (services this)) ras ∧
    length rls = length (ollama (services this)) ∧
    Forall2 (λ (c : GGUFModelConfig) r, resp_id r = id c) (gguf (services this)) rgs ∧
    ∀ order, ∃ r,
      Async.outcome (compareModels gen this prompt (reschedule w order)) = Resolved r ∧
      responses r = ros ++ ras ++ rls ++ rgs.
Proof.
  intros Hollama.
  destruct (collect_promises_fulfilled gen this prompt w Hollama)
    as (ros & ras & rls & rgs & Hps & Ho & Ha & Hl & Hg).
  exists ros, ras, rls, rgs. do 4 (split; [done|]).
  intros order. eexists. split; [|].
  - by apply (compareModels_of_promises gen this prompt (reschedule w order)).
  - reflexivity.
Qed.

End Compare.

(** C1 as stated fails: with an OpenAI, a Google and a HuggingFace
    configuration enabled, three configurations are enabled and the result
    holds one response, the OpenAI one. *)
Lemma compareModels_skips_google_and_huggingface :
  let configs :=
    mkConfigs [Sample.api "openai" "a"] [] [Sample.api "google" "g"] []
      [Sample.api "huggingface" "h"] [] in
  enabled_count configs = 3%nat ∧
  ∃ r, Async.outcome (ComparisonService.compareModels None (Sample.service configs)
                        "hello" (Sample.world [])) = Resolved r ∧
       resp_id <$> responses r = ["a"].
Proof. split; [reflexivity|]. eexists. split; [vm_compute; reflexivity|reflexivity]. Qed.

Lemma compareModels_one_response_per_service_witness :
  let configs :=
    mkConfigs [Sample.api "openai" "a"] [Sample.api "anthropic" "c"]
      [Sample.api "google" "g"] [Sample.ollama "o" None None] []
      [Sample.local "q" 8080] in
  let gen := Some Sample.ollama_member in
  ollama_fulfils gen "hello"
    (filter (λ c : OllamaEndpointConfig, enabled c = true) (cfg_ollama configs)) ∧
  ∃ r, Async.outcome (ComparisonService.compareModels gen
                        (ComparisonService.updateConfigs ComparisonService.instance configs)
                        "hello" (Sample.world [2; 0]%nat)) = Resolved r ∧
       length (responses r) = 4%nat ∧
       resp_id <$> responses r = ["a"; "c"; "o"; "q"].
Proof.
  intros configs gen.
  assert (Hollama : ollama_fulfils gen "hello"
            (filter (λ c : OllamaEndpointConfig, enabled c = true) (cfg_ollama configs))).
  { right. exists Sample.ollama_member. split; [reflexivity|].
    intros i s _. eexists. reflexivity. }
  split; [exact Hollama|].
  destruct (compareModels_one_response_per_service gen ComparisonService.instance
              configs "hello" (Sample.world [2; 0]%nat) Hollama)
    as (r & rls & Hr & Hlen & Hrls & Hids).
  exists r. split; [exact Hr|]. split; [exact Hlen|].
  destruct rls as [|o [|o' rls]]; [discriminate Hrls| |discriminate Hrls].
  vm_compute in Hr. injection Hr as <-. reflexivity.
Defined.

(** C5 as stated fails: of two OpenAI services [A] and [B], [B] settles first
    and [A] still comes first in the result. *)
Lemma settling_first_does_not_come_first :
  let configs :=
    mkConfigs [Sample.api "openai" "A"; Sample.api "openai" "B"] [] [] [] [] [] in
  ∃ r, Async.outcome (ComparisonService.compareModels None (Sample.service configs)
                        "hello" (Sample.world [1; 0]%nat)) = Resolved r ∧
       resp_id <$> responses r = ["A"; "B"] ∧
       resp_id <$> completion_order [1; 0]%nat (responses r) = ["B"; "A"].
Proof. eexists. split; [vm_compute; reflexivity|]. split; reflexivity. Qed.

Lemma responses_keep_submission_order_witness :
  let svc :=
    Sample.service (mkConfigs [Sample.api "openai" "A"; Sample.api "openai" "B"] [] [] []
                      [] [Sample.local "q" 8080]) in
  ollama_fulfils None "hello" (ComparisonService.ollama (ComparisonService.services svc)) ∧
  ∃ rs, length rs = 3%nat ∧
    ∀ order, ∃ r,
      Async.outcome (ComparisonService.compareModels None svc "hello"
                       (reschedule (Sample.world []) order)) = Resolved r ∧
      responses r = rs.
Proof.
  intros svc.
  assert (Hollama : ollama_fulfils None "hello"
            (ComparisonService.ollama (ComparisonService.services svc)))
    by (left; reflexivity).
  split; [exact Hollama|].
  destruct (responses_keep_submission_order None svc "hello" (Sample.world []) Hollama)
    as (ros & ras & rls & rgs & Ho & Ha & Hl & Hg & Hall).
  exists (ros ++ ras ++ rls ++ rgs). split; [|exact Hall].
  apply Forall2_length in Ho. apply Forall2_length in Ha. apply Forall2_length in Hg.
  rewrite !length_app, Hl, <- Ho, <- Ha, <- Hg. reflexivity.
Defined.

(** ** [trim] and white space *)

Lemma trimEnd_empty s : JS.trimEnd s = "" ↔ JS.whitespace_only s = true.
Proof.
  induction s as [|c s IH]; simpl; [done|].
  destruct (JS.trimEnd s) as [|c' t].
  - destruct (JS.is_space c); simpl; [|by split].
    split; intros _; [by apply IH|done].
  - split; [done|]. intros [_ Hs]%andb_true_iff. by apply IH in Hs.
Qed.

Lemma whitespace_only_trimStart s :
  JS.whitespace_only (JS.trimStart s) = JS.whitespace_only s.
Proof.
  induction s as [|c s IH]; simpl; [done|].
  destruct (JS.is_space c) eqn:Hc; simpl; [done|]. by rewrite Hc.
Qed.

Lemma trim_empty s : JS.trim s = "" ↔ JS.whitespace_only s = true.
Proof. unfold JS.trim. by rewrite trimEnd_empty, whitespace_only_trimStart. Qed.

(** ** The page handler [handleCompare] *)

Section Dashboard.
Import ComparisonDashboard.

Lemma processModel_fulfils st env i wanted :
  promise (processModel st env i wanted) = Resolved (row_of st env i wanted).
Proof.
  unfold row_of, processModel.
  destruct (find_model st wanted) as [[config|config]|]; [done| |done].
  destruct (String.eqb (provider config) "ollama"); [|done].
  simpl. by destruct (Async.outcome (attempt st env i wanted config)).
Qed.

Lemma calls_fulfil st env (selected : list string) :
  promise <$> imap (processModel st env) selected
  = Resolved <$> imap (row_of st env) selected.
Proof.
  rewrite !fmap_imap. apply imap_ext. intros i wanted _. simpl.
  apply processModel_fulfils.
Qed.

(** Past its two guards, [handleCompare] calls every selected model and either
    records the results or, when there is none, shows the error it throws. *)
Lemma handleCompare_unguarded st env :
  JS.trim (prompt st) ≠ "" → selectedModels st ≠ [] →
  let calls := imap (processModel st env) (selectedModels st) in
  let results := omap (λ r, r) (imap (row_of st env) (selectedModels st)) in
  let shown :=
    schedule (length calls) (settle_order env)
      ≫= (λ i, default [] (error_toasts <$> calls !! i)) in
  handleCompare st env =
    match results with
    | [] =>
        mkEffects
          (shown ++ [destructive "Error" "No successful model responses"])
          (concat (at_once <$> calls)) (later <$> calls)
          (mkState (prompt st) false (selectedModels st) (performance st)
             (Some (now env)) (configs st))
    | _ :: _ =>
        mkEffects shown (concat (at_once <$> calls)) (later <$> calls)
          (mkState (prompt st) false (selectedModels st)
             (record_results (performance st) results) (Some (now env)) (configs st))
    end.
Proof.
  intros Hprompt Hsel calls results shown. unfold handleCompare.
  destruct (String.eqb_spec (JS.trim (prompt st)) "") as [?|_]; [done|].
  assert (Hlen : (length (selectedModels st) =? 0)%nat = false)
    by (by destruct (selectedModels st)).
  rewrite Hlen.
  rewrite calls_fulfil, promise_all_fulfilled. fold calls results shown.
  by destruct results as [|r rs].
Qed.

Lemma no_rows st env (selected : list string) :
  (∀ i wanted, selected !! i = Some wanted → row_of st env i wanted = None) →
  omap (λ r, r) (imap (row_of st env) selected) = [].
Proof.
  revert env. generalize (row_of st). intros f env.
  generalize (f env). clear. intros f.
  revert f. induction selected as [|x l IH]; intros f Hf; [done|].
  rewrite imap_cons. simpl. rewrite (Hf 0%nat x eq_refl).
  apply IH. intros i y Hy. by apply (Hf (S i)).
Qed.

Lemma processModel_not_enabled st env i wanted :
  enabledModels st = [] → processModel st env i wanted = mkStarted [] [] [] (Resolved None).
Proof. intros He. unfold processModel, find_model. by rewrite He. Qed.

Lemma concat_nils {A B} (l : list B) : concat ((λ _, @nil A) <$> l) = [].
Proof. induction l as [|x l IH]; simpl; done. Qed.

Lemma bind_nils {A B} (l : list B) : l ≫= (λ _, @nil A) = [].
Proof. induction l as [|x l IH]; [done|]. rewrite bind_cons. done. Qed.

Lemma handleCompare_nothing_enabled st env :
  JS.trim (prompt st) ≠ "" → selectedModels st ≠ [] → enabledModels st = [] →
  ∃ later,
    handleCompare st env =
      mkEffects [destructive "Error" "No successful model responses"] [] later
        (mkState (prompt st) false (selectedModels st) (performance st)
           (Some (now env)) (configs st)).
Proof.
  intros Hprompt Hsel Hen. rewrite (handleCompare_unguarded st env Hprompt Hsel).
  rewrite no_rows.
  2:{ intros i wanted _. unfold row_of. by rewrite processModel_not_enabled. }
  replace (imap (processModel st env) (selectedModels st))
    with ((λ _ : string, mkStarted [] [] [] (Resolved None)) <$> selectedModels st).
  2:{ rewrite <- (imap_const (λ _ : string, mkStarted [] [] [] (Resolved None))).
      apply imap_ext. intros i wanted _. simpl.
      by rewrite processModel_not_enabled. }
  eexists. f_equal.
  - rewrite (list_bind_ext _ (λ _, []) _ (schedule (length ((λ _ : string, mkStarted [] [] [] (Resolved None)) <$> selectedModels st)) (settle_order env))); [by rewrite bind_nils| |done].
    intros i. rewrite list_lookup_fmap. by destruct (selectedModels st !! i).
  - rewrite <- list_fmap_compose. apply (concat_nils (A := Call)).
Qed.

Lemma attempt_settles st env i wanted config :
  Async.outcome (attempt st env i wanted config)
  = match Async.outcome (OllamaService.generateCompletion config (prompt st) (answer env i)) with
    | Resolved metrics =>
        Resolved (mkRow wanted (name config) (built env i)
                    (OllamaService.cm_responseTime metrics)
                    (OllamaService.cm_tokensPerSecond metrics)
                    (OllamaService.cm_totalTokens metrics)
                    (JS.or_num (OllamaService.cm_promptTokens metrics) (JS.of_Z 0))
                    (JS.or_num (OllamaService.cm_completionTokens metrics) (JS.of_Z 0))
                    (OllamaService.cm_processingTime metrics))
    | Rejected message => Rejected message
    end.
Proof.
  unfold attempt, mbind, Async_bind, Async.bind.
  by destruct (OllamaService.generateCompletion config (prompt st) (answer env i))
    as [log [metrics|message]].
Qed.

Lemma row_of_point st env i wanted : row_of st env i wanted = point_of st env i wanted.
Proof.
  unfold row_of, point_of, completion_of, called, processModel.
  destruct (find_model st wanted) as [[config|config]|]; [done| |done].
  destruct (String.eqb (provider config) "ollama"); [|done].
  simpl. rewrite attempt_settles.
  by destruct (Async.outcome (OllamaService.generateCompletion _ _ _)).
Qed.

Lemma processModel_toasts st env i wanted :
  error_toasts (processModel st env i wanted) = error_of st env i wanted.
Proof.
  unfold error_of, completion_of, called, processModel.
  destruct (find_model st wanted) as [[config|config]|]; [done| |done].
  destruct (String.eqb (provider config) "ollama"); [|done].
  simpl. rewrite attempt_settles.
  by destruct (Async.outcome (OllamaService.generateCompletion _ _ _)).
Qed.

(** The toasts of the calls, in the order the calls settle *)
Lemma toasts_in_settle_order st env (selected : list string) order :
  schedule (length (imap (processModel st env) selected)) order
    ≫= (λ i, default [] (error_toasts <$> imap (processModel st env) selected !! i))
  = schedule (length selected) order
      ≫= (λ i, default [] (error_of st env i <$> selected !! i)).
Proof.
  rewrite length_imap. apply list_bind_ext; [|done].
  intros i. rewrite list_lookup_imap.
  destruct (selected !! i) as [wanted|]; [|done].
  simpl. apply processModel_toasts.
Qed.

Lemma record_results_cons prev result results :
  record_results prev (result :: results)
  = record_results
      (<[modelId result :=
           drop (length (default [] (prev !! modelId result)) - 9)
             (default [] (prev !! modelId result)) ++ [result]]> prev) results.
Proof. reflexivity. Qed.

Lemma record_results_frame :
  ∀ (selected : list string) (f : nat → string → option ModelMetrics) prev model,
    (∀ i wanted row, f i wanted = Some row → modelId row = wanted) →
    model ∉ selected →
    record_results prev (omap (λ r, r) (imap f selected)) !! model = prev !! model.
Proof.
  induction selected as [|w ws IH]; intros f prev model Hid Hnot; [done|].
  apply not_elem_of_cons in Hnot as [Hne Hnot].
  rewrite imap_cons. simpl.
  destruct (f 0%nat w) as [row|] eqn:Hrow.
  - rewrite record_results_cons, IH; [| |done].
    + rewrite lookup_insert_ne; [done|]. by rewrite (Hid _ _ _ Hrow).
    + intros i wanted row'. apply Hid.
  - apply IH; [|done]. intros i wanted row'. apply Hid.
Qed.

Lemma record_results_lookup :
  ∀ (selected : list string) (f : nat → string → option ModelMetrics) prev i wanted,
    (∀ i wanted row, f i wanted = Some row → modelId row = wanted) →
    NoDup selected → selected !! i = Some wanted →
    record_results prev (omap (λ r, r) (imap f selected)) !! wanted
    = match f i wanted with
      | Some row =>
          Some (drop (length (default [] (prev !! wanted)) - 9)
                  (default [] (prev !! wanted)) ++ [row])
      | None => prev !! wanted
      end.
Proof.
  induction selected as [|w ws IH]; intros f prev i wanted Hid Hdistinct Hi; [done|].
  apply NoDup_cons in Hdistinct as [Hw Hdistinct].
  rewrite imap_cons. simpl.
  assert (Hshift : ∀ i wanted row, (f ∘ S) i wanted = Some row → modelId row = wanted)
    by (intros j wanted' row'; apply Hid).
  destruct i as [|i]; simpl in Hi.
  - injection Hi as ->.
    destruct (f 0%nat wanted) as [row|] eqn:Hrow.
    + rewrite record_results_cons, record_results_frame by done.
      rewrite (Hid _ _ _ Hrow). by rewrite lookup_insert_eq.
    + by apply record_results_frame.
  - assert (Hne : w ≠ wanted).
    { intros ->. apply Hw. by apply list_elem_of_lookup_2 in Hi. }
    destruct (f 0%nat w) as [row|] eqn:Hrow.
    + rewrite record_results_cons, (IH (f ∘ S) _ i wanted Hshift Hdistinct Hi).
      rewrite (Hid _ _ _ Hrow). by rewrite lookup_insert_ne.
    + apply (IH (f ∘ S) _ i wanted Hshift Hdistinct Hi).
Qed.

Lemma last_nine {A} (earlier : list A) :
  length (drop (length earlier - 9) earlier) = min 9 (length earlier)
  ∧ drop (length earlier - 9) earlier `suffix_of` earlier.
Proof. split; [rewrite length_drop; lia|apply suffix_drop]. Qed.

Lemma point_of_id st env i wanted row :
  point_of st env i wanted = Some row → modelId row = wanted.
Proof.
  unfold point_of. destruct (completion_of st env i wanted) as [[config [metrics|message]]|];
    [|done|done].
  by intros [= <-].
Qed.

End Dashboard.

(** ** User-input errors and total failure *)

Lemma filter_all {A} (P : A → Prop) `{∀ x, Decision (P x)} (l : list A) :
  Forall P l → filter P l = l.
Proof.
  induction 1 as [|x l Hx _ IH]; [done|].
  rewrite filter_cons_True; [|done]. by rewrite IH.
Qed.

Lemma nothing_enabled configs :
  enabled_count configs = 0%nat →
  ComparisonService.services (ComparisonService.updateConfigs ComparisonService.instance configs)
  = ComparisonService.mkServices [] [] [] [].
Proof.
  unfold enabled_count. intros Hn. simpl.
  f_equal; apply length_zero_iff_nil; lia.
Qed.

(** C3, as the code has it. The guard is the page's: when the prompt is empty
    or white space only, when no model is selected, or when no configuration
    is enabled, [handleCompare] shows one error, issues no request and records
    no metrics. [ComparisonService.compareModels] checks neither the prompt
    nor the services: with nothing enabled it fulfils, at once, with a result
    without responses and without errors. *)
Theorem user_input_errors_come_from_the_page :
  (∀ st env,
     JS.whitespace_only (ComparisonDashboard.prompt st) = true
     ∨ ComparisonDashboard.selectedModels st = []
     ∨ ComparisonDashboard.enabledModels st = [] →
     ComparisonDashboard.requests (ComparisonDashboard.handleCompare st env) = [] ∧
     ComparisonDashboard.performance
       (ComparisonDashboard.state (ComparisonDashboard.handleCompare st env))
     = ComparisonDashboard.performance st ∧
     ∃ description,
       ComparisonDashboard.toasts (ComparisonDashboard.handleCompare st env)
       = [ComparisonDashboard.destructive "Error" description]) ∧
  (∀ gen configs prompt w,
     enabled_count configs = 0%nat →
     ComparisonService.compareModels gen
       (ComparisonService.updateConfigs ComparisonService.instance configs) prompt w
     = ([], Resolved (mkResult prompt (ComparisonService.clock_iso w) []
                        (JS.of_Z (ComparisonService.clock_end w
                                  - ComparisonService.clock_start w)) None))).
Proof.
  split.
  - intros st env Hguard.
    destruct (decide (JS.trim (ComparisonDashboard.prompt st) = "")) as [Ht|Ht].
    { unfold ComparisonDashboard.handleCompare. rewrite Ht. simpl. eauto. }
    destruct (decide (ComparisonDashboard.selectedModels st = [])) as [Hs|Hs].
    { unfold ComparisonDashboard.handleCompare.
      destruct (String.eqb_spec (JS.trim (ComparisonDashboard.prompt st)) ""); [done|].
      rewrite Hs. simpl. eauto. }
    destruct Hguard as [Hw|[?|Hen]]; [by apply trim_empty in Hw|done|].
    destruct (handleCompare_nothing_enabled st env Ht Hs Hen) as [later ->]. simpl. eauto.
  - intros gen configs prompt w Hn.
    assert (Hcollect : ComparisonService.collect_promises gen
              (ComparisonService.updateConfigs ComparisonService.instance configs) prompt w
            = ([], Resolved [])).
    { unfold ComparisonService.collect_promises.
      rewrite (nothing_enabled configs Hn). by destruct gen. }
    unfold ComparisonService.compareModels. rewrite Hcollect.
    unfold mbind, Async_bind, Async.bind, Async.await.
    pose proof (promise_all_fulfilled (A := ModelResponse)
                  (ComparisonService.settle_order w) []) as Hall.
    simpl in Hall. by rewrite Hall.
Qed.

(** C3 as stated fails: [compareModels] given a blank prompt calls the enabled
    service and fulfils with its response; given no enabled configuration it
    fulfils with an empty result. *)
Lemma compareModels_checks_no_input :
  let configs := mkConfigs [Sample.api "openai" "a"] [] [] [] [] [] in
  JS.trim "   " = "" ∧
  (∃ rq r, ComparisonService.compareModels None (Sample.service configs) "   "
             (Sample.world []) = ([rq], Resolved r) ∧
           url rq = "https://api.openai.com/v1/chat/completions" ∧
           resp_id <$> responses r = ["a"]) ∧
  enabled_count (mkConfigs [] [] [] [] [] []) = 0%nat ∧
  ∃ r, ComparisonService.compareModels None (Sample.service (mkConfigs [] [] [] [] [] []))
         "hello" (Sample.world []) = ([], Resolved r) ∧
       responses r = [] ∧ errors r = None.
Proof.
  split; [reflexivity|]. split.
  - eexists _, _. split; [vm_compute; reflexivity|]. split; reflexivity.
  - split; [reflexivity|]. eexists. split; [vm_compute; reflexivity|]. split; reflexivity.
Qed.

Lemma user_input_errors_come_from_the_page_witness :
  let st := page "   " ["o"] (mkConfigs [] [] [] [Sample.ollama "o" None None] [] []) in
  (JS.whitespace_only (ComparisonDashboard.prompt st) = true
   ∨ ComparisonDashboard.selectedModels st = []
   ∨ ComparisonDashboard.enabledModels st = []) ∧
  ComparisonDashboard.requests (ComparisonDashboard.handleCompare st click_offline) = [] ∧
  enabled_count (mkConfigs [] [] [] [] [] []) = 0%nat ∧
  Async.requests (ComparisonService.compareModels None
                    (ComparisonService.updateConfigs ComparisonService.instance
                       (mkConfigs [] [] [] [] [] [])) "hello" Sample.offline) = [].
Proof.
  intros st.
  assert (Hguard : JS.whitespace_only (ComparisonDashboard.prompt st) = true
                   ∨ ComparisonDashboard.selectedModels st = []
                   ∨ ComparisonDashboard.enabledModels st = [])
    by (left; reflexivity).
  assert (Hnone : enabled_count (mkConfigs [] [] [] [] [] []) = 0%nat) by reflexivity.
  destruct user_input_errors_come_from_the_page as [Hpage Hservice].
  split; [exact Hguard|]. split; [exact (proj1 (Hpage st click_offline Hguard))|].
  split; [exact Hnone|].
  rewrite (Hservice None (mkConfigs [] [] [] [] [] []) "hello" Sample.offline Hnone).
  reflexivity.
Defined.

Lemma filter_none {A} (P : A → Prop) `{∀ x, Decision (P x)} (l : list A) :
  Forall (λ x, ¬ P x) l → filter P l = [].
Proof.
  induction 1 as [|x l Hx _ IH]; [done|]. by rewrite filter_cons_False.
Qed.

Lemma resolved_inj {A} (l k : list A) :
  Resolved <$> l = (Resolved <$> k : list (Completion A)) → l = k.
Proof.
  revert k. induction l as [|x l IH]; intros [|y k] Heq; try done.
  injection Heq as -> Heq. f_equal. by apply IH.
Qed.

(** With every reply unusable, every promise collected is fulfilled with a
    failure record. *)
Lemma collect_promises_all_failed this prompt w :
  ComparisonService.ollama (ComparisonService.services this) = [] →
  (∀ i, ¬ openai_well_formed (ComparisonService.openai_env w i)) →
  (∀ i, ¬ anthropic_well_formed (ComparisonService.anthropic_env w i)) →
  (∀ i, ¬ gguf_well_formed (ComparisonService.gguf_env w i)) →
  ∃ rs, Async.outcome (ComparisonService.collect_promises None this prompt w)
        = Resolved (Resolved <$> rs) ∧ Forall failure_record rs.
Proof.
  intros Hnone Hopenai Hanthropic Hgguf.
  destruct (imap_fulfilled (λ (_ : APIEndpointConfig) r, failure_record r)
              (λ i service, OpenAIService.generateResponse service prompt
                              (ComparisonService.openai_env w i))
              (ComparisonService.openai (ComparisonService.services this)))
    as (ros & Hros & Hio).
  { intros i c _.
    destruct (OpenAI_generateResponse_settles c prompt (ComparisonService.openai_env w i))
      as (r & Hr & _ & [[message ->]|[_ Hwf]]); [|by destruct (Hopenai i)].
    exists (OpenAIService.failure c message). split; [done|]. by exists message. }
  destruct (imap_fulfilled (λ (_ : APIEndpointConfig) r, failure_record r)
              (λ i service, AnthropicService.generateResponse service prompt
                              (ComparisonService.anthropic_env w i))
              (ComparisonService.anthropic (ComparisonService.services this)))
    as (ras & Hras & Hia).
  { intros i c _.
    destruct (Anthropic_generateResponse_settles c prompt
                (ComparisonService.anthropic_env w i))
      as (r & Hr & _ & [[message ->]|[_ Hwf]]); [|by destruct (Hanthropic i)].
    exists (AnthropicService.failure c message). split; [done|]. by exists message. }
  destruct (imap_fulfilled (λ (_ : GGUFModelConfig) r, failure_record r)
              (λ i service, GGUFService.generateResponse service prompt
                              (ComparisonService.gguf_env w i))
              (ComparisonService.gguf (ComparisonService.services this)))
    as (rgs & Hrgs & Hig).
  { intros i c _.
    destruct (GGUF_generateResponse_settles c prompt (ComparisonService.gguf_env w i))
      as (r & Hr & _ & [[message ->]|[_ Hwf]]); [|by destruct (Hgguf i)].
    exists (GGUFService.failure c message). split; [done|]. by exists message. }
  exists (ros ++ ras ++ rgs). split.
  - unfold ComparisonService.collect_promises.
    rewrite (outcome_bind_resolved _ _ _ (launch_outcome _)).
    rewrite (outcome_bind_resolved _ _ _ (launch_outcome _)).
    rewrite Hnone. simpl. by rewrite Hros, Hras, Hrgs, !fmap_app.
  - rewrite !Forall_app. repeat split; eapply Forall2_Forall_r; eauto;
      by apply Forall_true.
Qed.




(** ** Tokens per second *)

Section Throughput.

Lemma qsign_positive q : (0 < q)%Q → JS.qsign q = Gt.
Proof. intros H. by apply Qgt_alt. Qed.

Lemma qsign_zero q : (q == 0)%Q → JS.qsign q = Eq.
Proof. intros H. by apply Qeq_alt. Qed.

(** [x / (y / k)] for a count [x], a positive duration [y] and a positive
    unit [k] *)
Lemma ratio_positive x y k :
  (0 <= x)%Q → (0 < y)%Q → (0 < k)%Q →
  ∃ q, JS.Fin x // (JS.Fin y // JS.Fin k) = JS.Fin q ∧ (0 <= q)%Q.
Proof.
  intros Hx Hy Hk. unfold JS.div. rewrite (qsign_positive k Hk).
  assert (Hpos : (0 < Qred (y / k))%Q).
  { rewrite Qred_correct. apply Qlt_shift_div_l; [done|]. by rewrite Qmult_0_l. }
  rewrite (qsign_positive _ Hpos). eexists. split; [reflexivity|].
  rewrite Qred_correct. apply Qle_shift_div_l; [done|]. by rewrite Qmult_0_l.
Qed.

(** The estimate is zero for the empty text and positive for every other. *)
Lemma estimateTokenCount_sign text :
  ∃ q, estimateTokenCount text = JS.Fin q
       ∧ (text = "" → (q == 0)%Q) ∧ (text ≠ "" → (0 < q)%Q).
Proof.
  unfold estimateTokenCount, JS.length, JS.of_nat.
  exists (inject_Z (Qceiling (Qred (inject_Z (Z.of_nat (String.length text)) / 4)))).
  split; [reflexivity|]. split.
  - intros ->. reflexivity.
  - intros Htext. eapply Qlt_le_trans; [|apply Qle_ceiling].
    rewrite Qred_correct. apply Qlt_shift_div_l; [done|].
    rewrite Qmult_0_l. unfold Qlt. simpl.
    destruct text; [done|]. simpl. lia.
Qed.

(** The quotient [tokens / (responseTime / 1000)] of the adapters, for a
    count [q] and the time elapsed between two readings of the clock. *)
Lemma quotient_cases q t0 t1 :
  let x := JS.Fin q // (JS.of_Z (t1 - t0) // JS.of_Z 1000) in
  (t0 = t1 → ((0 < q)%Q → x = JS.PInf) ∧ ((q == 0)%Q → x = JS.NaN))
  ∧ ((t0 < t1)%Z → (0 <= q)%Q → JS.is_nonneg x).
Proof.
  intros x. subst x. split.
  - intros ->. rewrite Z.sub_diag. unfold JS.div, JS.of_Z.
    rewrite (qsign_positive (inject_Z 1000)) by done.
    assert (Hzero : (Qred (inject_Z 0 / inject_Z 1000) == 0)%Q) by reflexivity.
    rewrite (qsign_zero _ Hzero).
    split; intros Hq; [by rewrite (qsign_positive q Hq)|by rewrite (qsign_zero q Hq)].
  - intros Hlt Hq.
    destruct (ratio_positive q (inject_Z (t1 - t0)) (inject_Z 1000) Hq) as (q' & Hq' & ?);
      [unfold Qlt; simpl; lia|done|].
    unfold JS.of_Z. by rewrite Hq'.
Qed.


End Throughput.



(** ** The Ollama metrics *)

Section Ollama.
Import OllamaService.

(** X2. The fallback: a field that is absent, or zero, sends
    [calculateMetrics] to the estimate over the wall-clock time. *)
Lemma calculateMetrics_fallback config stats responseTime text :
  JS.truthy_opt (eval_count stats) = false ∨ JS.truthy_opt (eval_duration stats) = false →
  tokensPerSecond (calculateMetrics config stats responseTime text)
  = estimateTokenCount text // (responseTime // JS.of_Z 1000).
Proof.
  intros H. unfold calculateMetrics. simpl.
  destruct H as [-> | ->]; [done|]. by rewrite andb_false_r.
Qed.

(** X3. [generateCompletion] converts nanoseconds to seconds with [1e9], over
    the total count and the total duration. *)
Lemma generateCompletion_throughput config prompt d :
  ∃ m, Async.outcome (generateCompletion config prompt (Resolved (HttpSuccess (Resolved d))))
       = Resolved m ∧
       cm_tokensPerSecond m
       = JS.add (JS.to_num (prompt_eval_count d)) (JS.to_num (eval_count d))
         // (JS.add (JS.to_num (prompt_eval_duration d)) (JS.to_num (eval_duration d))
             // JS.Fin 1e9).
Proof. eexists. split; reflexivity. Qed.

Lemma add_NaN a b : a = JS.NaN ∨ b = JS.NaN → JS.add a b = JS.NaN.
Proof. intros [-> | ->]; [done|]. by destruct a. Qed.

Lemma div_NaN a b : a = JS.NaN ∨ b = JS.NaN → a // b = JS.NaN.
Proof. intros [-> | ->]; [done|]. by destruct a. Qed.




End Ollama.

(** ** Defaults of the generation parameters *)

Lemma or_num_falsy o d : JS.truthy_opt o = false → JS.or_num o d = d.
Proof. unfold JS.or_num. destruct o as [n|]; simpl; [|done]. by intros ->. Qed.




(** ** [OpenAIService.listModels] *)

Lemma selectModels_outcome entries :
  Async.outcome (OpenAIService.selectModels entries) =
  match live_listing entries with
  | Some kept => Resolved kept
  | None => Rejected (TypeError_undefined "startsWith")
  end.
Proof.
  induction entries as [|[[i|]] rest IH]; simpl; [done| |done].
  unfold mbind, Async_bind, Async.bind. simpl.
  destruct (OpenAIService.selectModels rest) as [log [kept|m]]; simpl in *.
  - destruct (live_listing rest); [|done]. by injection IH as <-.
  - by destruct (live_listing rest).
Qed.

(** C10. [listModels] always fulfils. It fulfils with the names kept of the
    listing when the response is a success whose body parses, holds [data] and
    gives every entry an id, and with the three keys of the capability table
    in every other case; a live listing of those three names is the same
    value, log included, as the fallback. *)
Theorem listModels_never_rejects config answer :
  Async.outcome (OpenAIService.listModels config answer) =
    Resolved
      match answer with
      | Resolved (HttpSuccess (Resolved d)) =>
          match OpenAIService.data d with
          | Some entries => default fallback_models (live_listing entries)
          | None => fallback_models
          end
      | _ => fallback_models
      end
  ∧ fallback_models = OpenAIService.modelCapabilities.*1
  ∧ OpenAIService.listModels config
      (Resolved (HttpSuccess (Resolved (OpenAIService.mkModels (Some
         [OpenAIService.mkEntry (Some "gpt-4");
          OpenAIService.mkEntry (Some "text-embedding-3-small");
          OpenAIService.mkEntry (Some "gpt-4-turbo-preview");
          OpenAIService.mkEntry (Some "gpt-3.5-turbo-instruct");
          OpenAIService.mkEntry (Some "gpt-3.5-turbo")])))))
    = OpenAIService.listModels config (Rejected "Failed to fetch").
Proof.
  split; [|split; reflexivity].
  unfold OpenAIService.listModels. rewrite outcome_try_catch.
  destruct answer as [[st body|[[[entries|]]|m]]|m]; simpl; try done.
  unfold mbind, Async_bind, Async.bind. simpl.
  pose proof (selectModels_outcome entries) as Hsel.
  destruct (OpenAIService.selectModels entries) as [log [kept|m]]; simpl in *.
  - destruct (live_listing entries); [|done]. by injection Hsel as <-.
  - by destruct (live_listing entries).
Qed.

(** ** Which adapters reject *)



(** X1. [OllamaService] as it stands declares no [generateResponse]: as soon
    as an Ollama configuration is enabled, [compareModels] throws before it
    awaits anything, whatever the other services answer. *)
Lemma compareModels_rejects_without_the_member this prompt w :
  ComparisonService.ollama (ComparisonService.services this) ≠ [] →
  Async.outcome (ComparisonService.compareModels None this prompt w)
  = Rejected "service.generateResponse is not a function".
Proof.
  intros Hne. unfold ComparisonService.compareModels.
  apply outcome_bind_rejected. unfold ComparisonService.collect_promises.
  rewrite (outcome_bind_resolved _ _ _ (launch_outcome _)).
  rewrite (outcome_bind_resolved _ _ _ (launch_outcome _)).
  apply outcome_bind_rejected.
  by destruct (ComparisonService.ollama (ComparisonService.services this)).
Qed.

Lemma compareModels_rejects_without_the_member_witness :
  let svc := Sample.service (mkConfigs [Sample.api "openai" "a"] [] []
                               [Sample.ollama "o" None None] [] []) in
  ComparisonService.ollama (ComparisonService.services svc) ≠ [] ∧
  Async.outcome (ComparisonService.compareModels None svc "hello" (Sample.world []))
  = Rejected "service.generateResponse is not a function".
Proof.
  intros svc.
  assert (Hne : ComparisonService.ollama (ComparisonService.services svc) ≠ [])
    by discriminate.
  split; [exact Hne|].
  exact (compareModels_rejects_without_the_member svc "hello" (Sample.world []) Hne).
Defined.

(** ** [validateConnections] *)

Section Validate.
Import ComparisonService.

Lemma append_inj (p a b : string) : p +:+ a = p +:+ b → a = b.
Proof.
  induction p as [|c p IH]; [done|].
  intros H. apply IH. unfold String.append in H. fold String.append in H.
  by injection H.
Qed.

Section Loop.
Context {Svc : Type} (prefix : string) (ident : Svc → string)
  (probe : nat → Svc → Async bool).

Lemma probe_all_outcome i svcs results :
  Async.outcome (probe_all prefix ident probe i svcs results)
  = Resolved (probed prefix ident probe i svcs results).
Proof.
  revert i results. induction svcs as [|s rest IH]; intros i results; [done|].
  simpl. rewrite (outcome_bind_resolved _ _ (verdict (probe i s))); [apply IH|].
  rewrite outcome_try_catch. unfold verdict. by destruct (Async.outcome (probe i s)).
Qed.

Lemma probed_other i svcs results key :
  key ∉ (λ s, prefix +:+ ident s) <$> svcs →
  probed prefix ident probe i svcs results !! key = results !! key.
Proof.
  revert i results. induction svcs as [|s rest IH]; intros i results Hkey; [done|].
  rewrite fmap_cons in Hkey. apply not_elem_of_cons in Hkey as [Hne Hrest].
  simpl. rewrite IH; [|done]. by rewrite lookup_insert_ne.
Qed.

Lemma probed_key i svcs results j s :
  NoDup (ident <$> svcs) → svcs !! j = Some s →
  probed prefix ident probe i svcs results !! (prefix +:+ ident s)
  = Some (verdict (probe (i + j)%nat s)).
Proof.
  revert i j results. induction svcs as [|s0 rest IH]; intros i j results Hnd Hs; [done|].
  rewrite fmap_cons in Hnd. apply NoDup_cons in Hnd as [Hfresh Hnd].
  destruct j as [|j]; simpl in *.
  - injection Hs as ->. rewrite probed_other.
    + rewrite Nat.add_0_r. apply lookup_insert_eq.
    + intros (s' & Heq & Hin)%list_elem_of_fmap. apply append_inj in Heq.
      apply Hfresh. rewrite Heq. apply list_elem_of_fmap. eauto.
  - rewrite (IH (S i) j); [|done|done]. do 3 f_equal. lia.
Qed.

Lemma probed_is_Some i svcs results key :
  is_Some (probed prefix ident probe i svcs results !! key)
  ↔ is_Some (results !! key) ∨ key ∈ (λ s, prefix +:+ ident s) <$> svcs.
Proof.
  revert i results. induction svcs as [|s rest IH]; intros i results.
  - simpl. rewrite elem_of_nil. tauto.
  - cbn [probed]. rewrite IH, fmap_cons, elem_of_cons, lookup_insert_is_Some.
    destruct (decide (prefix +:+ ident s = key)); intuition (subst; auto).
Qed.

End Loop.

Lemma validateConnections_outcome this w :
  Async.outcome (validateConnections this w) =
  Resolved
    (probed "gguf-" (λ s : GGUFModelConfig, id s) (probe_gguf w) 0 (gguf (services this))
       (probed "ollama-" (λ s : OllamaEndpointConfig, id s) (probe_ollama w) 0
          (ollama (services this))
          (probed "anthropic-" (λ s : APIEndpointConfig, id s) (probe_anthropic w) 0
             (anthropic (services this))
             (probed "openai-" (λ s : APIEndpointConfig, id s) (probe_openai w) 0
                (openai (services this)) ∅)))).
Proof.
  unfold validateConnections.
  rewrite (outcome_bind_resolved _ _ _ (probe_all_outcome _ _ _ _ _ _)).
  rewrite (outcome_bind_resolved _ _ _ (probe_all_outcome _ _ _ _ _ _)).
  rewrite (outcome_bind_resolved _ _ _ (probe_all_outcome _ _ _ _ _ _)).
  by rewrite (outcome_bind_resolved _ _ _ (probe_all_outcome _ _ _ _ _ _)).
Qed.

(** Keys of different kinds never meet. *)
Lemma kinds_apart {Svc} (p q : string) (ident : Svc → string) (svcs : list Svc) a :
  (∀ x y, p +:+ x ≠ q +:+ y) →
  p +:+ a ∉ (λ s, q +:+ ident s) <$> svcs.
Proof. intros Hpq (s & Heq & _)%list_elem_of_fmap. by apply Hpq in Heq. Qed.

Lemma verdict_openai w i s :
  verdict (probe_openai w i s) = true ↔
  ∃ r, Async.outcome (OpenAIService.generateResponse s "test" (openai_env w i)) = Resolved r
       ∧ JS.truthy_str (error r) = false.
Proof.
  unfold verdict, probe_openai.
  destruct (OpenAI_generateResponse_settles s "test" (openai_env w i)) as (r & Hr & _).
  rewrite (outcome_bind_resolved _ _ _ Hr). simpl. rewrite negb_true_iff.
  split; [eauto|]. intros (r' & Hr' & ?). congruence.
Qed.

Lemma verdict_anthropic w i s :
  verdict (probe_anthropic w i s) = true ↔
  ∃ r, Async.outcome (AnthropicService.generateResponse s "test" (anthropic_env w i))
       = Resolved r ∧ JS.truthy_str (error r) = false.
Proof.
  unfold verdict, probe_anthropic.
  destruct (Anthropic_generateResponse_settles s "test" (anthropic_env w i)) as (r & Hr & _).
  rewrite (outcome_bind_resolved _ _ _ Hr). simpl. rewrite negb_true_iff.
  split; [eauto|]. intros (r' & Hr' & ?). congruence.
Qed.

Lemma verdict_ollama w i s :
  verdict (probe_ollama w i s) = true ↔
  ∃ d m ms, ollama_tags w i = Resolved (HttpSuccess (Resolved d)) ∧
            OllamaService.models d = Some (m :: ms).
Proof.
  unfold verdict, probe_ollama, OllamaService.listModels.
  destruct (ollama_tags w i) as [[st body|[[[[|m ms]|]]|e]]|e]; simpl;
    (split; [try done|intros (? & ? & ? & ? & ?); simplify_eq/=]); eauto.
Qed.

Lemma verdict_gguf w i s :
  verdict (probe_gguf w i s) = true ↔ ∃ body, gguf_health w i = Resolved (HttpSuccess body).
Proof.
  unfold verdict, probe_gguf, GGUFService.isServerRunning.
  destruct (gguf_health w i) as [[st body|body]|e]; simpl;
    (split; [try done|intros (? & ?); simplify_eq/=]); eauto.
Qed.

(** C8, as the code has it. [validateConnections] always fulfils. The keys of
    its mapping are exactly the strings [<kind>-<id>] of the enabled OpenAI,
    Anthropic, Ollama and GGUF configurations. Where the ids of a kind are
    distinct, the value at the key of a configuration is the verdict of its
    probe: [true] iff [generateResponse("test")] came back without an error
    (OpenAI, Anthropic), iff the listing of models is not empty (Ollama), iff
    the health request got a success status (GGUF); a probe that fails or
    rejects gives [false]. *)
Ltac other_kinds :=
  rewrite !probed_other
    by (apply kinds_apart; let H := fresh in intros ? ? H; compute in H; discriminate H).

Theorem validateConnections_keys_and_verdicts this w :
  ∃ results,
    Async.outcome (validateConnections this w) = Resolved results ∧
    (∀ key, is_Some (results !! key) ↔ key ∈ connection_keys this) ∧
    (NoDup ((λ s : APIEndpointConfig, id s) <$> openai (services this)) →
     ∀ i (s : APIEndpointConfig), openai (services this) !! i = Some s →
            results !! ("openai-" +:+ id s) = Some (verdict (probe_openai w i s))) ∧
    (NoDup ((λ s : APIEndpointConfig, id s) <$> anthropic (services this)) →
     ∀ i (s : APIEndpointConfig), anthropic (services this) !! i = Some s →
            results !! ("anthropic-" +:+ id s) = Some (verdict (probe_anthropic w i s))) ∧
    (NoDup ((λ s : OllamaEndpointConfig, id s) <$> ollama (services this)) →
     ∀ i (s : OllamaEndpointConfig), ollama (services this) !! i = Some s →
            results !! ("ollama-" +:+ id s) = Some (verdict (probe_ollama w i s))) ∧
    (NoDup ((λ s : GGUFModelConfig, id s) <$> gguf (services this)) →
     ∀ i (s : GGUFModelConfig), gguf (services this) !! i = Some s →
            results !! ("gguf-" +:+ id s) = Some (verdict (probe_gguf w i s))) ∧
    (∀ i s, verdict (probe_openai w i s) = true ↔
       ∃ r, Async.outcome (OpenAIService.generateResponse s "test" (openai_env w i))
            = Resolved r ∧ JS.truthy_str (error r) = false) ∧
    (∀ i s, verdict (probe_anthropic w i s) = true ↔
       ∃ r, Async.outcome (AnthropicService.generateResponse s "test" (anthropic_env w i))
            = Resolved r ∧ JS.truthy_str (error r) = false) ∧
    (∀ i s, verdict (probe_ollama w i s) = true ↔
       ∃ d m ms, ollama_tags w i = Resolved (HttpSuccess (Resolved d)) ∧
                 OllamaService.models d = Some (m :: ms)) ∧
    (∀ i s, verdict (probe_gguf w i s) = true ↔
       ∃ body, gguf_health w i = Resolved (HttpSuccess body)).
Proof.
  eexists. split; [apply validateConnections_outcome|].
  split; [|split; [|split; [|split; [|split; [|split; [|split; [|split]]]]]]];
    [| | | | |apply verdict_openai|apply verdict_anthropic|apply verdict_ollama
     |apply verdict_gguf].
  - intros key. rewrite !probed_is_Some, lookup_empty. unfold connection_keys.
    rewrite !elem_of_app. rewrite is_Some_alt. tauto.
  - intros Hnd i s Hs.
    other_kinds.
    by rewrite (probed_key _ _ _ 0 _ _ i s Hnd Hs).
  - intros Hnd i s Hs.
    other_kinds.
    by rewrite (probed_key _ _ _ 0 _ _ i s Hnd Hs).
  - intros Hnd i s Hs.
    other_kinds.
    by rewrite (probed_key _ _ _ 0 _ _ i s Hnd Hs).
  - intros Hnd i s Hs.
    by rewrite (probed_key _ _ _ 0 _ _ i s Hnd Hs).
Qed.
End Validate.

(** C8 as stated fails: the key of the enabled OpenAI configuration [a] is
    [openai-a], not its id, and the enabled Google configuration [g] has no
    key. *)
Lemma validateConnections_prefixes_the_keys :
  let configs :=
    mkConfigs [Sample.api "openai" "a"] [] [Sample.api "google" "g"] [] [] [] in
  ∃ results,
    Async.outcome (ComparisonService.validateConnections (Sample.service configs)
                     (Sample.world [])) = Resolved results ∧
    results !! "a" = None ∧ results !! "openai-a" = Some true ∧
    results !! "g" = None ∧ results !! "google-g" = None.
Proof. eexists. split; [reflexivity|]. repeat split; vm_compute; reflexivity. Qed.

Lemma validateConnections_keys_and_verdicts_witness :
  let svc :=
    Sample.service (mkConfigs [Sample.api "openai" "a"] [Sample.api "anthropic" "c"] []
                      [Sample.ollama "o" None None] [] [Sample.local "q" 8080]) in
  NoDup ((λ s : APIEndpointConfig, id s)
           <$> ComparisonService.openai (ComparisonService.services svc)) ∧
  NoDup ((λ s : GGUFModelConfig, id s)
           <$> ComparisonService.gguf (ComparisonService.services svc)) ∧
  ∃ results,
    Async.outcome (ComparisonService.validateConnections svc (Sample.world []))
    = Resolved results ∧
    results !! "openai-a" = Some true ∧ results !! "gguf-q" = Some true.
Proof.
  intros svc.
  assert (Ho : NoDup ((λ s : APIEndpointConfig, id s)
                        <$> ComparisonService.openai (ComparisonService.services svc)))
    by (apply NoDup_singleton).
  assert (Hg : NoDup ((λ s : GGUFModelConfig, id s)
                        <$> ComparisonService.gguf (ComparisonService.services svc)))
    by (apply NoDup_singleton).
  split; [exact Ho|]. split; [exact Hg|].
  destruct (validateConnections_keys_and_verdicts svc (Sample.world []))
    as (results & Hr & _ & Hopenai & _ & _ & Hgguf & _).
  exists results. split; [exact Hr|]. split.
  - exact (Hopenai Ho 0%nat (Sample.api "openai" "a") eq_refl).
  - exact (Hgguf Hg 0%nat (Sample.local "q" 8080) eq_refl).
Defined.

(** ** Further facts *)

(** X4. [Math.ceil(text.length / 4)] is the integer [(length + 3) / 4]. *)
Lemma estimateTokenCount_formula text :
  estimateTokenCount text = JS.of_Z ((Z.of_nat (String.length text) + 3) / 4).
Proof.
  unfold estimateTokenCount, JS.length, JS.of_nat, JS.ceil, JS.of_Z.
  change (JS.Fin (inject_Z (Z.of_nat (String.length text))) // JS.Fin (inject_Z 4))
    with (JS.Fin (Qred (inject_Z (Z.of_nat (String.length text)) / 4))).
  cbv beta iota. f_equal. f_equal.
  rewrite (Qceiling_comp _ _ (Qred_correct _)).
  generalize (Z.of_nat (String.length text)). intros n.
  unfold Qceiling, Qfloor, Qdiv, Qmult, Qinv, Qopp, inject_Z. simpl.
  rewrite Z.mul_1_r. change (Z.pos (1 * 4)) with 4%Z.
  pose proof (Z.div_mod (- n) 4). pose proof (Z.mod_pos_bound (-n) 4).
  pose proof (Z.div_mod (n+3) 4). pose proof (Z.mod_pos_bound (n+3) 4). lia.
Qed.

Lemma calculateMetrics_fallback_witness :
  let stats :=
    OllamaService.mkStats (Some (JS.Fin 2.5e9)) None None None (Some (JS.of_Z 26)) None
      (Some (JS.of_Z 0)) (Some (JS.Fin 2e9)) in
  (JS.truthy_opt (OllamaService.eval_count stats) = false
   ∨ JS.truthy_opt (OllamaService.eval_duration stats) = false) ∧
  tokensPerSecond (OllamaService.calculateMetrics (Sample.ollama "o" None None) stats
                     (JS.of_Z 500) "abcdefgh")
  = JS.of_Z 4.
Proof.
  intros stats.
  assert (Hfalsy : JS.truthy_opt (OllamaService.eval_count stats) = false
                   ∨ JS.truthy_opt (OllamaService.eval_duration stats) = false)
    by (left; reflexivity).
  split; [exact Hfalsy|].
  rewrite (calculateMetrics_fallback (Sample.ollama "o" None None) stats (JS.of_Z 500)
             "abcdefgh" Hfalsy).
  reflexivity.
Defined.

(** X5. Past its two guards (a prompt that is not blank, a model selected),
    for a selection without repetition of identifiers that are not names of
    members of [Object.prototype], and configurations as typed:
    [handleCompare] ends with [isProcessing] false and [startTime] the time
    of the click, and leaves the prompt, the selection and the
    configurations alone. It shows one toast per rejected completion, named
    after the connection and carrying the cause, in the order the calls
    settle, followed by "No successful model responses" exactly when no
    selected model yields a point. The history of a selected model that
    yields a point becomes its last nine earlier points (all of them when
    there are fewer) followed by the new point; every other history, selected
    or not, is as before. *)
Theorem handleCompare_past_its_guards st env :
  let selected := ComparisonDashboard.selectedModels st in
  JS.trim (ComparisonDashboard.prompt st) ≠ "" →
  selected ≠ [] →
  NoDup selected →
  Forall (λ wanted, JS.inherited wanted = false) selected →
  typed (ComparisonDashboard.configs st) →
  let done := ComparisonDashboard.handleCompare st env in
  let after := ComparisonDashboard.state done in
  (ComparisonDashboard.prompt after = ComparisonDashboard.prompt st
   ∧ ComparisonDashboard.selectedModels after = selected
   ∧ ComparisonDashboard.configs after = ComparisonDashboard.configs st
   ∧ ComparisonDashboard.isProcessing after = false
   ∧ ComparisonDashboard.startTime after = Some (ComparisonDashboard.now env))
  ∧ ComparisonDashboard.toasts done
    = (schedule (length selected) (ComparisonDashboard.settle_order env)
         ≫= (λ i, default [] (error_of st env i <$> selected !! i)))
      ++ match omap (λ point, point) (imap (point_of st env) selected) with
         | [] => [ComparisonDashboard.destructive "Error" "No successful model responses"]
         | _ :: _ => []
         end
  ∧ (∀ i wanted,
       selected !! i = Some wanted →
       let earlier := default [] (ComparisonDashboard.performance st !! wanted) in
       ComparisonDashboard.performance after !! wanted
       = match point_of st env i wanted with
         | Some point => Some (drop (length earlier - 9) earlier ++ [point])
         | None => ComparisonDashboard.performance st !! wanted
         end
       ∧ (length (drop (length earlier - 9) earlier) = min 9 (length earlier))%nat
       ∧ drop (length earlier - 9) earlier `suffix_of` earlier)
  ∧ (∀ model,
       model ∉ selected →
       ComparisonDashboard.performance after !! model
       = ComparisonDashboard.performance st !! model).
Proof.
  intros selected Hprompt Hsel Hdistinct _ _ done after. subst done after.
  rewrite (handleCompare_unguarded st env Hprompt Hsel), toasts_in_settle_order.
  replace (imap (row_of st env) (ComparisonDashboard.selectedModels st))
    with (imap (point_of st env) selected)
    by (apply imap_ext; intros i wanted _; symmetry; apply row_of_point).
  fold selected.
  destruct (omap (λ point, point) (imap (point_of st env) selected))
    as [|point points] eqn:Hpoints; simpl.
  - split; [done|]. split; [done|]. split; [|done].
    intros i wanted Hi. split; [|apply last_nine].
    pose proof (record_results_lookup selected (point_of st env)
                  (ComparisonDashboard.performance st) i wanted
                  (point_of_id st env) Hdistinct Hi) as Hlookup.
    rewrite Hpoints in Hlookup. simpl in Hlookup.
    destruct (point_of st env i wanted); [|done].
    by rewrite <- Hlookup.
  - split; [done|]. split; [by rewrite app_nil_r|]. split.
    + intros i wanted Hi. split; [|apply last_nine].
      rewrite <- record_results_cons, <- Hpoints.
      apply (record_results_lookup selected (point_of st env) _ i wanted
               (point_of_id st env) Hdistinct Hi).
    + intros model Hnot. rewrite <- record_results_cons, <- Hpoints.
      apply (record_results_frame selected (point_of st env) _ model
               (point_of_id st env) Hnot).
Qed.

Lemma handleCompare_past_its_guards_witness :
  let st := page "hello" ["o"] (mkConfigs [] [] [] [Sample.ollama "o" None None] [] []) in
  JS.trim (ComparisonDashboard.prompt st) ≠ "" ∧
  ComparisonDashboard.selectedModels st ≠ [] ∧
  NoDup (ComparisonDashboard.selectedModels st) ∧
  Forall (λ wanted, JS.inherited wanted = false) (ComparisonDashboard.selectedModels st) ∧
  typed (ComparisonDashboard.configs st) ∧
  ComparisonDashboard.toasts (ComparisonDashboard.handleCompare st click_answered) = [] ∧
  (∃ row,
     ComparisonDashboard.performance
       (ComparisonDashboard.state (ComparisonDashboard.handleCompare st click_answered))
     !! "o" = Some [row] ∧
     ComparisonDashboard.row_tokensPerSecond row = JS.of_Z 18) ∧
  ComparisonDashboard.toasts (ComparisonDashboard.handleCompare st click_offline)
  = [ComparisonDashboard.destructive "Error with o" "Failed to fetch";
     ComparisonDashboard.destructive "Error" "No successful model responses"].
Proof.
  intros st.
  assert (Hprompt : JS.trim (ComparisonDashboard.prompt st) ≠ "") by discriminate.
  assert (Hsel : ComparisonDashboard.selectedModels st ≠ []) by discriminate.
  assert (Hdistinct : NoDup (ComparisonDashboard.selectedModels st)).
  { apply (bool_decide_unpack _). vm_compute. exact I. }
  assert (Hnames : Forall (λ wanted, JS.inherited wanted = false)
                     (ComparisonDashboard.selectedModels st)).
  { apply Forall_cons. split; [reflexivity|apply Forall_nil_2]. }
  assert (Htyped : typed (ComparisonDashboard.configs st)) by apply Forall_nil_2.
  do 5 (split; [assumption|]).
  destruct (handleCompare_past_its_guards st click_answered
              Hprompt Hsel Hdistinct Hnames Htyped) as (_ & Htoasts & Hhistory & _).
  destruct (handleCompare_past_its_guards st click_offline
              Hprompt Hsel Hdistinct Hnames Htyped) as (_ & Hoffline & _).
  split; [rewrite Htoasts; reflexivity|].
  split; [|rewrite Hoffline; reflexivity].
  destruct (Hhistory 0%nat "o" eq_refl) as [-> _].
  eexists. split; [vm_compute; reflexivity|reflexivity].
Defined.

(** ** The settings page *)

Section SettingsFacts.
Import Settings.

Lemma with_openai_same configs : with_openai configs (cfg_openai configs) = configs.
Proof. by destruct configs. Qed.

(** Replacing by identifier over a list in which the identifier is unknown *)
Lemma fmap_unknown {C} (ident : C → string) (wanted : string) (g : C → C) (l : list C) :
  (∀ c, c ∈ l → ident c ≠ wanted) →
  (λ c, if String.eqb (ident c) wanted then g c else c) <$> l = l.
Proof.
  intros Hl. induction l as [|c l IH]; [done|].
  rewrite fmap_cons. f_equal.
  - destruct (String.eqb_spec (ident c) wanted) as [He|_]; [|done].
    by destruct (Hl c (list_elem_of_here _ _)).
  - apply IH. intros c' Hc'. apply Hl. by apply list_elem_of_further.
Qed.

Lemma filter_unknown {C} (ident : C → string) (wanted : string) (l : list C) :
  (∀ c, c ∈ l → ident c ≠ wanted) → filter (λ c, ident c ≠ wanted) l = l.
Proof. intros Hl. apply filter_all. by apply Forall_forall. Qed.

(** Replacing by identifier keeps the identifiers when the replacement does. *)
Lemma fmap_ids {C} (ident : C → string) (wanted : string) (g : C → C) (l : list C) :
  (∀ c, ident c = wanted → ident (g c) = ident c) →
  ident <$> ((λ c, if String.eqb (ident c) wanted then g c else c) <$> l) = ident <$> l.
Proof.
  intros Hg. rewrite <- list_fmap_compose. apply list_fmap_ext. intros i c _. simpl.
  destruct (String.eqb_spec (ident c) wanted) as [He|_]; [by apply Hg|done].
Qed.

Lemma filter_ids_NoDup {C} (ident : C → string) (P : C → Prop) `{∀ c, Decision (P c)}
    (l : list C) :
  NoDup (ident <$> l) → NoDup (ident <$> filter P l).
Proof.
  induction l as [|c l IH]; [done|].
  rewrite fmap_cons, NoDup_cons. intros [Hc Hl].
  destruct (decide (P c)) as [Hp|Hp].
  - rewrite filter_cons_True, fmap_cons by done. apply NoDup_cons. split; [|by apply IH].
    intros Hin. apply Hc. apply list_elem_of_fmap in Hin as (c' & -> & Hc').
    apply list_elem_of_fmap. exists c'. split; [done|].
    by apply list_elem_of_filter in Hc' as [_ ?].
  - rewrite filter_cons_False by done. by apply IH.
Qed.

End SettingsFacts.

Section SettingsHandlers.
Import Settings.

Lemma filter_enabled_off_api (ident : string) (l : list APIEndpointConfig) :
  filter (λ c : APIEndpointConfig, enabled c = true)
    ((λ c : APIEndpointConfig,
        if String.eqb (id c) ident then api_set_enabled c false else c) <$> l)
  = filter (λ c : APIEndpointConfig, id c ≠ ident)
      (filter (λ c : APIEndpointConfig, enabled c = true) l).
Proof.
  induction l as [|c l IH]; [done|].
  rewrite fmap_cons.
  destruct (String.eqb_spec (id c) ident) as [He|Hne].
  - rewrite filter_cons_False by (simpl; discriminate).
    rewrite IH. destruct (decide (enabled c = true)) as [Hen|Hen].
    + rewrite (filter_cons_True _ c l) by done. by rewrite filter_cons_False by tauto.
    + by rewrite (filter_cons_False _ c l) by done.
  - destruct (decide (enabled c = true)) as [Hen|Hen].
    + rewrite !(filter_cons_True _ c) by done. by rewrite IH.
    + rewrite !(filter_cons_False _ c) by done. by rewrite IH.
Qed.

Lemma filter_enabled_off_ollama (ident : string) (l : list OllamaEndpointConfig) :
  filter (λ c : OllamaEndpointConfig, enabled c = true)
    ((λ c : OllamaEndpointConfig,
        if String.eqb (id c) ident then ollama_set_enabled c false else c) <$> l)
  = filter (λ c : OllamaEndpointConfig, id c ≠ ident)
      (filter (λ c : OllamaEndpointConfig, enabled c = true) l).
Proof.
  induction l as [|c l IH]; [done|].
  rewrite fmap_cons.
  destruct (String.eqb_spec (id c) ident) as [He|Hne].
  - rewrite filter_cons_False by (simpl; discriminate).
    rewrite IH. destruct (decide (enabled c = true)) as [Hen|Hen].
    + rewrite (filter_cons_True _ c l) by done. by rewrite filter_cons_False by tauto.
    + by rewrite (filter_cons_False _ c l) by done.
  - destruct (decide (enabled c = true)) as [Hen|Hen].
    + rewrite !(filter_cons_True _ c) by done. by rewrite IH.
    + rewrite !(filter_cons_False _ c) by done. by rewrite IH.
Qed.

End SettingsHandlers.

(** X6. Switching a connection off on the settings page removes exactly the
    connections with that identifier from what the saved configuration
    offers: the services [ComparisonService.updateConfigs] builds from it and
    the models the dashboard lists are those of before without them, in the
    same order, and the other kinds are untouched. *)
Theorem switching_off_removes_the_service this configs ident prompt selected :
  let off_openai := (Settings.handleToggleOpenAI configs ident false).1 in
  let off_ollama := (Settings.handleToggleOllama configs ident false).1 in
  let before := ComparisonService.services (ComparisonService.updateConfigs this configs) in
  ComparisonService.services (ComparisonService.updateConfigs this off_openai)
  = ComparisonService.mkServices
      (filter (λ c : APIEndpointConfig, id c ≠ ident) (ComparisonService.openai before))
      (ComparisonService.anthropic before) (ComparisonService.ollama before)
      (ComparisonService.gguf before)
  ∧ ComparisonService.services (ComparisonService.updateConfigs this off_ollama)
  = ComparisonService.mkServices
      (ComparisonService.openai before) (ComparisonService.anthropic before)
      (filter (λ c : OllamaEndpointConfig, id c ≠ ident) (ComparisonService.ollama before))
      (ComparisonService.gguf before)
  ∧ ComparisonDashboard.enabledModels (page prompt selected off_openai)
  = (ComparisonDashboard.APIModel <$>
       filter (λ c : APIEndpointConfig, id c ≠ ident) (ComparisonService.openai before))
    ++ (ComparisonDashboard.OllamaModel <$> ComparisonService.ollama before)
  ∧ ComparisonDashboard.enabledModels (page prompt selected off_ollama)
  = (ComparisonDashboard.APIModel <$> ComparisonService.openai before)
    ++ (ComparisonDashboard.OllamaModel <$>
          filter (λ c : OllamaEndpointConfig, id c ≠ ident) (ComparisonService.ollama before)).
Proof.
  intros off_openai off_ollama before. subst off_openai off_ollama before.
  unfold ComparisonDashboard.enabledModels. simpl.
  rewrite filter_enabled_off_api, filter_enabled_off_ollama. done.
Qed.

(** X7. A connection added under an identifier that no connection of its kind
    has, then deleted, leaves the saved configuration as it was before. *)
Theorem add_then_delete_restores configs (openai : APIEndpointConfig)
    (ollama : OllamaEndpointConfig) :
  (∀ c : APIEndpointConfig, c ∈ cfg_openai configs → id c ≠ id openai) →
  (∀ c : OllamaEndpointConfig, c ∈ cfg_ollama configs → id c ≠ id ollama) →
  (Settings.handleDeleteOpenAI (Settings.handleAddOpenAI configs openai).1 (id openai)).1
  = configs
  ∧ (Settings.handleDeleteOllama (Settings.handleAddOllama configs ollama).1 (id ollama)).1
  = configs.
Proof.
  intros Hopenai Hollama. split; simpl.
  - rewrite filter_app, (filter_unknown (λ c : APIEndpointConfig, id c)) by done.
    rewrite filter_cons_False, filter_nil, app_nil_r by tauto.
    by destruct configs.
  - rewrite filter_app, (filter_unknown (λ c : OllamaEndpointConfig, id c)) by done.
    rewrite filter_cons_False, filter_nil, app_nil_r by tauto.
    by destruct configs.
Qed.

Lemma add_then_delete_restores_witness :
  let configs := mkConfigs [Sample.api "openai" "a"] [] [] [Sample.ollama "o" None None] [] [] in
  (∀ c : APIEndpointConfig, c ∈ cfg_openai configs → id c ≠ "b") ∧
  (∀ c : OllamaEndpointConfig, c ∈ cfg_ollama configs → id c ≠ "p") ∧
  (Settings.handleDeleteOpenAI
     (Settings.handleAddOpenAI configs (Sample.api "openai" "b")).1 "b").1 = configs ∧
  (Settings.handleDeleteOllama
     (Settings.handleAddOllama configs (Sample.ollama "p" None None)).1 "p").1 = configs.
Proof.
  intros configs.
  assert (Hopenai : ∀ c : APIEndpointConfig, c ∈ cfg_openai configs → id c ≠ "b").
  { intros c Hc. apply list_elem_of_singleton in Hc as ->. discriminate. }
  assert (Hollama : ∀ c : OllamaEndpointConfig, c ∈ cfg_ollama configs → id c ≠ "p").
  { intros c Hc. apply list_elem_of_singleton in Hc as ->. discriminate. }
  split; [exact Hopenai|]. split; [exact Hollama|].
  exact (add_then_delete_restores configs (Sample.api "openai" "b")
           (Sample.ollama "p" None None) Hopenai Hollama).
Defined.

(** X8. Editing, deleting or switching a connection under an identifier that
    no connection of the kind has saves the configuration as it was; the page
    still announces the update and the removal. *)
Theorem unknown_identifier_changes_nothing configs (connection : APIEndpointConfig)
    (flag : bool) :
  (∀ c : APIEndpointConfig, c ∈ cfg_openai configs → id c ≠ id connection) →
  Settings.handleEditOpenAI configs connection
  = (configs, [Settings.mkToast "Connection Updated"
                 ("Updated OpenAI connection " +:+ Settings.quoted (name connection))])
  ∧ Settings.handleDeleteOpenAI configs (id connection)
  = (configs, [Settings.mkToast "Connection Deleted" "OpenAI connection has been removed"])
  ∧ Settings.handleToggleOpenAI configs (id connection) flag = (configs, []).
Proof.
  intros Hunknown.
  unfold Settings.handleEditOpenAI, Settings.handleDeleteOpenAI, Settings.handleToggleOpenAI.
  rewrite (fmap_unknown (λ c : APIEndpointConfig, id c) (id connection) (λ _, connection))
    by done.
  rewrite (fmap_unknown (λ c : APIEndpointConfig, id c) (id connection)
             (λ c, Settings.api_set_enabled c flag)) by done.
  rewrite (filter_unknown (λ c : APIEndpointConfig, id c)) by done.
  by rewrite with_openai_same.
Qed.

Lemma unknown_identifier_changes_nothing_witness :
  let configs := mkConfigs [Sample.api "openai" "a"] [] [] [] [] [] in
  (∀ c : APIEndpointConfig, c ∈ cfg_openai configs → id c ≠ "b") ∧
  (Settings.handleEditOpenAI configs (Sample.api "openai" "b")).1 = configs.
Proof.
  intros configs.
  assert (Hunknown : ∀ c : APIEndpointConfig,
            c ∈ cfg_openai configs → id c ≠ id (Sample.api "openai" "b")).
  { intros c Hc. apply list_elem_of_singleton in Hc as ->. discriminate. }
  split; [exact Hunknown|].
  by rewrite (proj1 (unknown_identifier_changes_nothing configs (Sample.api "openai" "b")
                       true Hunknown)).
Defined.

Section UniqueIds.
Import Settings.

Lemma ids_edit_api (l : list APIEndpointConfig) (connection : APIEndpointConfig) :
  (λ c : APIEndpointConfig, id c) <$>
    ((λ c : APIEndpointConfig, if String.eqb (id c) (id connection) then connection else c)
       <$> l)
  = (λ c : APIEndpointConfig, id c) <$> l.
Proof.
  apply (fmap_ids (λ c : APIEndpointConfig, id c) (id connection) (λ _, connection)).
  by intros c ->.
Qed.

Lemma ids_edit_ollama (l : list OllamaEndpointConfig) (connection : OllamaEndpointConfig) :
  (λ c : OllamaEndpointConfig, id c) <$>
    ((λ c : OllamaEndpointConfig, if String.eqb (id c) (id connection) then connection else c)
       <$> l)
  = (λ c : OllamaEndpointConfig, id c) <$> l.
Proof.
  apply (fmap_ids (λ c : OllamaEndpointConfig, id c) (id connection) (λ _, connection)).
  by intros c ->.
Qed.

Lemma ids_toggle_api (l : list APIEndpointConfig) ident flag :
  (λ c : APIEndpointConfig, id c) <$>
    ((λ c : APIEndpointConfig, if String.eqb (id c) ident then api_set_enabled c flag else c)
       <$> l)
  = (λ c : APIEndpointConfig, id c) <$> l.
Proof.
  by apply (fmap_ids (λ c : APIEndpointConfig, id c) ident (λ c, api_set_enabled c flag)).
Qed.

Lemma ids_toggle_ollama (l : list OllamaEndpointConfig) ident flag :
  (λ c : OllamaEndpointConfig, id c) <$>
    ((λ c : OllamaEndpointConfig,
        if String.eqb (id c) ident then ollama_set_enabled c flag else c) <$> l)
  = (λ c : OllamaEndpointConfig, id c) <$> l.
Proof.
  by apply (fmap_ids (λ c : OllamaEndpointConfig, id c) ident
              (λ c, ollama_set_enabled c flag)).
Qed.

(** Identifiers that stay distinct when some of the first, or of the second,
    kind are dropped *)
Lemma NoDup_ids_filter {C D} (f : C → string) (g : D → string)
    (P : C → Prop) `{∀ c, Decision (P c)} (Q : D → Prop) `{∀ d, Decision (Q d)}
    (l : list C) (k : list D) :
  NoDup ((f <$> l) ++ (g <$> k)) → NoDup ((f <$> filter P l) ++ (g <$> filter Q k)).
Proof.
  rewrite !NoDup_app. intros (Hl & Hlk & Hk). split; [by apply filter_ids_NoDup|].
  split; [|by apply filter_ids_NoDup].
  intros x Hx Hx'.
  apply list_elem_of_fmap in Hx as (c & -> & Hc). apply list_elem_of_filter in Hc as [_ Hc].
  apply list_elem_of_fmap in Hx' as (d & Hd & Hd'). apply list_elem_of_filter in Hd' as [_ Hd'].
  apply (Hlk (f c)); apply list_elem_of_fmap; eauto.
Qed.

End UniqueIds.

(** X9. The handlers of the settings page keep the identifiers of the OpenAI
    and Ollama connections distinct once they are: editing and switching keep
    the list of identifiers itself, deleting drops some, and adding keeps
    them distinct when the new identifier is not in use. *)
Theorem handlers_keep_identifiers_distinct configs (openai : APIEndpointConfig)
    (ollama : OllamaEndpointConfig) (ident : string) (flag : bool) :
  NoDup (connection_ids configs) →
  connection_ids (Settings.handleEditOpenAI configs openai).1 = connection_ids configs
  ∧ connection_ids (Settings.handleEditOllama configs ollama).1 = connection_ids configs
  ∧ connection_ids (Settings.handleToggleOpenAI configs ident flag).1 = connection_ids configs
  ∧ connection_ids (Settings.handleToggleOllama configs ident flag).1 = connection_ids configs
  ∧ NoDup (connection_ids (Settings.handleDeleteOpenAI configs ident).1)
  ∧ NoDup (connection_ids (Settings.handleDeleteOllama configs ident).1)
  ∧ (id openai ∉ connection_ids configs →
     NoDup (connection_ids (Settings.handleAddOpenAI configs openai).1))
  ∧ (id ollama ∉ connection_ids configs →
     NoDup (connection_ids (Settings.handleAddOllama configs ollama).1)).
Proof.
  intros Hdistinct. unfold connection_ids in *. simpl.
  rewrite ids_edit_api, ids_edit_ollama, ids_toggle_api, ids_toggle_ollama.
  repeat split; try done.
  - rewrite <- (filter_all (λ _ : OllamaEndpointConfig, True) (cfg_ollama configs))
      by (by apply Forall_forall).
    by apply NoDup_ids_filter.
  - rewrite <- (filter_all (λ _ : APIEndpointConfig, True) (cfg_openai configs))
      by (by apply Forall_forall).
    by apply NoDup_ids_filter.
  - intros Hfresh. rewrite fmap_app. simpl.
    rewrite <- app_assoc. simpl.
    apply NoDup_app in Hdistinct as (Hl & Hlk & Hk).
    apply NoDup_app. split; [done|]. split.
    + intros x Hx Hx'. apply elem_of_cons in Hx' as [->|Hx'].
      * apply Hfresh. apply elem_of_app. by left.
      * by apply (Hlk x).
    + apply NoDup_cons. split; [|done].
      intros Hin. apply Hfresh. apply elem_of_app. by right.
  - intros Hfresh. rewrite fmap_app. simpl. rewrite app_assoc.
    apply NoDup_app. split; [done|]. split; [|apply NoDup_singleton].
    intros x Hx Hx'. apply list_elem_of_singleton in Hx' as ->. by apply Hfresh.
Qed.

Lemma handlers_keep_identifiers_distinct_witness :
  let configs := mkConfigs [Sample.api "openai" "a"] [] [] [Sample.ollama "o" None None] [] [] in
  NoDup (connection_ids configs) ∧
  connection_ids (Settings.handleEditOpenAI configs (Sample.api "openai" "a")).1
  = connection_ids configs.
Proof.
  intros configs.
  assert (Hdistinct : NoDup (connection_ids configs)).
  { apply (bool_decide_unpack _). vm_compute. exact I. }
  split; [exact Hdistinct|].
  exact (proj1 (handlers_keep_identifiers_distinct configs (Sample.api "openai" "a")
                  (Sample.ollama "o" None None) "a" false Hdistinct)).
Defined.

(** ** The connection dialog *)

Section Dialog.
Import OpenAIConnectionForm.

Lemma or_str_set (s d : string) : s ≠ "" → JS.or_str (Some s) d = s.
Proof. by destruct s. Qed.

(** Two elements of a list without repeated identifiers that share one *)
Lemma same_identifier {C} (ident : C → string) (l : list C) (c c' : C) :
  NoDup (ident <$> l) → c ∈ l → c' ∈ l → ident c' = ident c → c' = c.
Proof.
  intros Hdistinct Hc Hc' Hid.
  apply list_elem_of_lookup in Hc as [i Hi]. apply list_elem_of_lookup in Hc' as [j Hj].
  assert (i = j) as ->; [|congruence].
  apply (NoDup_lookup (ident <$> l) i j (ident c)); [done| |];
    rewrite list_lookup_fmap; [by rewrite Hi|by rewrite Hj, <- Hid].
Qed.

Lemma selectModels_no_request entries :
  Async.requests (OpenAIService.selectModels entries) = [].
Proof.
  induction entries as [|[[i|]] rest IH]; simpl; [done| |done].
  unfold mbind, Async_bind, Async.bind. simpl.
  by destruct (OpenAIService.selectModels rest) as [log [kept|m]]; simpl in *; subst.
Qed.

Lemma listModels_settles config answer :
  ∃ listed, OpenAIService.listModels config answer
            = ([OpenAIService.listRequest config], Resolved listed).
Proof.
  unfold OpenAIService.listModels.
  destruct answer as [[st body|[[[entries|]]|m]]|m]; simpl; eauto.
  unfold mbind, Async_bind, Async.bind. simpl.
  pose proof (selectModels_no_request entries) as Hlog.
  destruct (OpenAIService.selectModels entries) as [log [kept|m]]; simpl in *; subst; eauto.
Qed.

End Dialog.

(** X10. Whatever is typed into the dialog of a listed OpenAI connection,
    submitting it saves a configuration in which every connection has the
    identifier, the switch position, the temperature and the token limit it
    had: the form can change the other fields of the edited connection only.
    The page announces the update and the dialog closes. *)
Theorem editing_keeps_identity_and_switch configs (c : APIEndpointConfig) fields uuid :
  id c ≠ "" → c ∈ cfg_openai configs →
  NoDup ((λ c : APIEndpointConfig, id c) <$> cfg_openai configs) →
  let submitted := submit_openai configs (ConnectionList.handleEdit c) fields uuid in
  let kept (c : APIEndpointConfig) := (id c, enabled c, temperature c, maxTokens c) in
  kept <$> cfg_openai submitted.1.1 = kept <$> cfg_openai configs
  ∧ Settings.title <$> submitted.1.2 = ["Connection Updated"]
  ∧ submitted.2 = ConnectionList.mkState None false.
Proof.
  intros Hid Hc Hdistinct submitted kept. subst submitted.
  split; [|done]. simpl.
  rewrite <- list_fmap_compose. apply list_fmap_ext. intros i c' Hc'. simpl.
  rewrite (or_str_set _ _ Hid).
  destruct (String.eqb_spec (id c') (id c)) as [He|_]; [|done].
  assert (c' = c) as ->.
  { apply (same_identifier (λ c : APIEndpointConfig, id c) (cfg_openai configs)); try done.
    by apply list_elem_of_lookup_2 in Hc'. }
  unfold kept. simpl. by rewrite (or_str_set _ _ Hid).
Qed.

Lemma editing_keeps_identity_and_switch_witness :
  let configs := mkConfigs [Sample.api "openai" "a"; Sample.api "openai" "b"] [] [] [] [] [] in
  let fields :=
    OpenAIConnectionForm.mkState "renamed" "other key" "https://example.org/v1"
      "gpt-3.5-turbo" "" "" false [] false false in
  let submitted :=
    submit_openai configs (ConnectionList.handleEdit (Sample.api "openai" "b")) fields "u" in
  id (Sample.api "openai" "b") ≠ "" ∧
  Sample.api "openai" "b" ∈ cfg_openai configs ∧
  NoDup ((λ c : APIEndpointConfig, id c) <$> cfg_openai configs) ∧
  (λ c : APIEndpointConfig, (id c, enabled c)) <$> cfg_openai submitted.1.1
  = [("a", true); ("b", true)] ∧
  (λ c : APIEndpointConfig, name c) <$> cfg_openai submitted.1.1 = ["a"; "renamed"].
Proof.
  intros configs fields submitted.
  assert (Hid : id (Sample.api "openai" "b") ≠ "") by discriminate.
  assert (Hc : Sample.api "openai" "b" ∈ cfg_openai configs).
  { apply list_elem_of_further, list_elem_of_here. }
  assert (Hdistinct : NoDup ((λ c : APIEndpointConfig, id c) <$> cfg_openai configs)).
  { apply (bool_decide_unpack _). vm_compute. exact I. }
  split; [exact Hid|]. split; [exact Hc|]. split; [exact Hdistinct|].
  pose proof (proj1 (editing_keeps_identity_and_switch configs (Sample.api "openai" "b")
                       fields "u" Hid Hc Hdistinct)) as Hkept.
  split; [|reflexivity].
  apply (f_equal (fmap (λ k : string * bool * option JS.num * option JS.num, k.1.1))) in Hkept.
  rewrite <- !list_fmap_compose in Hkept. exact Hkept.
Defined.

(** X11. Opening the dialog of a connection and submitting it untouched
    changes nothing an OpenAI service does with it, provided the connection
    has an identifier and records whether its key is a project key (as every
    connection the form has submitted does): the service sends the same
    requests and builds the same responses. *)
Theorem saving_untouched_fields_changes_no_call (c : APIEndpointConfig) uuid :
  id c ≠ "" → isProjectKey c ≠ None →
  let again :=
    OpenAIConnectionForm.handleSubmit (Some c) (OpenAIConnectionForm.initial (Some c)) uuid in
  (∀ prompt env,
     OpenAIService.generateResponse again prompt env
     = OpenAIService.generateResponse c prompt env)
  ∧ (∀ answer, OpenAIService.listModels again answer = OpenAIService.listModels c answer)
  ∧ (∀ answer response_headers,
       OpenAIService.testConnection again answer response_headers
       = OpenAIService.testConnection c answer response_headers).
Proof.
  intros Hid Hkey again. subst again.
  destruct c as [[i n e p t m] k bu mn org proj [b|]]; [|done]. simpl in Hid.
  destruct i as [|i0 i]; [done|]. destruct k as [|k0 k].
  all: destruct bu as [[|? ?]|], mn as [[|? ?]|], org as [[|? ?]|], proj as [[|? ?]|], b;
    (split; [|split]); reflexivity.
Qed.

Lemma saving_untouched_fields_changes_no_call_witness :
  let c :=
    mkAPI (mkBase "b" "work" true "openai" (Some (JS.Fin 0.2)) None) "key" None
      (Some "gpt-3.5-turbo") None (Some "prj-1") (Some false) in
  id c ≠ "" ∧ isProjectKey c ≠ None ∧
  OpenAIService.listModels
    (OpenAIConnectionForm.handleSubmit (Some c) (OpenAIConnectionForm.initial (Some c)) "u")
    Sample.unreachable
  = OpenAIService.listModels c Sample.unreachable.
Proof.
  intros c.
  assert (Hid : id c ≠ "") by discriminate.
  assert (Hkey : isProjectKey c ≠ None) by discriminate.
  split; [exact Hid|]. split; [exact Hkey|].
  exact (proj1 (proj2 (saving_untouched_fields_changes_no_call c "u" Hid Hkey))
           Sample.unreachable).
Defined.

(** X12. [loadModels] of the connection form never shows its error: whatever
    the network answers, it sends one request for the model list, shows no
    toast, offers what [listModels] fulfils with and ends with the loading
    flag down. *)
Theorem loadModels_shows_no_error connection st answer :
  ∃ listed,
    OpenAIConnectionForm.loadModels connection st answer
    = OpenAIConnectionForm.mkEffects []
        [OpenAIService.listRequest (OpenAIConnectionForm.draft connection st)]
        (OpenAIConnectionForm.set_models st listed false)
    ∧ Async.outcome
        (OpenAIService.listModels (OpenAIConnectionForm.draft connection st) answer)
      = Resolved listed.
Proof.
  destruct (listModels_settles (OpenAIConnectionForm.draft connection st) answer)
    as [listed Hlisted].
  exists listed. unfold OpenAIConnectionForm.loadModels. by rewrite Hlisted.
Qed.

(** ** Probing, starting and stopping servers *)

(** X13. [OpenAIService.testConnection] sends one request for the model list
    and never fulfils with [success] false: it fulfils, with [success] true
    and the rate limits read from the headers, exactly when the status is a
    success, and in every other case rejects with a message that begins with
    "Connection test failed: " followed by the cause. *)
Theorem testConnection_fulfils_only_on_success config answer response_headers :
  let test := OpenAIService.testConnection config answer response_headers in
  Async.requests test = [OpenAIService.listRequest config]
  ∧ ((∃ body, answer = Resolved (HttpSuccess body) ∧
        Async.outcome test
        = Resolved (OpenAIService.mkTest true
                      (Some (OpenAIService.updateRateLimits response_headers))))
     ∨ (∃ cause, Async.outcome test = Rejected ("Connection test failed: " +:+ cause) ∧
          match answer with
          | Resolved (HttpSuccess _) => False
          | Resolved (HttpFailure _ (Resolved e)) =>
              cause = JS.or_str (error_message e) "OpenAI API error"
          | Resolved (HttpFailure _ (Rejected m)) | Rejected m => cause = m
          end)).
Proof.
  intros test. subst test. unfold OpenAIService.testConnection.
  destruct answer as [[st [e|m]|body]|m]; simpl; split; try done; eauto.
Qed.

(** X14. A rate-limit header that is absent or empty is stored as 0, not as
    [NaN]: when the four limit headers read so, [updateRateLimits] stores four
    zeros, which is what a caller printing [requests_limit || 'N/A'] shows as
    N/A. *)
Theorem missing_rate_limits_are_zero (response_headers : OpenAIService.OpenAIHeaders) :
  (∀ key, JS.startsWith key "x-ratelimit-limit-" || JS.startsWith key "x-ratelimit-remaining-"
          = true → JS.truthy_str (response_headers key) = false) →
  let stored := OpenAIService.updateRateLimits response_headers in
  OpenAIService.requests_limit stored = JS.of_Z 0
  ∧ OpenAIService.tokens_limit stored = JS.of_Z 0
  ∧ OpenAIService.requests_remaining stored = JS.of_Z 0
  ∧ OpenAIService.tokens_remaining stored = JS.of_Z 0
  ∧ JS.truthy (OpenAIService.requests_limit stored) = false.
Proof.
  intros Hmissing stored. subst stored. unfold OpenAIService.updateRateLimits. simpl.
  assert (Hzero : ∀ key,
            JS.startsWith key "x-ratelimit-limit-"
            || JS.startsWith key "x-ratelimit-remaining-" = true →
            JS.parseInt (JS.or_str (response_headers key) "0") = JS.of_Z 0).
  { intros key Hkey. specialize (Hmissing key Hkey).
    by destruct (response_headers key) as [[|? ?]|]. }
  rewrite !Hzero by reflexivity. done.
Qed.

Lemma missing_rate_limits_are_zero_witness :
  let response_headers : OpenAIService.OpenAIHeaders :=
    λ key, if String.eqb key "x-ratelimit-reset-requests" then Some "1s" else None in
  (∀ key, JS.startsWith key "x-ratelimit-limit-" || JS.startsWith key "x-ratelimit-remaining-"
          = true → JS.truthy_str (response_headers key) = false) ∧
  OpenAIService.requests_limit (OpenAIService.updateRateLimits response_headers) = JS.of_Z 0.
Proof.
  intros response_headers.
  assert (Hmissing : ∀ key,
            JS.startsWith key "x-ratelimit-limit-"
            || JS.startsWith key "x-ratelimit-remaining-" = true →
            JS.truthy_str (response_headers key) = false).
  { intros key Hkey. unfold response_headers.
    destruct (String.eqb_spec key "x-ratelimit-reset-requests") as [->|_]; [|done].
    discriminate Hkey. }
  split; [exact Hmissing|].
  exact (proj1 (missing_rate_limits_are_zero response_headers Hmissing)).
Defined.

(** X15. [GGUFService.startServer] and [stopServer] send one request each and
    fulfil exactly when its status is a success. Otherwise they reject with
    their own message followed by the cause; for a status that is not a
    success the cause is that same message, thrown inside the [try] and
    caught by its own [catch]. *)
Theorem start_and_stop_reject_with_the_cause config answer :
  let start := GGUFService.startServer config answer in
  let stop := GGUFService.stopServer answer in
  IO.events start = [Fetched (GGUFService.startRequest config)]
  ∧ Async.requests stop = [GGUFService.stopRequest]
  ∧ match answer with
    | Resolved (HttpSuccess _) =>
        IO.outcome start = Resolved () ∧ Async.outcome stop = Resolved ()
    | Resolved (HttpFailure _ _) =>
        IO.outcome start
        = Rejected "Failed to start GGUF server: Failed to start GGUF server"
        ∧ Async.outcome stop
        = Rejected "Failed to stop GGUF server: Failed to stop GGUF server"
    | Rejected cause =>
        IO.outcome start = Rejected ("Failed to start GGUF server: " +:+ cause)
        ∧ Async.outcome stop = Rejected ("Failed to stop GGUF server: " +:+ cause)
    end.
Proof.
  intros start stop. subst start stop.
  unfold GGUFService.startServer, GGUFService.stopServer.
  destruct answer as [[st body|body]|m]; simpl; done.
Qed.

(** X19. [GGUFService.generateResponse] probes the server before it asks for
    a completion, and asks only a server whose probe succeeded: its requests
    are the health probe, followed by the completion request exactly when
    the probe's status is a success; otherwise it fulfils with the failure
    record "GGUF server is not running". *)
Theorem completion_is_asked_after_a_successful_probe config prompt env :
  let call := GGUFService.generateResponse config prompt env in
  Async.requests call
  = GGUFService.healthRequest config ::
    match GGUFService.health env with
    | Resolved (HttpSuccess _) => [GGUFService.completionRequest config prompt]
    | _ => []
    end
  ∧ match GGUFService.health env with
    | Resolved (HttpSuccess _) => True
    | _ => Async.outcome call
           = Resolved (GGUFService.failure config "GGUF server is not running")
    end.
Proof.
  intros call. subst call. unfold GGUFService.generateResponse.
  destruct env as [[[hs hb|hb]|hm] [t0 [[st [e|m] | [[[txt|]]|m]] | m] t1]]; simpl; done.
Qed.

(** ** Ollama endpoints of the comparison service *)

Section Endpoints.
Import ComparisonService.

Lemma find_unknown {C} (f : C → bool) (l : list C) :
  (∀ c, c ∈ l → f c = false) → List.find f l = None.
Proof.
  induction l as [|c l IH]; intros Hl; [done|]. simpl.
  rewrite (Hl c) by apply list_elem_of_here.
  apply IH. intros c' Hc'. apply Hl. by apply list_elem_of_further.
Qed.

Lemma find_known {C} (f : C → bool) (l : list C) c :
  List.find f l = Some c → c ∈ l ∧ f c = true.
Proof.
  induction l as [|c' l IH]; [done|]. simpl.
  destruct (f c') eqn:Hc'.
  - intros [= ->]. split; [apply list_elem_of_here|done].
  - intros Hfind. destruct (IH Hfind). split; [by apply list_elem_of_further|done].
Qed.

Lemma find_ollama_disabled this configs endpointId :
  (∀ c : OllamaEndpointConfig,
     c ∈ cfg_ollama configs → enabled c = true → id c ≠ endpointId) →
  find_ollama (updateConfigs this configs) endpointId = None.
Proof.
  intros Hoff. unfold find_ollama. apply find_unknown. intros c Hc. simpl in Hc.
  apply list_elem_of_filter in Hc as [Hen Hc].
  destruct (String.eqb_spec (id c) endpointId) as [He|_]; [|done].
  by destruct (Hoff c Hc Hen).
Qed.

Lemma find_ollama_enabled this configs endpointId service :
  find_ollama (updateConfigs this configs) endpointId = Some service →
  service ∈ cfg_ollama configs ∧ enabled service = true ∧ id service = endpointId.
Proof.
  intros Hfind. apply find_known in Hfind as [Hin Hid]. simpl in Hin.
  apply list_elem_of_filter in Hin as [Hen Hin].
  split; [done|]. split; [done|]. by apply String.eqb_eq.
Qed.

Lemma Ollama_listModels_settles config answer :
  ∃ listed, OllamaService.listModels config answer
            = ([OllamaService.tagsRequest config], Resolved listed).
Proof.
  unfold OllamaService.listModels.
  destruct answer as [[st body|[[[ms|]]|m]]|m]; simpl; eauto.
Qed.

End Endpoints.





(** ** What the constructor of [OllamaService] starts *)

Section LoadModelInfo.
Import OllamaService.

Lemma fetchModelInfo_settles config wanted answer :
  fetchModelInfo config wanted answer
  = (Fetched (showRequest config wanted) ::
       match shown answer with Some info => [Stored wanted info] | None => [] end,
     Resolved ()).
Proof.
  unfold fetchModelInfo. by destruct answer as [[st body|[info|m]]|m].
Qed.

Lemma fetch_each_settles config shows i listed :
  ∃ log, fetch_each config shows i listed = (log, Resolved ())
         ∧ IO.calls log = showRequest config <$> listed
         ∧ (∀ stored wanted, wanted ∉ listed →
              IO.modelInfo_after log stored !! wanted = stored !! wanted)
         ∧ (NoDup listed →
            ∀ stored k wanted, listed !! k = Some wanted →
              IO.modelInfo_after log stored !! wanted
              = match shown (shows (i + k)) with
                | Some info => Some info
                | None => stored !! wanted
                end).
Proof.
  revert i. induction listed as [|name rest IH]; intros i.
  - exists []. repeat split; done.
  - destruct (IH (S i)) as (log & Hrest & Hcalls & Hframe & Hstored).
    simpl. rewrite fetchModelInfo_settles.
    unfold mbind, IO_bind, IO.bind. rewrite Hrest.
    eexists. split; [reflexivity|]. split; [|split].
    + simpl. f_equal. destruct (shown (shows i)); simpl; by rewrite Hcalls.
    + intros stored wanted Hnot. apply not_elem_of_cons in Hnot as [Hne Hnot].
      simpl. destruct (shown (shows i)); simpl; rewrite Hframe by done; [|done].
      by rewrite lookup_insert_ne.
    + intros Hdistinct stored k wanted Hk. apply NoDup_cons in Hdistinct as [Hname Hdistinct].
      destruct k as [|k]; simpl in Hk.
      * injection Hk as ->. rewrite Nat.add_0_r. simpl.
        destruct (shown (shows i)); simpl; rewrite Hframe by done; [|done].
        by rewrite lookup_insert_eq.
      * replace (i + S k) with (S i + k) by lia.
        assert (name ≠ wanted).
        { intros ->. apply Hname. by apply list_elem_of_lookup_2 in Hk. }
        simpl. destruct (shown (shows i)); simpl; rewrite (Hstored Hdistinct _ k) by done;
          [|done].
        by rewrite lookup_insert_ne.
Qed.

End LoadModelInfo.



(** ** The dashboard: requests, history and chart *)

Section DashboardTraffic.
Import ComparisonDashboard.

Lemma generateCompletion_one_request config prompt answer :
  Async.requests (OllamaService.generateCompletion config prompt answer)
  = [OllamaService.generateRequest config prompt].
Proof.
  unfold OllamaService.generateCompletion.
  destruct answer as [[st [e|m]|[d|m]]|m]; reflexivity.
Qed.

Lemma listModels_lists config tags :
  OllamaService.listModels config tags
  = ([OllamaService.tagsRequest config], Resolved (names_listed tags)).
Proof.
  unfold OllamaService.listModels.
  by destruct tags as [[st body|[[[ms|]]|m]]|m].
Qed.

Lemma constructor_calls config tags shows :
  OllamaService.constructor config tags shows
  = ([of_request (OllamaService.tagsRequest config)],
     OllamaService.showRequest config <$> names_listed tags).
Proof.
  unfold OllamaService.constructor, OllamaService.loadModelInfo.
  rewrite listModels_lists.
  destruct (fetch_each_settles config shows 0 (names_listed tags))
    as (log & Hrest & Hcalls & _).
  unfold IO.lift, mbind, IO_bind, IO.bind. simpl. rewrite Hrest. simpl.
  by rewrite drop_0, Hcalls.
Qed.

Lemma attempt_requests st env i wanted config :
  Async.requests (attempt st env i wanted config)
  = [OllamaService.generateRequest config (prompt st)].
Proof.
  pose proof (generateCompletion_one_request config (prompt st) (answer env i)) as Hone.
  unfold attempt, mbind, Async_bind, Async.bind.
  destruct (OllamaService.generateCompletion config (prompt st) (answer env i))
    as [log [r|m]]; simpl in *; subst; done.
Qed.

Lemma processModel_requests st env i wanted :
  at_once (processModel st env i wanted) = asked st wanted
  ∧ later (processModel st env i wanted) = asked_later st env i wanted.
Proof.
  unfold processModel, asked, asked_later, called.
  destruct (find_model st wanted) as [[config|config]|]; [done| |done].
  destruct (String.eqb (provider config) "ollama"); [|done].
  cbv zeta. by rewrite constructor_calls, attempt_requests.
Qed.

Lemma calls_requests st env (selected : list string) :
  concat (at_once <$> imap (processModel st env) selected) = selected ≫= asked st
  ∧ later <$> imap (processModel st env) selected = imap (asked_later st env) selected.
Proof.
  rewrite !fmap_imap. split.
  - transitivity (concat (imap (λ _ : nat, asked st) selected)).
    + f_equal. apply imap_ext. intros i wanted _. simpl. apply processModel_requests.
    + rewrite (imap_const (asked st)).
      induction selected as [|wanted selected IH]; [done|].
      rewrite fmap_cons. cbn. f_equal. exact IH.
  - apply imap_ext. intros i wanted _. simpl. apply processModel_requests.
Qed.

Lemma called_known st wanted config :
  called st wanted = Some config →
  config ∈ cfg_ollama (configs st) ∧ enabled config = true
  ∧ provider config = "ollama" ∧ id config = wanted.
Proof.
  unfold called.
  destruct (find_model st wanted) as [[c|c]|] eqn:Hfind; [done| |done].
  destruct (String.eqb_spec (provider c) "ollama") as [Hprovider|]; [|done].
  intros [= ->].
  apply find_known in Hfind as [Hin Hid]. simpl in Hid. apply String.eqb_eq in Hid.
  unfold enabledModels in Hin.
  apply elem_of_app in Hin as [Hin|Hin];
    apply list_elem_of_fmap in Hin as (c' & Hc & Hin); [done|].
  injection Hc as ->. by apply list_elem_of_filter in Hin as [Hen Hin].
Qed.

Lemma record_results_bound results :
  ∀ prev model points,
    (∀ earlier, prev !! model = Some earlier → (length earlier ≤ 10)%nat) →
    record_results prev results !! model = Some points → (length points ≤ 10)%nat.
Proof.
  unfold record_results.
  induction results as [|result results IH]; intros prev model points Hprev; simpl.
  - apply Hprev.
  - apply IH. intros earlier.
    destruct (decide (modelId result = model)) as [<-|Hne].
    + rewrite lookup_insert_eq. intros [= <-].
      rewrite length_app, length_drop. simpl. lia.
    + rewrite lookup_insert_ne by done. apply Hprev.
Qed.

End DashboardTraffic.

(** X23. A click of Compare sends requests to Ollama only (configurations
    as typed). It sends nothing when the prompt is blank or nothing is
    selected. Otherwise, for each selected identifier that stands for an
    enabled Ollama connection with provider ['ollama'], in the order of the
    selection, it sends the tags request of the service it builds for that
    connection, then one generate request carrying the prompt; and the
    service goes on, in the background, to send one show request for each
    model the tags answer lists, in the listed order. Every request is one
    of these, to an enabled Ollama connection whose identifier is selected; a
    selected OpenAI connection is never called. *)
Theorem handleCompare_asks_ollama_only st env :
  typed (ComparisonDashboard.configs st) →
  let done := ComparisonDashboard.handleCompare st env in
  let selected := ComparisonDashboard.selectedModels st in
  let known (config : OllamaEndpointConfig) :=
    config ∈ cfg_ollama (ComparisonDashboard.configs st) ∧ enabled config = true ∧
    provider config = "ollama" ∧ id config ∈ selected in
  (ComparisonDashboard.requests done
   = if String.eqb (JS.trim (ComparisonDashboard.prompt st)) "" then []
     else selected ≫= asked st)
  ∧ (ComparisonDashboard.background done
     = if String.eqb (JS.trim (ComparisonDashboard.prompt st)) "" then []
       else imap (asked_later st env) selected)
  ∧ (∀ wanted config,
       called st wanted = Some config →
       config ∈ cfg_ollama (ComparisonDashboard.configs st) ∧ enabled config = true ∧
       provider config = "ollama" ∧ id config = wanted)
  ∧ (∀ call,
       call ∈ ComparisonDashboard.requests done →
       ∃ config,
         known config ∧
         (call = of_request (OllamaService.tagsRequest config)
          ∨ call = of_request (OllamaService.generateRequest config
                                 (ComparisonDashboard.prompt st))))
  ∧ (∀ calls call,
       calls ∈ ComparisonDashboard.background done → call ∈ calls →
       ∃ config listed, known config ∧ call = OllamaService.showRequest config listed).
Proof.
  intros _ done selected known.
  assert (Hsent : ComparisonDashboard.requests done
                  = (if String.eqb (JS.trim (ComparisonDashboard.prompt st)) "" then []
                     else selected ≫= asked st)
                  ∧ ComparisonDashboard.background done
                    = (if String.eqb (JS.trim (ComparisonDashboard.prompt st)) "" then []
                       else imap (asked_later st env) selected)).
  { subst done selected.
    destruct (String.eqb_spec (JS.trim (ComparisonDashboard.prompt st)) "") as [Ht|Ht].
    { unfold ComparisonDashboard.handleCompare. by rewrite Ht. }
    destruct (decide (ComparisonDashboard.selectedModels st = [])) as [Hs|Hs].
    { unfold ComparisonDashboard.handleCompare.
      destruct (String.eqb_spec (JS.trim (ComparisonDashboard.prompt st)) ""); [done|].
      by rewrite Hs. }
    rewrite (handleCompare_unguarded st env Ht Hs).
    destruct (omap _ _); simpl; apply calls_requests. }
  destruct Hsent as [Hsent Hlater].
  split; [exact Hsent|]. split; [exact Hlater|]. split; [apply called_known|].
  rewrite Hsent, Hlater. split.
  - intros call Hcall.
    destruct (String.eqb (JS.trim (ComparisonDashboard.prompt st)) "");
      [by apply not_elem_of_nil in Hcall|].
    apply list_elem_of_bind in Hcall as (wanted & Hcall & Hwanted).
    unfold asked in Hcall.
    destruct (called st wanted) as [config|] eqn:Hcalled;
      [|by apply not_elem_of_nil in Hcall].
    apply called_known in Hcalled as (Hin & Hen & Hprovider & Hid).
    exists config. split; [unfold known; by rewrite Hid|].
    apply elem_of_cons in Hcall as [->|Hcall]; [by left|].
    apply list_elem_of_singleton in Hcall as ->. by right.
  - intros calls call Hcalls Hcall.
    destruct (String.eqb (JS.trim (ComparisonDashboard.prompt st)) "");
      [by apply not_elem_of_nil in Hcalls|].
    apply list_elem_of_lookup in Hcalls as [i Hi].
    rewrite list_lookup_imap in Hi.
    destruct (selected !! i) as [wanted|] eqn:Hwanted; [|done].
    injection Hi as <-. unfold asked_later in Hcall.
    destruct (called st wanted) as [config|] eqn:Hcalled;
      [|by apply not_elem_of_nil in Hcall].
    apply called_known in Hcalled as (Hin & Hen & Hprovider & Hid).
    apply list_elem_of_fmap in Hcall as (listed & -> & _).
    exists config, listed. split; [|done].
    unfold known. rewrite Hid. by apply list_elem_of_lookup_2 in Hwanted.
Qed.

Lemma handleCompare_asks_ollama_only_witness :
  let configs :=
    mkConfigs [Sample.api "openai" "a"] [] [] [Sample.ollama "o" None None] [] [] in
  let st := page "hello" ["a"; "o"] configs in
  let done := ComparisonDashboard.handleCompare st click_answered in
  typed configs ∧
  ComparisonDashboard.requests done
  = [of_request (OllamaService.tagsRequest (Sample.ollama "o" None None));
     of_request (OllamaService.generateRequest (Sample.ollama "o" None None) "hello")] ∧
  ComparisonDashboard.background done
  = [[]; [OllamaService.showRequest (Sample.ollama "o" None None) "llama2"]].
Proof.
  intros configs st done.
  assert (Htyped : typed configs).
  { apply Forall_cons. split; [discriminate|apply Forall_nil_2]. }
  split; [exact Htyped|].
  destruct (handleCompare_asks_ollama_only st click_answered Htyped)
    as (Hsent & Hlater & _).
  subst done. rewrite Hsent, Hlater. split; reflexivity.
Defined.

(** X22. The history of a model never grows past ten points: if no history
    is longer before a click of Compare, none is longer after it, whatever
    the servers answer. *)
Theorem history_keeps_ten_points st env :
  (∀ model points, ComparisonDashboard.performance st !! model = Some points →
                   (length points ≤ 10)%nat) →
  ∀ model points,
    ComparisonDashboard.performance
      (ComparisonDashboard.state (ComparisonDashboard.handleCompare st env)) !! model
    = Some points →
    (length points ≤ 10)%nat.
Proof.
  intros Hbefore model points.
  destruct (String.eqb_spec (JS.trim (ComparisonDashboard.prompt st)) "") as [Ht|Ht].
  { unfold ComparisonDashboard.handleCompare. rewrite Ht. simpl. apply Hbefore. }
  destruct (decide (ComparisonDashboard.selectedModels st = [])) as [Hs|Hs].
  { unfold ComparisonDashboard.handleCompare.
    destruct (String.eqb_spec (JS.trim (ComparisonDashboard.prompt st)) ""); [done|].
    rewrite Hs. simpl. apply Hbefore. }
  rewrite (handleCompare_unguarded st env Ht Hs).
  destruct (omap _ _) as [|row rows]; [simpl; apply Hbefore|].
  apply (record_results_bound (row :: rows)). apply Hbefore.
Qed.

Lemma history_keeps_ten_points_witness :
  let st := page "hello" ["o"] (mkConfigs [] [] [] [Sample.ollama "o" None None] [] []) in
  (∀ model points, ComparisonDashboard.performance st !! model = Some points →
                   (length points ≤ 10)%nat) ∧
  ∃ points,
    ComparisonDashboard.performance
      (ComparisonDashboard.state (ComparisonDashboard.handleCompare st click_answered)) !! "o"
    = Some points ∧ (length points ≤ 10)%nat.
Proof.
  intros st.
  assert (Hbefore : ∀ model points,
            ComparisonDashboard.performance st !! model = Some points →
            (length points ≤ 10)%nat).
  { intros model points Hp. unfold st, page in Hp. simpl in Hp.
    by rewrite lookup_empty in Hp. }
  split; [exact Hbefore|].
  eexists. split; [vm_compute; reflexivity|].
  eapply (history_keeps_ten_points st click_answered Hbefore "o"). vm_compute. reflexivity.
Defined.

Section Chart.
Import ComparisonDashboard.

Lemma elem_of_concat {A} (x : A) (ls : list (list A)) :
  x ∈ concat ls ↔ ∃ l, x ∈ l ∧ l ∈ ls.
Proof.
  induction ls as [|l ls IH]; simpl.
  - split; [by intros ?%not_elem_of_nil|by intros (l & _ & ?%not_elem_of_nil)].
  - rewrite elem_of_app, IH. split.
    + intros [?|(l' & ? & ?)]; [exists l|exists l']; split; try done;
        [apply list_elem_of_here|by apply list_elem_of_further].
    + intros (l' & Hx & Hl'). apply elem_of_cons in Hl' as [->|?]; [by left|right; eauto].
Qed.

Lemma allTimestamps_recorded history time :
  time ∈ allTimestamps history ↔ recorded history time.
Proof.
  unfold allTimestamps, recorded. rewrite elem_of_list_to_set, list_elem_of_fmap.
  split.
  - intros (point & -> & Hpoint).
    apply elem_of_concat in Hpoint as (points & Hpoint & Hpoints).
    apply list_elem_of_fmap in Hpoints as ([wanted points'] & -> & Hin).
    apply elem_of_map_to_list in Hin. by exists wanted, points', point.
  - intros (wanted & points & point & Hlookup & Hpoint & <-).
    exists point. split; [done|].
    apply elem_of_concat. exists points. split; [done|].
    apply list_elem_of_fmap. exists (wanted, points). split; [done|].
    by apply elem_of_map_to_list.
Qed.

Lemma increasing (times : list Z) :
  StronglySorted Z.le times → NoDup times → StronglySorted Z.lt times.
Proof.
  induction 1 as [|time times _ IH Hall]; intros Hdistinct; [constructor|].
  apply NoDup_cons in Hdistinct as [Hnot Hdistinct].
  constructor; [by apply IH|].
  apply Forall_forall. intros later Hlater.
  pose proof (proj1 (Forall_forall _ _) Hall later Hlater).
  assert (time ≠ later) by (by intros ->). lia.
Qed.

Lemma sortedTimestamps_increasing history :
  StronglySorted Z.lt (sortedTimestamps history)
  ∧ ∀ time, time ∈ sortedTimestamps history ↔ recorded history time.
Proof.
  unfold sortedTimestamps. split.
  - apply increasing; [apply (StronglySorted_merge_sort _)|].
    rewrite merge_sort_Permutation. apply NoDup_elements.
  - intros time. rewrite merge_sort_Permutation, elem_of_elements.
    apply allTimestamps_recorded.
Qed.

(** The keys of a point other than its own come from the selected models. *)
Lemma dataPoint_values (history : gmap string (list ModelMetrics)) metricKey time
    (selected : list string) :
  ∀ point : gmap string Value,
    let built :=
      fold_left
        (λ point wanted,
           match history !! wanted ≫= List.find (λ m, (row_timestamp m =? time)%Z) with
           | Some modelMetrics =>
               <[row_modelName modelMetrics := metric modelMetrics metricKey]> point
           | None => point
           end) selected point in
    ∀ key value, built !! key = Some value →
      point !! key = Some value
      ∨ ∃ wanted points m,
          wanted ∈ selected ∧ history !! wanted = Some points ∧ m ∈ points ∧
          row_timestamp m = time ∧ row_modelName m = key ∧ value = metric m metricKey.
Proof.
  induction selected as [|wanted selected IH]; intros point built key value; subst built.
  - by left.
  - simpl. intros Hbuilt. apply IH in Hbuilt as [Hpoint|(w & ps & m & Hw & ?)].
    2:{ right. exists w, ps, m. split; [by apply list_elem_of_further|done]. }
    destruct (history !! wanted) as [points|] eqn:Hpoints; simpl in Hpoint; [|by left].
    destruct (List.find _ points) as [m|] eqn:Hfind; [|by left].
    destruct (decide (row_modelName m = key)) as [<-|Hne].
    + rewrite lookup_insert_eq in Hpoint. injection Hpoint as <-.
      apply find_known in Hfind as [Hm Htime]. apply Z.eqb_eq in Htime.
      right. exists wanted, points, m. split; [apply list_elem_of_here|done].
    + rewrite lookup_insert_ne in Hpoint by done. by left.
Qed.

End Chart.



(** X20. Clearing a model's check box removes every occurrence of the model
    from the selection and nothing else; ticking the box of a model that is
    not selected and clearing it again restores the selection; and a
    selection without repetition stays so when only boxes of models that are
    not selected are ticked. *)
Theorem check_box_keeps_the_selection (prev : list string) (model : string) :
  (model ∉ ComparisonDashboard.onCheckedChange prev model false)
  ∧ (∀ other, other ≠ model →
       other ∈ ComparisonDashboard.onCheckedChange prev model false ↔ other ∈ prev)
  ∧ (model ∉ prev →
     ComparisonDashboard.onCheckedChange
       (ComparisonDashboard.onCheckedChange prev model true) model false = prev)
  ∧ (NoDup prev → NoDup (ComparisonDashboard.onCheckedChange prev model false))
  ∧ (NoDup prev → model ∉ prev →
     NoDup (ComparisonDashboard.onCheckedChange prev model true)).
Proof.
  unfold ComparisonDashboard.onCheckedChange. simpl. repeat split.
  - intros Hin. by apply list_elem_of_filter in Hin as [? _].
  - intros Hin. by apply list_elem_of_filter in Hin as [_ ?].
  - intros Hin. by apply list_elem_of_filter.
  - intros Hnot. rewrite filter_app, filter_cons_False, filter_nil, app_nil_r by tauto.
    apply filter_all, Forall_forall. by intros other Hother ->.
  - apply NoDup_filter.
  - intros Hdistinct Hnot. apply NoDup_app. split; [done|].
    split; [|apply NoDup_singleton].
    intros other Hother Hmodel. by apply list_elem_of_singleton in Hmodel as ->.
Qed.

Lemma check_box_keeps_the_selection_witness :
  let prev := ["a"; "b"] in
  NoDup prev ∧ ("c" ∉ prev) ∧
  ComparisonDashboard.onCheckedChange
    (ComparisonDashboard.onCheckedChange prev "c" true) "c" false = prev ∧
  NoDup (ComparisonDashboard.onCheckedChange prev "c" true).
Proof.
  intros prev.
  assert (Hdistinct : NoDup prev) by (apply (bool_decide_unpack _); vm_compute; exact I).
  assert (Hnot : "c" ∉ prev) by (apply (bool_decide_unpack _); vm_compute; exact I).
  destruct (check_box_keeps_the_selection prev "c") as (_ & _ & Hback & _ & Hadd).
  split; [exact Hdistinct|]. split; [exact Hnot|].
  split; [exact (Hback Hnot)|exact (Hadd Hdistinct Hnot)].
Defined.

(** ** Cost estimates *)

#[local] Arguments AnthropicService.price_of : simpl never.
#[local] Arguments JS.member : simpl never.
#[local] Arguments JS.inherited : simpl never.

(** X24. A model that the price table of its adapter does not list is costed
    by what the lookup finds instead. For a name that is no member of the
    table at all, that is the table's default entry: an OpenAI response
    carries the cost of the same usage under gpt-4, an Anthropic response
    the cost of the same tokens under claude-3-opus. For a name the table
    inherits from [Object.prototype], such as [constructor] or [toString],
    the lookup is truthy, the default is not taken and the cost is [NaN].
    In both cases an OpenAI response has no context size. *)
Theorem unlisted_models_cost_the_default :
  (∀ config prompt env r,
     Async.outcome (OpenAIService.generateResponse config prompt env) = Resolved r →
     error r = None →
     ∃ u, promptTokens (metrics r) = OpenAIService.prompt_tokens u
          ∧ completionTokens (metrics r) = OpenAIService.completion_tokens u
          ∧ match OpenAIService.getModelCapabilities (OpenAIService.model_or_default config)
            with
            | JS.Missing =>
                cost (metrics r)
                = Some (OpenAIService.calculateCost
                          (JS.to_num (OpenAIService.prompt_tokens u))
                          (JS.to_num (OpenAIService.completion_tokens u)) "gpt-4")
                ∧ contextSize (metrics r) = None
            | JS.Inherited =>
                cost (metrics r) = Some JS.NaN ∧ contextSize (metrics r) = None
            | JS.Own capabilities =>
                cost (metrics r)
                = Some (OpenAIService.cost_at (inputCostPer1k capabilities)
                          (outputCostPer1k capabilities)
                          (JS.to_num (OpenAIService.prompt_tokens u))
                          (JS.to_num (OpenAIService.completion_tokens u)))
                ∧ contextSize (metrics r) = Some (maxContextSize capabilities)
            end)
  ∧ (∀ config prompt env r,
       Async.outcome (AnthropicService.generateResponse config prompt env) = Resolved r →
       error r = None →
       match JS.member (AnthropicService.price_of AnthropicService.prices
                          (AnthropicService.model_or_default config))
               (AnthropicService.model_or_default config) with
       | JS.Missing =>
           cost (metrics r)
           = Some (AnthropicService.calculateCost (JS.to_num (totalTokens (metrics r)))
                     "claude-3-opus")
       | JS.Inherited => cost (metrics r) = Some JS.NaN
       | JS.Own price =>
           cost (metrics r)
           = Some (JS.mul (JS.to_num (totalTokens (metrics r)))
                     (JS.to_num (JS.or_opt (Some price) (Some (JS.Fin 0.015))))
                   // JS.of_Z 1000)
       end).
Proof.
  split.
  - intros config prompt env r. unfold OpenAIService.generateResponse.
    rewrite outcome_try_catch.
    destruct env as [t0 [[st [e|m] | [[[u|] [[|[[m|]] cs]|]]|m]] | m] t1]; simpl;
      intros [= <-]; try done.
    intros _. exists u. simpl. split; [done|]. split; [done|].
    unfold OpenAIService.getModelCapabilities, OpenAIService.calculateCost, JS.member.
    destruct (OpenAIService.capabilities_of OpenAIService.modelCapabilities
                (OpenAIService.model_or_default config)) as [capabilities|] eqn:Hown; simpl.
    + done.
    + destruct (JS.inherited (OpenAIService.model_or_default config)); [|done].
      split; [|done]. f_equal. unfold OpenAIService.cost_at. simpl.
      by destruct (JS.to_num (OpenAIService.prompt_tokens u)),
                  (JS.to_num (OpenAIService.completion_tokens u)).
  - intros config prompt env r. unfold AnthropicService.generateResponse.
    rewrite outcome_try_catch.
    destruct env as [t0 [[st [e|m] | [[[[|b bs]|]]|m]] | m] t1]; simpl;
      intros [= <-]; try done.
    intros _. simpl. unfold AnthropicService.calculateCost, JS.member.
    destruct (AnthropicService.price_of AnthropicService.prices
                (AnthropicService.model_or_default config)) as [price|]; [done|].
    destruct (JS.inherited (AnthropicService.model_or_default config)); [|done].
    by destruct (JS.add (estimateTokenCount prompt)
                   (estimateTokenCount (AnthropicService.block_text b))).
Qed.

Lemma unlisted_models_cost_the_default_witness :
  let named (modelName : string) :=
    mkAPI (mkBase "a" "a" true "openai" None None) "key" None (Some modelName) None None
      None in
  let env := mkCallEnv 0 (Sample.chat 40) 2000 in
  OpenAIService.getModelCapabilities (OpenAIService.model_or_default (named "gpt-4o"))
  = JS.Missing ∧
  OpenAIService.getModelCapabilities (OpenAIService.model_or_default (named "toString"))
  = JS.Inherited ∧
  (∃ r, Async.outcome (OpenAIService.generateResponse (named "gpt-4o") "hello" env)
        = Resolved r ∧ error r = None ∧
        cost (metrics r)
        = Some (OpenAIService.calculateCost (JS.of_Z 5) (JS.of_Z 40) "gpt-4") ∧
        contextSize (metrics r) = None) ∧
  (∃ r, Async.outcome (OpenAIService.generateResponse (named "toString") "hello" env)
        = Resolved r ∧ error r = None ∧ cost (metrics r) = Some JS.NaN).
Proof.
  intros named env.
  split; [reflexivity|]. split; [reflexivity|]. split.
  - eexists. split; [reflexivity|]. split; [reflexivity|].
    destruct (proj1 unlisted_models_cost_the_default (named "gpt-4o") "hello" env _
                eq_refl eq_refl) as (u & Hprompt & Hcompletion & Hcost & Hcontext).
    simpl in Hprompt, Hcompletion. split; [|exact Hcontext].
    rewrite Hcost. by rewrite <- Hprompt, <- Hcompletion.
  - eexists. split; [reflexivity|]. split; [reflexivity|].
    destruct (proj1 unlisted_models_cost_the_default (named "toString") "hello" env _
                eq_refl eq_refl) as (u & _ & _ & Hcost & _).
    exact Hcost.
Defined.

(** X25. [OllamaService.listModels] never rejects. It sends one request for
    the tags and fulfils with the names of the listed models, in the order
    of the listing, when the status is a success and the body parses; with
    the empty list when the body has no [models], and in every case of
    failure, where a caller cannot tell an unreachable server from one
    without models. *)
Theorem Ollama_listModels_never_rejects config answer :
  OllamaService.listModels config answer
  = ([OllamaService.tagsRequest config],
     Resolved
       match answer with
       | Resolved (HttpSuccess (Resolved d)) =>
           match OllamaService.models d with
           | Some listed => OllamaService.tag_name <$> listed
           | None => []
           end
       | _ => []
       end)
  ∧ OllamaService.listModels config (Resolved (HttpSuccess (Resolved
      (OllamaService.mkTags (Some [])))))
    = OllamaService.listModels config (Rejected "Failed to fetch").
Proof.
  split; [|reflexivity]. unfold OllamaService.listModels.
  by destruct answer as [[st body|[[[ms|]]|m]]|m].
Qed.

(** ** The first dashboard *)

Section FirstDashboard.
Import Legacy.

Lemma callOpenAI_settles value asked env config :
  openai value = Some config →
  ∃ r, callOpenAI value asked env = ([Fetched (openaiCall config asked)], Resolved r)
       ∧ provider r = "OpenAI".
Proof.
  intros Hconfig. unfold callOpenAI. rewrite Hconfig.
  destruct env as [t0 [[[[u|] [[|[[m|]] cs]|]]|m]|m] t1]; simpl; eauto.
Qed.

Lemma callAnthropic_settles value asked env config :
  anthropic value = Some config →
  ∃ r, callAnthropic value asked env = ([Fetched (anthropicCall config asked)], Resolved r)
       ∧ provider r = "Anthropic".
Proof.
  intros Hconfig. unfold callAnthropic. rewrite Hconfig.
  destruct env as [t0 [[[[[|b bs]|]]|m]|m] t1]; simpl; eauto.
Qed.

Lemma callOllama_settles value asked env config :
  ollama value = Some config →
  ∃ r, callOllama value asked env = ([Fetched (ollamaCall config asked)], Resolved r)
       ∧ provider r = "Ollama".
Proof.
  intros Hconfig. unfold callOllama. rewrite Hconfig.
  destruct env as [t0 [[d|m]|m] t1]; simpl; eauto.
Qed.

Lemma callHuggingFace_settles value asked env config :
  huggingface value = Some config →
  ∃ r, callHuggingFace value asked env
       = ([Fetched (huggingfaceCall config asked)], Resolved r)
       ∧ provider r = "HuggingFace".
Proof.
  intros Hconfig. unfold callHuggingFace. rewrite Hconfig.
  destruct env as [t0 [[[|d ds]|m]|m] t1]; simpl; eauto.
Qed.

Lemma callGGUF_settles value asked env config :
  gguf value = Some config →
  ∃ r, callGGUF value asked env = ([Fetched (ggufCall config asked)], Resolved r)
       ∧ provider r = "GGUF".
Proof.
  intros Hconfig. unfold callGGUF. rewrite Hconfig.
  destruct env as [t0 [[d|m]|m] t1]; simpl; eauto.
Qed.

Lemma compareModels_without_gguf value asked w :
  hosted_present value → gguf value = None →
  compareModels value asked w
  = (Fetched <$> hosted_calls value asked, Rejected (TypeError_undefined "ggufPath")).
Proof.
  destruct value as [o a gl l h g]. unfold hosted_present. simpl.
  intros ([co ->] & [ca ->] & [cl ->] & [ch ->]) ->.
  set (value := mkSettings (Some co) (Some ca) gl (Some cl) (Some ch) None).
  destruct (callOpenAI_settles value asked (openai_reply w) co eq_refl) as (r1 & H1 & _).
  destruct (callAnthropic_settles value asked (anthropic_reply w) ca eq_refl)
    as (r2 & H2 & _).
  destruct (callOllama_settles value asked (ollama_reply w) cl eq_refl) as (r3 & H3 & _).
  destruct (callHuggingFace_settles value asked (huggingface_reply w) ch eq_refl)
    as (r4 & H4 & _).
  unfold compareModels, hosted_calls. rewrite H1, H2, H3, H4. simpl.
  destruct (JS.truthy_str (apiKey co)), (JS.truthy_str (apiKey ca)),
    (JS.truthy_str (baseUrl cl)), (JS.truthy_str (apiKey ch) && JS.truthy_str (modelName ch));
    reflexivity.
Qed.

End FirstDashboard.

Section FirstDashboardStates.
Import Legacy.

Lemma promise_all_of_values {A} order (promises : list (Completion A)) (values : list A) :
  promises = Resolved <$> values → promise_all order promises = Resolved values.
Proof. intros ->. apply promise_all_fulfilled. Qed.

Lemma calls_fetched (sent : list Call) : IO.calls (Fetched <$> sent) = sent.
Proof. induction sent as [|c sent IH]; [done|]. simpl. by f_equal. Qed.

Lemma rendered_keeps_gguf value field_provider field typed :
  rendered field_provider field = true →
  hosted_present value →
  hosted_present (handleSettingChange value field_provider field typed)
  ∧ gguf (handleSettingChange value field_provider field typed) = gguf value.
Proof.
  unfold hosted_present, handleSettingChange.
  intros Hrendered (Ho & Ha & Hl & Hh).
  destruct field_provider, field; try discriminate Hrendered; simpl; eauto 10.
Qed.

Lemma reachable_invariant st :
  reachable st →
  hosted_present (settings st) ∧ gguf (settings st) = None ∧ results st = []
  ∧ isComparing st = false.
Proof.
  induction 1 as [|st typed _ IH|st field_provider field typed _ IH Hrendered|st w _ IH].
  - unfold hosted_present. simpl. eauto 10.
  - exact IH.
  - destruct IH as (Hhosted & Hgguf & Hresults & Hidle). simpl.
    destruct (rendered_keeps_gguf (settings st) field_provider field typed Hrendered Hhosted)
      as [Hhosted' Hgguf'].
    split; [done|]. split; [congruence|done].
  - destruct IH as (Hhosted & Hgguf & Hresults & Hidle). unfold handleCompare.
    destruct (String.eqb (JS.trim (prompt st)) ""); [done|].
    destruct (negb (hasConfiguredModel (settings st))); [done|].
    by rewrite (compareModels_without_gguf _ _ _ Hhosted Hgguf).
Qed.

End FirstDashboardStates.

(** X26. The first dashboard never shows a comparison. In every state the
    component can reach (typing a prompt, typing into an input of its
    settings panel, clicking Compare) the settings have no [gguf] entry, the
    panel offering no input that would create one, and the list of results
    is empty. *)
Theorem first_dashboard_never_shows_a_result st :
  Legacy.reachable st →
  Legacy.gguf (Legacy.settings st) = None ∧ Legacy.results st = [].
Proof.
  intros Hreach. destruct (reachable_invariant st Hreach) as (_ & Hgguf & Hresults & _).
  by split.
Qed.

Lemma first_dashboard_never_shows_a_result_witness :
  let typed := Legacy.mkState "hello" false (Legacy.settings Legacy.initial) [] in
  let configured :=
    Legacy.mkState "hello" false
      (Legacy.handleSettingChange (Legacy.settings typed) Legacy.OpenAI Legacy.ApiKey "sk-1")
      [] in
  let w :=
    Legacy.mkWorld (Legacy.mkReply 0 (Resolved (Resolved (OpenAIService.mkChatData
        (Some (OpenAIService.mkUsage (Some (JS.of_Z 5)) (Some (JS.of_Z 40))
                 (Some (JS.of_Z 45))))
        (Some [OpenAIService.mkChoice (Some (OpenAIService.mkMessage "hi"))])))) 2000)
      (Legacy.mkReply 0 Sample.unreachable 1) (Legacy.mkReply 0 Sample.unreachable 1)
      (Legacy.mkReply 0 Sample.unreachable 1) (Legacy.mkReply 0 Sample.unreachable 1) [] in
  Legacy.reachable (Legacy.state (Legacy.handleCompare configured w)) ∧
  Legacy.results (Legacy.state (Legacy.handleCompare configured w)) = [].
Proof.
  intros typed configured w.
  assert (Hreach : Legacy.reachable (Legacy.state (Legacy.handleCompare configured w))).
  { apply Legacy.reach_compare.
    apply (Legacy.reach_setting typed Legacy.OpenAI Legacy.ApiKey "sk-1"); [|reflexivity].
    apply (Legacy.reach_prompt Legacy.initial "hello"). apply Legacy.reach_initial. }
  split; [exact Hreach|].
  exact (proj2 (first_dashboard_never_shows_a_result _ Hreach)).
Defined.

(** X27. In the first dashboard a click of Compare that passes both guards
    always fails: [compareModels] calls the hosted providers that are
    configured, then throws on the missing [gguf] settings before it awaits
    any of them, and the component shows "An error occurred while comparing
    models" and keeps its empty results. *)
Theorem first_dashboard_compare_always_fails st w :
  Legacy.reachable st →
  JS.trim (Legacy.prompt st) ≠ "" →
  Legacy.hasConfiguredModel (Legacy.settings st) = true →
  Legacy.handleCompare st w
  = Legacy.mkEffects
      [Legacy.destructive "Error" "An error occurred while comparing models"]
      (Legacy.hosted_calls (Legacy.settings st) (Legacy.prompt st))
      (Legacy.mkState (Legacy.prompt st) false (Legacy.settings st) [])
  ∧ IO.outcome (Legacy.compareModels (Legacy.settings st) (Legacy.prompt st) w)
    = Rejected (TypeError_undefined "ggufPath").
Proof.
  intros Hreach Hprompt Hconfigured.
  destruct (reachable_invariant st Hreach) as (Hhosted & Hgguf & Hresults & _).
  unfold Legacy.handleCompare.
  destruct (String.eqb_spec (JS.trim (Legacy.prompt st)) ""); [done|].
  rewrite Hconfigured. simpl.
  rewrite (compareModels_without_gguf _ _ _ Hhosted Hgguf).
  by rewrite calls_fetched, Hresults.
Qed.

Lemma first_dashboard_compare_always_fails_witness :
  let st :=
    Legacy.mkState "hello" false
      (Legacy.handleSettingChange (Legacy.settings Legacy.initial)
         Legacy.OpenAI Legacy.ApiKey "sk-1") [] in
  let w :=
    Legacy.mkWorld (Legacy.mkReply 0 (Resolved (Resolved (OpenAIService.mkChatData
        (Some (OpenAIService.mkUsage (Some (JS.of_Z 5)) (Some (JS.of_Z 40))
                 (Some (JS.of_Z 45))))
        (Some [OpenAIService.mkChoice (Some (OpenAIService.mkMessage "hi"))])))) 2000)
      (Legacy.mkReply 0 Sample.unreachable 1) (Legacy.mkReply 0 Sample.unreachable 1)
      (Legacy.mkReply 0 Sample.unreachable 1) (Legacy.mkReply 0 Sample.unreachable 1) [] in
  Legacy.reachable st ∧
  JS.trim (Legacy.prompt st) ≠ "" ∧
  Legacy.hasConfiguredModel (Legacy.settings st) = true ∧
  Legacy.title <$> Legacy.toasts (Legacy.handleCompare st w) = ["Error"] ∧
  call_url <$> Legacy.sent (Legacy.handleCompare st w)
  = ["https://api.openai.com/v1/chat/completions"].
Proof.
  intros st w.
  assert (Hreach : Legacy.reachable st).
  { apply (Legacy.reach_setting (Legacy.mkState "hello" false
             (Legacy.settings Legacy.initial) []) Legacy.OpenAI Legacy.ApiKey "sk-1");
      [|reflexivity].
    apply (Legacy.reach_prompt Legacy.initial "hello"). apply Legacy.reach_initial. }
  assert (Hprompt : JS.trim (Legacy.prompt st) ≠ "") by discriminate.
  assert (Hconfigured : Legacy.hasConfiguredModel (Legacy.settings st) = true)
    by reflexivity.
  split; [exact Hreach|]. split; [exact Hprompt|]. split; [exact Hconfigured|].
  rewrite (proj1 (first_dashboard_compare_always_fails st w Hreach Hprompt Hconfigured)).
  split; reflexivity.
Defined.

(** X28. With settings for every provider it reads, [ModelService.compareModels]
    never rejects: it calls the configured providers in the order OpenAI,
    Anthropic, Ollama, HuggingFace, GGUF, one request each, and fulfils with
    one response per call in that order, whatever the replies are and in
    whatever order the calls settle. *)
Theorem compareModels_answers_in_calling_order value asked w :
  Legacy.hosted_present value → is_Some (Legacy.gguf value) →
  let compared := Legacy.compareModels value asked w in
  ∃ responses,
    IO.outcome compared = Resolved responses
    ∧ Legacy.provider <$> responses = Legacy.configured value
    ∧ IO.calls (IO.events compared)
      = Legacy.hosted_calls value asked
        ++ (if JS.truthy_str (Legacy.ggufPath (default Legacy.empty (Legacy.gguf value)))
            then [Legacy.ggufCall (default Legacy.empty (Legacy.gguf value)) asked]
            else []).
Proof.
  destruct value as [o a gl l h g]. unfold Legacy.hosted_present. simpl.
  intros ([co ->] & [ca ->] & [cl ->] & [ch ->]) [cg ->].
  set (value := Legacy.mkSettings (Some co) (Some ca) gl (Some cl) (Some ch) (Some cg)).
  destruct (callOpenAI_settles value asked (Legacy.openai_reply w) co eq_refl)
    as (r1 & H1 & P1).
  destruct (callAnthropic_settles value asked (Legacy.anthropic_reply w) ca eq_refl)
    as (r2 & H2 & P2).
  destruct (callOllama_settles value asked (Legacy.ollama_reply w) cl eq_refl)
    as (r3 & H3 & P3).
  destruct (callHuggingFace_settles value asked (Legacy.huggingface_reply w) ch eq_refl)
    as (r4 & H4 & P4).
  destruct (callGGUF_settles value asked (Legacy.gguf_reply w) cg eq_refl)
    as (r5 & H5 & P5).
  exists ((if JS.truthy_str (Legacy.apiKey co) then [r1] else [])
          ++ (if JS.truthy_str (Legacy.apiKey ca) then [r2] else [])
          ++ (if JS.truthy_str (Legacy.baseUrl cl) then [r3] else [])
          ++ (if JS.truthy_str (Legacy.apiKey ch) && JS.truthy_str (Legacy.modelName ch)
              then [r4] else [])
          ++ (if JS.truthy_str (Legacy.ggufPath cg) then [r5] else [])).
  unfold Legacy.compareModels, Legacy.hosted_calls, Legacy.configured.
  rewrite H1, H2, H3, H4, H5. simpl.
  destruct (JS.truthy_str (Legacy.apiKey co)), (JS.truthy_str (Legacy.apiKey ca)),
    (JS.truthy_str (Legacy.baseUrl cl)),
    (JS.truthy_str (Legacy.apiKey ch) && JS.truthy_str (Legacy.modelName ch)),
    (JS.truthy_str (Legacy.ggufPath cg)); simpl;
    (split; [by apply promise_all_of_values|]); rewrite ?P1, ?P2, ?P3, ?P4, ?P5; done.
Qed.

Lemma compareModels_answers_in_calling_order_witness :
  let value :=
    Legacy.mkSettings
      (Some (Legacy.mkConfig (Some "sk-1") None None None None None))
      (Some Legacy.empty) (Some Legacy.empty)
      (Some (Legacy.mkConfig None (Some "http://localhost:11434") None None None None))
      (Some Legacy.empty) (Some Legacy.empty) in
  let w :=
    Legacy.mkWorld (Legacy.mkReply 0 Sample.unreachable 1)
      (Legacy.mkReply 0 Sample.unreachable 1)
      (Legacy.mkReply 0 (Resolved (Resolved (Legacy.mkGenerate (Some "hi")))) 300)
      (Legacy.mkReply 0 Sample.unreachable 1) (Legacy.mkReply 0 Sample.unreachable 1) [1] in
  Legacy.hosted_present value ∧ is_Some (Legacy.gguf value) ∧
  ∃ responses,
    IO.outcome (Legacy.compareModels value "hello" w) = Resolved responses ∧
    Legacy.provider <$> responses = ["OpenAI"; "Ollama"] ∧
    Legacy.error <$> responses = [Some "Failed to fetch"; None].
Proof.
  intros value w.
  assert (Hhosted : Legacy.hosted_present value).
  { unfold Legacy.hosted_present. simpl. eauto 10. }
  assert (Hgguf : is_Some (Legacy.gguf value)) by (simpl; eauto).
  split; [exact Hhosted|]. split; [exact Hgguf|].
  destruct (compareModels_answers_in_calling_order value "hello" w Hhosted Hgguf)
    as (responses & Hout & Hproviders & _).
  exists responses. split; [exact Hout|]. split; [exact Hproviders|].
  assert (Hvalue : IO.outcome (Legacy.compareModels value "hello" w)
                   = Resolved [Legacy.failure "OpenAI" (Some "GPT-4") "Failed to fetch";
                               Legacy.mkResponse (Some "hi") (JS.of_Z 300) (JS.of_Z 0)
                                 "Ollama" (Some "llama2") None])
    by (vm_compute; reflexivity).
  rewrite Hvalue in Hout. injection Hout as <-. reflexivity.
Defined.
